(** * Personalized Patient Education System: record store, scorer and
      structured-response parsing

    A shallow embedding of [app.py].  The application keeps three persisted
    collections (patients, generated materials, chat histories) and one
    volatile collection (knowledge assessments) in the Streamlit session
    state, and serialises the persisted ones to a single JSON file.

    Conventions of the embedding.
    - A Python [str] is a list of Unicode code points ([pystr]).
    - A Python object that can live in the session state is a [value]
      (None, bool, int, float, str, list, dict with string keys), which is
      what [json.load] produces and what the handlers build.
    - The [json] and [uuid] modules of the Python standard library are
      modelled after their CPython implementation.
    - Handlers are state transformers over a [world] (session state and the
      content of [patient_education_data.json]) that either return or raise
      a Python exception; the state reached when an exception is raised is
      kept, since Python does not roll back earlier mutations.
    - The widgets of a page are not modelled; a handler takes what the user
      entered or pressed, the reply of the generation service, the random
      draw of [uuid.uuid4()] and the time stamps as arguments.

    Characters are written by code point: 34 is the double quote, 92 the
    backslash, 96 the backquote, 44 the comma, 58 the colon, 45 the minus
    sign, 46 the point, 48 to 57 the digits, 91 and 93 the brackets, 123
    and 125 the braces, 32 the space, 10 the line feed.

    Outside the model: floating-point values (a float is kept as the text
    it was read from), the limits CPython puts on the digits of an integer
    and on the depth of recursion, and input/output errors other than a
    missing file. *)

From Stdlib Require Import Ascii String List ZArith NArith Lia Bool.
From Stdlib Require DecimalN DecimalPos DecimalFacts.
Import ListNotations.

(* ================================================================== *)
(** * Part I: definitions *)
(* ================================================================== *)

(** ** Python strings *)

(** A string is the sequence of its code points. *)
Definition pystr : Type := list N.

(** ASCII literals of the source. *)
Definition lit (s : string) : pystr := map N_of_ascii (list_ascii_of_string s).
Arguments lit s%_string.

Definition pystr_eqb (a b : pystr) : bool :=
  if list_eq_dec N.eq_dec a b then true else false.

(** [str.isspace] on one character, as [str.strip()] uses it
    (CPython's [_PyUnicode_IsWhitespace]). *)
Definition is_space (c : N) : bool :=
  (((9 <=? c) && (c <=? 13)) || ((28 <=? c) && (c <=? 32))
   || (c =? 133) || (c =? 160) || (c =? 5760)
   || ((8192 <=? c) && (c <=? 8202))
   || (c =? 8232) || (c =? 8233) || (c =? 8239) || (c =? 8287)
   || (c =? 12288))%N.

Fixpoint dropwhile (p : N -> bool) (s : pystr) : pystr :=
  match s with
  | [] => []
  | c :: s' => if p c then dropwhile p s' else s
  end.

Definition lstrip (s : pystr) : pystr := dropwhile is_space s.
Definition rstrip (s : pystr) : pystr := rev (dropwhile is_space (rev s)).

(** [s.strip()] *)
Definition strip (s : pystr) : pystr := rstrip (lstrip s).

(** [s.startswith(p)] *)
Fixpoint startswith (p s : pystr) : bool :=
  match p, s with
  | [], _ => true
  | a :: p', b :: s' => (a =? b)%N && startswith p' s'
  | _ :: _, [] => false
  end.

(** Left-to-right scan of [s.replace(old, new)] for a non-empty [old];
    [skip] counts the characters of a match still to be dropped. *)
Fixpoint replace_from (old new : pystr) (skip : nat) (s : pystr) : pystr :=
  match s with
  | [] => []
  | c :: s' =>
      match skip with
      | S k => replace_from old new k s'
      | O =>
          if startswith old s
          then new ++ replace_from old new (length old - 1) s'
          else c :: replace_from old new 0 s'
      end
  end.

(** [s.replace(old, new)]: every non-overlapping occurrence, from the left;
    an empty [old] matches before every character and at the end. *)
Definition replace (old new s : pystr) : pystr :=
  match old with
  | [] => new ++ flat_map (fun c => c :: new) s
  | _ :: _ => replace_from old new 0 s
  end.

(** [sep.join(parts)] *)
Fixpoint join (sep : pystr) (parts : list pystr) : pystr :=
  match parts with
  | [] => []
  | [p] => p
  | p :: ps => p ++ sep ++ join sep ps
  end.

(** *** Decimal formatting of integers ([str(int)], [int(str)]) *)

Definition is_digit (c : N) : bool := ((48 <=? c) && (c <=? 57))%N.

Fixpoint uint_chars (u : Decimal.uint) : pystr :=
  match u with
  | Decimal.Nil => []
  | Decimal.D0 u => 48%N :: uint_chars u
  | Decimal.D1 u => 49%N :: uint_chars u
  | Decimal.D2 u => 50%N :: uint_chars u
  | Decimal.D3 u => 51%N :: uint_chars u
  | Decimal.D4 u => 52%N :: uint_chars u
  | Decimal.D5 u => 53%N :: uint_chars u
  | Decimal.D6 u => 54%N :: uint_chars u
  | Decimal.D7 u => 55%N :: uint_chars u
  | Decimal.D8 u => 56%N :: uint_chars u
  | Decimal.D9 u => 57%N :: uint_chars u
  end.

Definition digit_cons (c : N) (u : Decimal.uint) : Decimal.uint :=
  (if c =? 48 then Decimal.D0 u else if c =? 49 then Decimal.D1 u else if c =? 50 then Decimal.D2 u
   else if c =? 51 then Decimal.D3 u else if c =? 52 then Decimal.D4 u
   else if c =? 53 then Decimal.D5 u else if c =? 54 then Decimal.D6 u
   else if c =? 55 then Decimal.D7 u else if c =? 56 then Decimal.D8 u else Decimal.D9 u)%N.

(** The longest prefix of decimal digits, and what follows it. *)
Fixpoint scan_uint (s : pystr) : Decimal.uint * pystr :=
  match s with
  | [] => (Decimal.Nil, [])
  | c :: s' =>
      if is_digit c
      then let (u, r) := scan_uint s' in (digit_cons c u, r)
      else (Decimal.Nil, s)
  end.

Definition str_of_N (n : N) : pystr := uint_chars (N.to_uint n).

(** [str(z)] for an int *)
Definition str_of_Z (z : Z) : pystr :=
  match z with
  | Zneg p => 45%N :: str_of_N (Npos p)
  | _ => str_of_N (Z.to_N z)
  end.

Definition str_of_nat (n : nat) : pystr := str_of_N (N.of_nat n).

(** ** Python objects *)

(** The objects the session state holds.  A float is kept as the lexeme it
    was read from: floating-point arithmetic is outside this development,
    and no handler of the application creates a float. *)
Unset Elimination Schemes.
Inductive value : Type :=
| VNone
| VBool (b : bool)
| VInt (n : Z)
| VFloat (lexeme : pystr)
| VStr (s : pystr)
| VList (items : list value)
| VDict (entries : list (pystr * value)).
Set Elimination Schemes.

(** *** Dictionaries: insertion-ordered, one entry per key *)

Definition dict : Type := list (pystr * value).

(** [d.get(k)] / lookup *)
Fixpoint dict_get (k : pystr) (d : dict) : option value :=
  match d with
  | [] => None
  | (k', v) :: d' => if pystr_eqb k k' then Some v else dict_get k d'
  end.

(** [d[k] = v]: overwrite in place, or append a new entry *)
Fixpoint dict_set (k : pystr) (v : value) (d : dict) : dict :=
  match d with
  | [] => [(k, v)]
  | (k', v') :: d' =>
      if pystr_eqb k k' then (k', v) :: d' else (k', v') :: dict_set k v d'
  end.

(** [dict(pairs)] *)
Definition dict_of_pairs (pairs : list (pystr * value)) : dict :=
  fold_left (fun d kv => dict_set (fst kv) (snd kv) d) pairs [].

Definition keys (d : dict) : list pystr := map fst d.

(** *** Equality [a == b] *)

(** Python's [==] on these objects: [bool] is an [int]; lists compare
    element-wise; dicts compare as maps, whatever the insertion order.
    Floats are compared by lexeme (see [value]). *)
Fixpoint py_eq (a b : value) {struct a} : bool :=
  match a, b with
  | VNone, VNone => true
  | VBool x, VBool y => Bool.eqb x y
  | VBool x, VInt y => (y =? (if x then 1 else 0))%Z
  | VInt x, VBool y => (x =? (if y then 1 else 0))%Z
  | VInt x, VInt y => (x =? y)%Z
  | VFloat x, VFloat y => pystr_eqb x y
  | VStr x, VStr y => pystr_eqb x y
  | VList xs, VList ys =>
      (fix all2 (xs ys : list value) : bool :=
         match xs, ys with
         | [], [] => true
         | x :: xs', y :: ys' => py_eq x y && all2 xs' ys'
         | _, _ => false
         end) xs ys
  | VDict d1, VDict d2 =>
      (length d1 =? length d2)%nat &&
      (fix sub (d : dict) : bool :=
         match d with
         | [] => true
         | (k, v) :: d' =>
             match dict_get k d2 with
             | Some v' => py_eq v v' && sub d'
             | None => false
             end
         end) d1
  | _, _ => false
  end.

(** ** The [json] module *)

(** *** [json.dumps]: default separators, [ensure_ascii=True] *)

(** One lower-case hexadecimal digit, as ['%x'] prints it. *)
Definition hex_digit (n : N) : N := (if n <? 10 then 48 + n else 87 + n)%N.

(** ['\\u%04x' % n] *)
Definition u_escape (n : N) : pystr :=
  [92; 117; hex_digit (n / 4096 mod 16); hex_digit (n / 256 mod 16);
   hex_digit (n / 16 mod 16); hex_digit (n mod 16)]%N.

(** The replacement of one character in [encode_basestring_ascii]:
    the short escapes of [ESCAPE_DCT], printable ASCII unchanged, and
    [\uXXXX] (a surrogate pair above the basic plane) for the rest. *)
Definition escape_char (c : N) : pystr :=
  (if c =? 34 then [92; 34]
   else if c =? 92 then [92; 92]
   else if c =? 10 then [92; 110]
   else if c =? 13 then [92; 114]
   else if c =? 9 then [92; 116]
   else if c =? 12 then [92; 102]
   else if c =? 8 then [92; 98]
   else if (32 <=? c) && (c <=? 126) then [c]
   else if c <? 65536 then u_escape c
   else
     let n := c - 65536 in
     u_escape (N.lor 55296 (N.land (N.shiftr n 10) 1023))
     ++ u_escape (N.lor 56320 (N.land n 1023)))%N.

Definition encode_basestring_ascii (s : pystr) : pystr :=
  34%N :: flat_map escape_char s ++ [34%N].

(** [json.dumps(v)].  Items are separated by [", "], a key from its value
    by [": "]. *)
Fixpoint json_dumps (v : value) : pystr :=
  match v with
  | VNone => lit "null"
  | VBool true => lit "true"
  | VBool false => lit "false"
  | VInt n => str_of_Z n
  | VFloat lexeme => lexeme
  | VStr s => encode_basestring_ascii s
  | VList items =>
      91%N :: join (lit ", ") (map json_dumps items) ++ [93%N]
  | VDict entries =>
      123%N ::
      join (lit ", ")
        (map (fun kv => encode_basestring_ascii (fst kv) ++ lit ": "
                        ++ json_dumps (snd kv)) entries)
      ++ [125%N]
  end.

(** *** [json.loads]: CPython's scanner, [strict=True] *)

(** [WHITESPACE = "[ \t\n\r]*"] *)
Definition is_json_ws (c : N) : bool :=
  ((c =? 32) || (c =? 9) || (c =? 10) || (c =? 13))%N.

Definition skip_ws (s : pystr) : pystr := dropwhile is_json_ws s.

Definition hex_val (c : N) : option N :=
  (if (48 <=? c) && (c <=? 57) then Some (c - 48)
   else if (97 <=? c) && (c <=? 102) then Some (c - 87)
   else if (65 <=? c) && (c <=? 70) then Some (c - 55)
   else None)%N.

(** [_decode_uXXXX]: four hexadecimal digits *)
Definition hex4 (a b c d : N) : option N :=
  match hex_val a, hex_val b, hex_val c, hex_val d with
  | Some x, Some y, Some z, Some w => Some (((x * 16 + y) * 16 + z) * 16 + w)%N
  | _, _, _, _ => None
  end.

(** [BACKSLASH]: the one-letter escapes *)
Definition backslash (e : N) : option N :=
  (if e =? 34 then Some 34 else if e =? 92 then Some 92
   else if e =? 47 then Some 47 else if e =? 98 then Some 8
   else if e =? 102 then Some 12 else if e =? 110 then Some 10
   else if e =? 114 then Some 13 else if e =? 116 then Some 9
   else None)%N.

Definition is_high_surrogate (u : N) : bool := ((55296 <=? u) && (u <=? 56319))%N.
Definition is_low_surrogate (u : N) : bool := ((56320 <=? u) && (u <=? 57343))%N.

Definition cons_fst (c : N) (r : option (pystr * pystr)) : option (pystr * pystr) :=
  match r with
  | Some (content, rest) => Some (c :: content, rest)
  | None => None
  end.

(** [py_scanstring(s, end)], entered after the opening quote.  Returns the
    decoded content and the text after the closing quote; a control
    character, a bad escape or a missing closing quote is an error. *)
Fixpoint scanstring (s : pystr) : option (pystr * pystr) :=
  match s with
  | [] => None
  | c :: s1 =>
      if (c =? 34)%N then Some ([], s1)
      else if (c =? 92)%N then
        match s1 with
        | [] => None
        | e :: s2 =>
            if (e =? 117)%N then
              match s2 with
              | a :: b :: c' :: d :: s3 =>
                  match hex4 a b c' d with
                  | None => None
                  | Some uni =>
                      if is_high_surrogate uni && startswith [92; 117]%N s3
                      then
                        match s3 with
                        | _ :: _ :: a2 :: b2 :: c2 :: d2 :: s4 =>
                            match hex4 a2 b2 c2 d2 with
                            | None => None
                            | Some uni2 =>
                                if is_low_surrogate uni2
                                then cons_fst
                                       (65536 + N.lor (N.shiftl (uni - 55296) 10)
                                                      (uni2 - 56320))%N
                                       (scanstring s4)
                                else cons_fst uni (scanstring s3)
                            end
                        | _ => None
                        end
                      else cons_fst uni (scanstring s3)
                  end
              | _ => None
              end
            else
              match backslash e with
              | Some c' => cons_fst c' (scanstring s2)
              | None => None
              end
        end
      else if (c <? 32)%N then None
      else cons_fst c (scanstring s1)
  end.

(** The optional fraction of [NUMBER_RE]: ["."] and at least one digit. *)
Definition scan_frac (s : pystr) : option pystr :=
  match s with
  | c :: (d :: _) as s1 =>
      if (c =? 46)%N && is_digit d then Some (snd (scan_uint s1)) else None
  | _ => None
  end.

(** The optional exponent: [e] or [E], an optional sign, at least one digit. *)
Definition scan_exp (s : pystr) : option pystr :=
  let digits (s1 : pystr) :=
    match s1 with
    | d :: _ => if is_digit d then Some (snd (scan_uint s1)) else None
    | [] => None
    end in
  match s with
  | e :: s1 =>
      if ((e =? 101) || (e =? 69))%N then
        match s1 with
        | sg :: s2 => if ((sg =? 43) || (sg =? 45))%N then digits s2 else digits s1
        | [] => None
        end
      else None
  | [] => None
  end.

(** The text of [s] up to the suffix [rest]. *)
Definition consumed (s rest : pystr) : pystr := firstn (length s - length rest) s.

(** The number that starts at [body], where [s] is [body] with its sign:
    an integer part without leading zeros, then the optional fraction and
    exponent; an integer unless one of them is there. *)
Definition scan_unsigned (negative : bool) (s body : pystr)
  : option (value * pystr) :=
  match body with
  | [] => None
  | d :: body' =>
      if is_digit d then
        let (u, r0) := if (d =? 48)%N then (Decimal.D0 Decimal.Nil, body')
                       else scan_uint body in
        let r1 := match scan_frac r0 with Some r => r | None => r0 end in
        let r2 := match scan_exp r1 with Some r => r | None => r1 end in
        match scan_frac r0, scan_exp r1 with
        | None, None =>
            Some (VInt (if negative then - Z.of_N (N.of_uint u)
                        else Z.of_N (N.of_uint u)), r0)
        | _, _ => Some (VFloat (consumed s r2), r2)
        end
      else None
  end.

(** [NUMBER_RE.match] *)
Definition scan_number (s : pystr) : option (value * pystr) :=
  if startswith [45%N] s then scan_unsigned true s (skipn 1 s)
  else scan_unsigned false s s.

(** The constants the scanner accepts besides numbers. *)
Definition scan_constant (s : pystr) : option (value * pystr) :=
  if startswith (lit "NaN") s then Some (VFloat (lit "NaN"), skipn 3 s)
  else if startswith (lit "Infinity") s then Some (VFloat (lit "Infinity"), skipn 8 s)
  else if startswith (lit "-Infinity") s then Some (VFloat (lit "-Infinity"), skipn 9 s)
  else None.

(** [scan_once], [JSONArray] and [JSONObject].  The three functions call
    each other; [fuel] bounds the calls ([json_loads] gives enough). *)
Fixpoint scan_once (fuel : nat) (s : pystr) : option (value * pystr) :=
  match fuel with
  | O => None
  | S fuel' =>
      match s with
      | [] => None
      | c :: s1 =>
          if (c =? 34)%N then
            match scanstring s1 with
            | Some (content, rest) => Some (VStr content, rest)
            | None => None
            end
          else if (c =? 123)%N then
            if startswith [125%N] (skip_ws s1)
            then Some (VDict [], skipn 1 (skip_ws s1))
            else JSONObject fuel' (skip_ws s1) []
          else if (c =? 91)%N then
            if startswith [93%N] (skip_ws s1)
            then Some (VList [], skipn 1 (skip_ws s1))
            else JSONArray fuel' (skip_ws s1) []
          else if startswith (lit "null") s then Some (VNone, skipn 4 s)
          else if startswith (lit "true") s then Some (VBool true, skipn 4 s)
          else if startswith (lit "false") s then Some (VBool false, skipn 5 s)
          else
            match scan_number s with
            | Some r => Some r
            | None => scan_constant s
            end
      end
  end

with JSONArray (fuel : nat) (s : pystr) (acc : list value)
  : option (value * pystr) :=
  match fuel with
  | O => None
  | S fuel' =>
      match scan_once fuel' s with
      | None => None
      | Some (v, s1) =>
          match skip_ws s1 with
          | c :: s2 =>
              if (c =? 93)%N then Some (VList (rev (v :: acc)), s2)
              else if (c =? 44)%N then JSONArray fuel' (skip_ws s2) (v :: acc)
              else None
          | [] => None
          end
      end
  end

with JSONObject (fuel : nat) (s : pystr) (acc : list (pystr * value))
  : option (value * pystr) :=
  match fuel with
  | O => None
  | S fuel' =>
      if startswith [34%N] s then
        match scanstring (skipn 1 s) with
        | None => None
        | Some (key, s2) =>
            if startswith [58%N] (skip_ws s2) then
              match scan_once fuel' (skip_ws (skipn 1 (skip_ws s2))) with
              | None => None
              | Some (v, s4) =>
                  match skip_ws s4 with
                  | c :: s5 =>
                      if (c =? 125)%N
                      then Some (VDict (dict_of_pairs (rev ((key, v) :: acc))), s5)
                      else if (c =? 44)%N
                      then JSONObject fuel' (skip_ws s5) ((key, v) :: acc)
                      else None
                  | [] => None
                  end
              end
            else None
        end
      else None
  end.

(** [json.loads(s)]: one value, possibly surrounded by whitespace, and
    nothing else; a leading byte-order mark is refused. *)
Definition json_loads (s : pystr) : option value :=
  if startswith [65279%N] s then None
  else
    match scan_once (2 * length s + 2) (skip_ws s) with
    | Some (v, rest) =>
        match skip_ws rest with
        | [] => Some v
        | _ :: _ => None
        end
    | None => None
    end.

(** ** The [uuid] module *)

(** [uuid.uuid4()] as a function of the 16 random bytes it draws, read as
    a big-endian integer: the variant bits are set to RFC 4122 and the
    version bits to 4. *)
Definition uuid4 (rnd : N) : N :=
  let i := N.lor (N.ldiff rnd (N.shiftl 49152 48)) (N.shiftl 32768 48) in
  N.lor (N.ldiff i (N.shiftl 61440 64)) (N.shiftl 4 76).

(** ['%0kx' % n] for a number below [16 ^ k] *)
Fixpoint hex_digits (k : nat) (n : N) : pystr :=
  match k with
  | O => []
  | S k' => hex_digits k' (n / 16) ++ [hex_digit (n mod 16)]
  end.

(** The 8-4-4-4-12 grouping of [UUID.__str__] *)
Definition hyphenate (h : pystr) : pystr :=
  firstn 8 h ++ 45%N :: firstn 4 (skipn 8 h) ++ 45%N :: firstn 4 (skipn 12 h)
  ++ 45%N :: firstn 4 (skipn 16 h) ++ 45%N :: skipn 20 h.

(** [str(u)] for a UUID with integer value [u] *)
Definition uuid_str (u : N) : pystr := hyphenate (hex_digits 32 u).

(** ** The session state and the data file *)

(** [st.session_state]: the four collections of the application. *)
Record session_state : Type := {
  patient_records : value;
  generated_materials : value;
  chat_history : value;
  patient_assessments : value
}.

(** The session state and the content of [patient_education_data.json]
    ([None] when the file does not exist). *)
Record world : Type := {
  session : session_state;
  disk : option pystr
}.

(** The state at the start of a session (lines 25-32). *)
Definition initial_session : session_state :=
  {| patient_records := VList []; generated_materials := VList [];
     chat_history := VDict []; patient_assessments := VDict [] |}.

(** Python exceptions that the modelled statements raise.  [RemoteError]
    stands for whatever the call of the generation service raises;
    [OutOfModel] marks a run that leaves the fragment of Python modelled
    here (a dict key that is not a string, the text form of a float or of
    a container). *)
Inductive exn : Type :=
| KeyError | IndexError | AttributeError | TypeError | ValueError
| JSONDecodeError | RemoteError | OutOfModel.

Inductive result (A : Type) : Type :=
| Return (a : A)
| Raise (e : exn).
Arguments Return {A} a.
Arguments Raise {A} e.

(** Computations over the world.  The world is returned in both cases. *)
Definition M (A : Type) : Type := world -> result A * world.

Definition ret {A} (a : A) : M A := fun w => (Return a, w).

Definition raise {A} (e : exn) : M A := fun w => (Raise e, w).

Definition bind {A B} (m : M A) (k : A -> M B) : M B :=
  fun w =>
    match m w with
    | (Return a, w') => k a w'
    | (Raise e, w') => (Raise e, w')
    end.

Definition lift {A} (r : result A) : M A := fun w => (r, w).

Declare Scope py_scope.
Delimit Scope py_scope with py.
Notation "x <- m ;; k" := (bind m (fun x => k))
  (at level 61, m at next level, right associativity) : py_scope.
Notation "m ;; k" := (bind m (fun _ => k))
  (at level 61, right associativity) : py_scope.
Open Scope py_scope.

(** [try: body except Exception: handler] *)
Definition try_except {A} (body : M A) (handler : exn -> M A) : M A :=
  fun w =>
    match body w with
    | (Raise OutOfModel, w') => (Raise OutOfModel, w')
    | (Raise e, w') => handler e w'
    | r => r
    end.

Definition get {A} (f : session_state -> A) : M A :=
  fun w => (Return (f (session w)), w).

Definition set_patient_records (v : value) : M unit :=
  fun w =>
    (Return tt,
     {| session := {| patient_records := v;
                      generated_materials := generated_materials (session w);
                      chat_history := chat_history (session w);
                      patient_assessments := patient_assessments (session w) |};
        disk := disk w |}).

Definition set_generated_materials (v : value) : M unit :=
  fun w =>
    (Return tt,
     {| session := {| patient_records := patient_records (session w);
                      generated_materials := v;
                      chat_history := chat_history (session w);
                      patient_assessments := patient_assessments (session w) |};
        disk := disk w |}).

Definition set_chat_history (v : value) : M unit :=
  fun w =>
    (Return tt,
     {| session := {| patient_records := patient_records (session w);
                      generated_materials := generated_materials (session w);
                      chat_history := v;
                      patient_assessments := patient_assessments (session w) |};
        disk := disk w |}).

Definition set_patient_assessments (v : value) : M unit :=
  fun w =>
    (Return tt,
     {| session := {| patient_records := patient_records (session w);
                      generated_materials := generated_materials (session w);
                      chat_history := chat_history (session w);
                      patient_assessments := v |};
        disk := disk w |}).

(** *** Operations of the Python objects *)

(** Truth value of an object (a float lexeme counts as true) *)
Definition py_truthy (v : value) : bool :=
  match v with
  | VNone => false
  | VBool b => b
  | VInt n => negb (n =? 0)%Z
  | VFloat _ => true
  | VStr s => negb (pystr_eqb s [])
  | VList xs => match xs with [] => false | _ => true end
  | VDict d => match d with [] => false | _ => true end
  end.

(** A list index, counted from the end when negative *)
Definition norm_index (len : nat) (i : Z) : option nat :=
  let j := (if i <? 0 then i + Z.of_nat len else i)%Z in
  if ((0 <=? j) && (j <? Z.of_nat len))%Z then Some (Z.to_nat j) else None.

Definition index_of (k : value) : option Z :=
  match k with
  | VInt i => Some i
  | VBool b => Some (if b then 1 else 0)%Z
  | _ => None
  end.

(** [c[k]] *)
Definition py_getitem (c k : value) : result value :=
  match c with
  | VDict d =>
      match k with
      | VStr s => match dict_get s d with Some v => Return v | None => Raise KeyError end
      | VList _ | VDict _ => Raise TypeError
      | _ => Raise KeyError
      end
  | VList xs =>
      match index_of k with
      | Some i =>
          match norm_index (length xs) i with
          | Some j => match nth_error xs j with Some v => Return v | None => Raise IndexError end
          | None => Raise IndexError
          end
      | None => Raise TypeError
      end
  | VStr s =>
      match index_of k with
      | Some i =>
          match norm_index (length s) i with
          | Some j => match nth_error s j with Some ch => Return (VStr [ch]) | None => Raise IndexError end
          | None => Raise IndexError
          end
      | None => Raise TypeError
      end
  | _ => Raise TypeError
  end.

Fixpoint list_set (xs : list value) (j : nat) (v : value) : list value :=
  match xs, j with
  | [], _ => []
  | _ :: xs', O => v :: xs'
  | x :: xs', S j' => x :: list_set xs' j' v
  end.

(** [c[k] = v], returning the updated container *)
Definition py_setitem (c k v : value) : result value :=
  match c with
  | VDict d =>
      match k with
      | VStr s => Return (VDict (dict_set s v d))
      | VList _ | VDict _ => Raise TypeError
      | _ => Raise OutOfModel
      end
  | VList xs =>
      match index_of k with
      | Some i =>
          match norm_index (length xs) i with
          | Some j => Return (VList (list_set xs j v))
          | None => Raise IndexError
          end
      | None => Raise TypeError
      end
  | _ => Raise TypeError
  end.

(** [s in t] for strings *)
Fixpoint is_infix (s t : pystr) : bool :=
  startswith s t || match t with [] => false | _ :: t' => is_infix s t' end.

(** [x in c] *)
Definition py_contains (c x : value) : result bool :=
  match c with
  | VDict d =>
      match x with
      | VStr s => Return (match dict_get s d with Some _ => true | None => false end)
      | VList _ | VDict _ => Raise TypeError
      | _ => Return false
      end
  | VList xs => Return (existsb (fun e => py_eq e x) xs)
  | VStr t => match x with VStr s => Return (is_infix s t) | _ => Raise TypeError end
  | _ => Raise TypeError
  end.

(** [l.append(x)], returning the updated list *)
Definition py_append (l x : value) : result value :=
  match l with
  | VList xs => Return (VList (xs ++ [x]))
  | _ => Raise AttributeError
  end.

Fixpoint remove_first (x : value) (xs : list value) : option (list value) :=
  match xs with
  | [] => None
  | e :: xs' =>
      if py_eq e x then Some xs'
      else match remove_first x xs' with
           | Some r => Some (e :: r)
           | None => None
           end
  end.

(** [l.remove(x)]: the first item equal to [x] goes; [ValueError] if none *)
Definition py_remove (l x : value) : result value :=
  match l with
  | VList xs =>
      match remove_first x xs with
      | Some r => Return (VList r)
      | None => Raise ValueError
      end
  | _ => Raise AttributeError
  end.

(** [d.get(k)] with a string key *)
Definition py_get (d : value) (k : pystr) : result value :=
  match d with
  | VDict e => Return (match dict_get k e with Some v => v | None => VNone end)
  | _ => Raise AttributeError
  end.

(** [len(c)] *)
Definition py_len (c : value) : result nat :=
  match c with
  | VList xs => Return (length xs)
  | VDict d => Return (length d)
  | VStr s => Return (length s)
  | _ => Raise TypeError
  end.

(** The items a [for] loop over [c] visits *)
Definition py_iter (c : value) : result (list value) :=
  match c with
  | VList xs => Return xs
  | VDict d => Return (map (fun kv => VStr (fst kv)) d)
  | VStr s => Return (map (fun ch => VStr [ch]) s)
  | _ => Raise TypeError
  end.

(** The text an f-string puts for [v] *)
Definition py_format (v : value) : result pystr :=
  match v with
  | VNone => Return (lit "None")
  | VBool true => Return (lit "True")
  | VBool false => Return (lit "False")
  | VInt n => Return (str_of_Z n)
  | VStr s => Return s
  | VFloat _ | VList _ | VDict _ => Raise OutOfModel
  end.

(** ** The application *)

(** *** Persistence (lines 263-282) *)

(** [save_data()]: the three persisted collections under their keys,
    written as one JSON document that replaces the file. *)
Definition save_data : M unit :=
  fun w =>
    let data := VDict [(lit "patients", patient_records (session w));
                       (lit "materials", generated_materials (session w));
                       (lit "chat_history", chat_history (session w))] in
    (Return tt, {| session := session w; disk := Some (json_dumps data) |}).

(** [data.get(key, default)] on the loaded document *)
Definition get_default (data : value) (key : pystr) (default : value)
  : result value :=
  match data with
  | VDict d =>
      Return (match dict_get key d with Some v => v | None => default end)
  | _ => Raise AttributeError
  end.

(** [load_data()]: a missing file gives the three empty collections; a file
    that is not JSON raises [json.JSONDecodeError], which nothing catches. *)
Definition load_data : M unit :=
  fun w =>
    match disk w with
    | None =>
        (set_patient_records (VList []) ;;
         set_generated_materials (VList []) ;;
         set_chat_history (VDict [])) w
    | Some text =>
        match json_loads text with
        | None => (Raise JSONDecodeError, w)
        | Some data =>
            (p <- lift (get_default data (lit "patients") (VList [])) ;;
             set_patient_records p ;;
             m <- lift (get_default data (lit "materials") (VList [])) ;;
             set_generated_materials m ;;
             h <- lift (get_default data (lit "chat_history") (VDict [])) ;;
             set_chat_history h) w
        end
    end.

(** *** Structured assessment generation (lines 35-94) *)

(** Line 81: the text of the response is stripped, every [json] in it is
    replaced by the empty string, then the empty string is replaced by the
    empty string (the comment above the line says the triple backquotes
    are removed), and the result is stripped again. *)
Definition clean_response (text : pystr) : pystr :=
  strip (replace (lit "") (lit "") (replace (lit "json") (lit "") (strip text))).

(** [generate_knowledge_assessment(patient_info)].  [reply] is the outcome of
    building the prompt and calling the generation service: the text of the
    response, or [None] when any of it raises.  The function returns the
    parsed assessment, or a dict with the key [error]. *)
Definition generate_knowledge_assessment (reply : option pystr) : value :=
  match reply with
  | None => VDict [(lit "error", VStr (lit "Failed to generate assessment"))]
  | Some text =>
      let cleaned_response := clean_response text in
      match json_loads cleaned_response with
      | Some assessment => assessment
      | None =>
          VDict [(lit "error", VStr (lit "Failed to parse assessment"));
                 (lit "raw_response", VStr cleaned_response)]
      end
  end.

(** *** Scoring (lines 98-123) *)

(** The counters and the feedback list of [results] while the loop runs. *)
Record results : Type := {
  total_questions : nat;
  correct_answers : nat;
  incorrect_answers : nat;
  feedback : list value
}.

Definition results_value (r : results) : value :=
  VDict [(lit "total_questions", VInt (Z.of_nat (total_questions r)));
         (lit "correct_answers", VInt (Z.of_nat (correct_answers r)));
         (lit "incorrect_answers", VInt (Z.of_nat (incorrect_answers r)));
         (lit "feedback", VList (feedback r))].

(** The marks that open the two feedback texts: U+2705 and U+274C. *)
Definition CHECK_MARK : pystr := [9989%N].
Definition CROSS_MARK : pystr := [10060%N].

Definition bindr {A B} (r : result A) (k : A -> result B) : result B :=
  match r with
  | Return a => k a
  | Raise e => Raise e
  end.

Notation "x <~ r ;; k" := (bindr r (fun x => k))
  (at level 61, r at next level, right associativity) : py_scope.

(** One turn of the loop, for question number [i]. *)
Definition evaluate_question (user_responses : value) (i : nat)
  (question : value) (r : results) : result results :=
  user_answer <~ py_get user_responses (lit "question_" ++ str_of_nat i) ;;
  correct_answer <~ py_getitem question (VStr (lit "correct_answer")) ;;
  if py_eq user_answer correct_answer then
    explanation <~ py_getitem question (VStr (lit "explanation")) ;;
    e <~ py_format explanation ;;
    let fb := CHECK_MARK ++ lit " Correct! " ++ e in
    text <~ py_getitem question (VStr (lit "text")) ;;
    ca <~ py_getitem question (VStr (lit "correct_answer")) ;;
    Return {| total_questions := total_questions r;
              correct_answers := correct_answers r + 1;
              incorrect_answers := incorrect_answers r;
              feedback := feedback r ++
                [VDict [(lit "question", text); (lit "user_answer", user_answer);
                        (lit "correct_answer", ca); (lit "feedback", VStr fb)]] |}
  else
    ca0 <~ py_getitem question (VStr (lit "correct_answer")) ;;
    c <~ py_format ca0 ;;
    explanation <~ py_getitem question (VStr (lit "explanation")) ;;
    e <~ py_format explanation ;;
    let fb := CROSS_MARK ++ lit " Incorrect. The correct answer is: " ++ c
              ++ lit ". " ++ e in
    text <~ py_getitem question (VStr (lit "text")) ;;
    ca <~ py_getitem question (VStr (lit "correct_answer")) ;;
    Return {| total_questions := total_questions r;
              correct_answers := correct_answers r;
              incorrect_answers := incorrect_answers r + 1;
              feedback := feedback r ++
                [VDict [(lit "question", text); (lit "user_answer", user_answer);
                        (lit "correct_answer", ca); (lit "feedback", VStr fb)]] |}.

(** [for i, question in enumerate(...)], from index [i] on *)
Fixpoint evaluate_loop (user_responses : value) (i : nat)
  (questions : list value) (r : results) : result results :=
  match questions with
  | [] => Return r
  | question :: rest =>
      r' <~ evaluate_question user_responses i question r ;;
      evaluate_loop user_responses (S i) rest r'
  end.

(** [evaluate_responses(assessment, user_responses)] *)
Definition evaluate_responses (assessment user_responses : value)
  : result value :=
  qs <~ py_getitem assessment (VStr (lit "questions")) ;;
  n <~ py_len qs ;;
  qs' <~ py_getitem assessment (VStr (lit "questions")) ;;
  questions <~ py_iter qs' ;;
  r <~ evaluate_loop user_responses 0 questions
         {| total_questions := n; correct_answers := 0;
            incorrect_answers := 0; feedback := [] |} ;;
  Return (results_value r).

(** *** Generation of education material (lines 165-220) *)

Definition GENERATION_ERROR_TEXT : pystr :=
  lit "Error generating content. Please check your Gemini API key and try again.".

(** [generate_patient_education(patient_info)].  [reply] is as in
    [generate_knowledge_assessment]; [rnd] is the random draw of
    [uuid.uuid4()] and [now] the formatted current time. *)
Definition generate_patient_education (patient_info : value)
  (reply : option pystr) (rnd : N) (now : pystr) : M pystr :=
  try_except
    (match reply with
     | None => raise RemoteError
     | Some text =>
         patient_id <- lift (py_getitem patient_info (VStr (lit "id"))) ;;
         patient_name <- lift (py_getitem patient_info (VStr (lit "name"))) ;;
         condition <- lift (py_getitem patient_info (VStr (lit "condition"))) ;;
         let material :=
           VDict [(lit "id", VStr (uuid_str (uuid4 rnd)));
                  (lit "patient_id", patient_id);
                  (lit "patient_name", patient_name);
                  (lit "condition", condition);
                  (lit "content", VStr text);
                  (lit "timestamp", VStr now)] in
         ms <- get generated_materials ;;
         ms' <- lift (py_append ms material) ;;
         set_generated_materials ms' ;;
         save_data ;;
         ret text
     end)
    (fun _ => ret GENERATION_ERROR_TEXT).

(** *** Chat (lines 223-260, 906-908, 952-982) *)

Definition CHAT_ERROR_TEXT : pystr :=
  lit "I'm sorry, I'm having trouble connecting to my knowledge base. Please try again later or contact your healthcare provider for assistance.".

(** [chat_with_patient(patient_info, user_question)]: the text of the
    response, or the fixed apology when the call raises. *)
Definition chat_with_patient (reply : option pystr) : pystr :=
  match reply with
  | Some text => text
  | None => CHAT_ERROR_TEXT
  end.

(** Lines 907-908: the history of the selected patient is created on first
    visit of the page. *)
Definition ensure_chat_history (patient_id : value) : M unit :=
  h <- get chat_history ;;
  present <- lift (py_contains h patient_id) ;;
  if present then ret tt
  else
    h' <- lift (py_setitem h patient_id (VList [])) ;;
    set_chat_history h'.

Definition chat_message (role content timestamp : pystr) : value :=
  VDict [(lit "role", VStr role); (lit "content", VStr content);
         (lit "timestamp", VStr timestamp)].

(** [st.session_state.chat_history[patient_id].append(message)] *)
Definition chat_append (patient_id message : value) : M unit :=
  h <- get chat_history ;;
  l <- lift (py_getitem h patient_id) ;;
  l' <- lift (py_append l message) ;;
  h' <- lift (py_setitem h patient_id l') ;;
  set_chat_history h'.

(** The [Send] button (lines 952-975), pressed with [user_question] in the
    input box; [now1] and [now2] are the two time stamps taken. *)
Definition chat_send (patient_id : value) (user_question : pystr)
  (reply : option pystr) (now1 now2 : pystr) : M unit :=
  if py_truthy (VStr user_question) then
    chat_append patient_id (chat_message (lit "user") user_question now1) ;;
    let bot_response := chat_with_patient reply in
    chat_append patient_id (chat_message (lit "assistant") bot_response now2) ;;
    save_data
  else ret tt.

(** The [Clear Chat History] button (lines 978-982) *)
Definition chat_clear (patient_id : value) : M unit :=
  h <- get chat_history ;;
  h' <- lift (py_setitem h patient_id (VList [])) ;;
  set_chat_history h' ;;
  save_data.

(** *** Messages shown to the user *)
Inductive ui : Type :=
| st_success (message : pystr)
| st_error (message : pystr)
| st_warning (message : pystr)
| st_info (message : pystr)
| st_nothing.

(** *** The Add Patient form (lines 789-818) *)

Record intake : Type := {
  name : pystr;
  age : Z;
  gender : pystr;
  education_level : pystr;
  language : pystr;
  condition : pystr;
  treatment : pystr;
  medications : pystr;
  learning_style : pystr;
  special_needs : pystr
}.

Definition patient_dict (patient_id : pystr) (f : intake) (now : pystr) : value :=
  VDict [(lit "id", VStr patient_id);
         (lit "name", VStr (name f));
         (lit "age", VInt (age f));
         (lit "gender", VStr (gender f));
         (lit "education_level", VStr (education_level f));
         (lit "language", VStr (language f));
         (lit "condition", VStr (condition f));
         (lit "treatment", VStr (treatment f));
         (lit "medications", VStr (medications f));
         (lit "learning_style", VStr (learning_style f));
         (lit "special_needs", VStr (special_needs f));
         (lit "date_added", VStr now)].

(** The submit handler of [patient_form]. *)
Definition add_patient (f : intake) (rnd : N) (now : pystr) : M ui :=
  if py_truthy (VStr (name f)) && py_truthy (VStr (condition f)) then
    let patient_id := uuid_str (uuid4 rnd) in
    let patient := patient_dict patient_id f now in
    ps <- get patient_records ;;
    ps' <- lift (py_append ps patient) ;;
    set_patient_records ps' ;;
    h <- get chat_history ;;
    h' <- lift (py_setitem h (VStr patient_id) (VList [])) ;;
    set_chat_history h' ;;
    save_data ;;
    ret (st_success (lit "Patient " ++ name f ++ lit " added successfully!"))
  else
    ret (st_error (lit "Name and Medical Condition are required fields.")).

(** *** The View Materials page (lines 985-1033) *)

(** [[m for m in materials if m[field] == choice]], skipped for ["All"] *)
Fixpoint filter_by (field choice : pystr) (materials : list value)
  : result (list value) :=
  match materials with
  | [] => Return []
  | m :: rest =>
      v <~ py_getitem m (VStr field) ;;
      rest' <~ filter_by field choice rest ;;
      Return (if py_eq v (VStr choice) then m :: rest' else rest')
  end.

Definition apply_filter (field choice : pystr) (materials : list value)
  : result (list value) :=
  if pystr_eqb choice (lit "All") then Return materials
  else filter_by field choice materials.

(** The choices of a filter box: [set(m[field] for m in materials)], which
    needs every value hashable. *)
Fixpoint filter_options (field : pystr) (materials : list value)
  : result unit :=
  match materials with
  | [] => Return tt
  | m :: rest =>
      v <~ py_getitem m (VStr field) ;;
      match v with
      | VList _ | VDict _ => Raise TypeError
      | _ => filter_options field rest
      end
  end.

(** What the page reads of a material to draw it, up to its Delete
    button: the label of the expander, the content, the download button. *)
Definition render_material (material : value) : result unit :=
  n <~ py_getitem material (VStr (lit "patient_name")) ;;
  _ <~ py_format n ;;
  c <~ py_getitem material (VStr (lit "condition")) ;;
  _ <~ py_format c ;;
  t <~ py_getitem material (VStr (lit "timestamp")) ;;
  _ <~ py_format t ;;
  _ <~ py_getitem material (VStr (lit "content")) ;;
  i <~ py_getitem material (VStr (lit "id")) ;;
  _ <~ py_format i ;;
  Return tt.

(** The loop over the displayed materials.  [clicked] is the key of the
    button that was pressed; the material whose Delete button has this key
    is removed from the session list, the store is saved, and [st.rerun()]
    ends the run.  The keys are made of the ids of the materials.  The
    page cannot draw two widgets with one key; the loop does not model
    that error, so what is stated of what the page returns is stated of
    materials with distinct ids. *)
Fixpoint delete_loop (clicked : pystr) (displayed : list value) : M ui :=
  match displayed with
  | [] => ret st_nothing
  | material :: rest =>
      lift (render_material material) ;;
      i <- lift (py_getitem material (VStr (lit "id"))) ;;
      key <- lift (py_format i) ;;
      if pystr_eqb (lit "delete_" ++ key) clicked then
        ms <- get generated_materials ;;
        ms' <- lift (py_remove ms material) ;;
        set_generated_materials ms' ;;
        save_data ;;
        ret (st_success (lit "Material deleted"))
      else delete_loop clicked rest
  end.

(** The page, run with the two filter choices and the pressed button. *)
Definition view_materials (filter_patient filter_condition clicked : pystr)
  : M ui :=
  ms <- get generated_materials ;;
  if negb (py_truthy ms) then
    ret (st_warning (lit "No educational materials have been generated yet."))
  else
    all <- lift (py_iter ms) ;;
    lift (filter_options (lit "patient_name") all) ;;
    lift (filter_options (lit "condition") all) ;;
    by_patient <- lift (apply_filter (lit "patient_name") filter_patient all) ;;
    by_condition <- lift (apply_filter (lit "condition") filter_condition by_patient) ;;
    match by_condition with
    | [] => ret (st_info (lit "No materials match the selected filters."))
    | _ :: _ => delete_loop clicked by_condition
    end.

(** ** Well-formed data *)

(** A Unicode scalar value: a code point that is not a surrogate.  The
    text that reaches the application (form input, service replies, UUIDs,
    time stamps) consists of scalar values. *)
Definition scalar (c : N) : bool :=
  ((c <? 55296) || ((57343 <? c) && (c <? 1114112)))%N.

Definition text_ok (s : pystr) : bool := forallb scalar s.

Definition key_in (k : pystr) (d : list (pystr * value)) : bool :=
  existsb (fun kv => pystr_eqb k (fst kv)) d.

(** The objects built from None, booleans, integers, text, lists and
    dicts with one entry per key. *)
Fixpoint storable (v : value) : bool :=
  match v with
  | VNone | VBool _ | VInt _ => true
  | VFloat _ => false
  | VStr s => text_ok s
  | VList items => forallb storable items
  | VDict entries =>
      (fix all (d : list (pystr * value)) : bool :=
         match d with
         | [] => true
         | (k, v) :: d' => text_ok k && negb (key_in k d') && storable v && all d'
         end) entries
  end.

(** ** The records of the data model, as the objects that represent them *)

(** A question of a generated quiz. *)
Record Question : Type := {
  q_text : pystr;
  q_options : list pystr;
  q_correct_answer : pystr;
  q_explanation : pystr;
  q_category : pystr
}.

Definition question_value (q : Question) : value :=
  VDict [(lit "text", VStr (q_text q));
         (lit "options", VList (map VStr (q_options q)));
         (lit "correct_answer", VStr (q_correct_answer q));
         (lit "explanation", VStr (q_explanation q));
         (lit "category", VStr (q_category q))].

Definition assessment_value (qs : list Question) : value :=
  VDict [(lit "questions", VList (map question_value qs))].

(** A generated material. *)
Record Material : Type := {
  m_id : pystr;
  m_patient_id : pystr;
  m_patient_name : pystr;
  m_condition : pystr;
  m_content : pystr;
  m_timestamp : pystr
}.

Definition material_value (m : Material) : value :=
  VDict [(lit "id", VStr (m_id m));
         (lit "patient_id", VStr (m_patient_id m));
         (lit "patient_name", VStr (m_patient_name m));
         (lit "condition", VStr (m_condition m));
         (lit "content", VStr (m_content m));
         (lit "timestamp", VStr (m_timestamp m))].

(** ** The pages around the store *)

(** The truth value an [if] takes of [v]; the zero test of a float is
    outside the model. *)
Definition py_test (v : value) : result bool :=
  match v with
  | VFloat _ => Raise OutOfModel
  | _ => Return (py_truthy v)
  end.

(** *** The overview of the Home page (lines 645-676) *)

(** Adding [x] to a [set]: [x] must be hashable, and an item equal to one
    that is there is not added. *)
Definition set_add (seen : list value) (x : value) : result (list value) :=
  match x with
  | VList _ | VDict _ => Raise TypeError
  | VFloat _ => Raise OutOfModel
  | _ => Return (if existsb (fun e => py_eq e x) seen then seen else seen ++ [x])
  end.

(** [set(p['condition'] for p in records)], from the items in [seen] on *)
Fixpoint conditions (records : list value) (seen : list value)
  : result (list value) :=
  match records with
  | [] => Return seen
  | p :: rest =>
      c <~ py_getitem p (VStr (lit "condition")) ;;
      seen' <~ set_add seen c ;;
      conditions rest seen'
  end.

(** The three numbers of the System Overview. *)
Record overview : Type := {
  patient_profiles : nat;
  educational_materials : nat;
  unique_conditions : nat
}.

Definition system_overview (s : session_state) : result overview :=
  np <~ py_len (patient_records s) ;;
  nm <~ py_len (generated_materials s) ;;
  some <~ py_test (patient_records s) ;;
  nc <~ (if some then
           records <~ py_iter (patient_records s) ;;
           seen <~ conditions records [] ;;
           Return (length seen)
         else Return 0) ;;
  Return {| patient_profiles := np; educational_materials := nm;
            unique_conditions := nc |}.

(** *** Selection of a patient (lines 824-833, 876-886, 1205-1215) *)

(** The entry of the select box for patient [p]: name, a hyphen between
    two spaces, condition. *)
Definition patient_label (p : value) : result pystr :=
  n <~ py_getitem p (VStr (lit "name")) ;;
  n' <~ py_format n ;;
  c <~ py_getitem p (VStr (lit "condition")) ;;
  c' <~ py_format c ;;
  Return (n' ++ lit " - " ++ c').

Fixpoint patient_names (records : list value) : result (list pystr) :=
  match records with
  | [] => Return []
  | p :: rest =>
      l <~ patient_label p ;;
      ls <~ patient_names rest ;;
      Return (l :: ls)
  end.

(** [names.index(x)]: the first position that holds [x] *)
Fixpoint names_index (x : pystr) (names : list pystr) : result nat :=
  match names with
  | [] => Raise ValueError
  | n :: rest =>
      if pystr_eqb n x then Return 0
      else i <~ names_index x rest ;; Return (S i)
  end.

(** [patient_index], when the user has picked entry number [choice] of
    the select box; the box returns the text of the entry. *)
Definition patient_index (records : value) (choice : nat) : result nat :=
  items <~ py_iter records ;;
  names <~ patient_names items ;;
  match nth_error names choice with
  | Some selected_patient => names_index selected_patient names
  | None => Raise OutOfModel
  end.

(** The patient the page works on; [None] when the page shows the
    warning that there are no patients. *)
Definition select_patient (records : value) (choice : nat)
  : result (option value) :=
  some <~ py_test records ;;
  if negb some then Return None
  else
    i <~ patient_index records choice ;;
    patient <~ py_getitem records (VInt (Z.of_nat i)) ;;
    Return (Some patient).

(** *** The Generate button of the Generate Materials page (lines 855-870) *)

(** What the page shows after the button was pressed. *)
Record generated_page : Type := {
  shown_message : ui;
  shown_content : pystr;
  download_name : pystr
}.

Definition generate_materials (patient : value) (reply : option pystr)
  (rnd : N) (now : pystr) : M generated_page :=
  text <- generate_patient_education patient reply rnd now ;;
  n <- lift (py_getitem patient (VStr (lit "name"))) ;;
  n' <- lift (py_format n) ;;
  c <- lift (py_getitem patient (VStr (lit "condition"))) ;;
  c' <- lift (py_format c) ;;
  ret {| shown_message := st_success (lit "Material generated successfully!");
         shown_content := text;
         download_name := n' ++ lit "_" ++ c' ++ lit "_education.txt" |}.

(** *** The Knowledge Assessment page (lines 1237-1289) *)

(** The entry stored for a patient when an assessment was generated. *)
Definition assessment_entry (assessment : value) : value :=
  VDict [(lit "assessment", assessment);
         (lit "user_responses", VDict []);
         (lit "results", VNone)].

(** The [Generate Knowledge Assessment] button (lines 1237-1250) *)
Definition assessment_generate (patient_id : value) (reply : option pystr)
  : M ui :=
  let assessment := generate_knowledge_assessment reply in
  failed <- lift (py_contains assessment (VStr (lit "error"))) ;;
  if failed then
    ret (st_error (lit "Failed to generate assessment. Please try again."))
  else
    a <- get patient_assessments ;;
    a' <- lift (py_setitem a patient_id (assessment_entry assessment)) ;;
    set_patient_assessments a' ;;
    save_data ;;
    ret (st_success (lit "Assessment generated successfully!")).

(** [user_responses[key] = answer], where [user_responses] is the dict
    stored under the patient: the assignment changes the stored dict. *)
Definition set_user_response (patient_id : value) (key : pystr)
  (answer : value) : M unit :=
  a <- get patient_assessments ;;
  assessment_data <- lift (py_getitem a patient_id) ;;
  user_responses <- lift (py_getitem assessment_data (VStr (lit "user_responses"))) ;;
  user_responses' <- lift (py_setitem user_responses (VStr key) answer) ;;
  assessment_data' <- lift (py_setitem assessment_data (VStr (lit "user_responses"))
                              user_responses') ;;
  a' <- lift (py_setitem a patient_id assessment_data') ;;
  set_patient_assessments a'.

(** The loop that shows the questions (lines 1262-1269).  [selected i] is
    what the radio group of question [i] returns; a group whose options
    are not a list is outside the model. *)
Fixpoint render_questions (patient_id : value) (selected : nat -> value)
  (i : nat) (questions : list value) : M unit :=
  match questions with
  | [] => ret tt
  | question :: rest =>
      text <- lift (py_getitem question (VStr (lit "text"))) ;;
      lift (py_format text) ;;
      options <- lift (py_getitem question (VStr (lit "options"))) ;;
      match options with
      | VList _ =>
          set_user_response patient_id (lit "question_" ++ str_of_nat i) (selected i) ;;
          render_questions patient_id selected (S i) rest
      | _ => raise OutOfModel
      end
  end.

(** The [Submit Assessment] button (lines 1272-1276) *)
Definition assessment_submit (patient_id assessment : value) : M value :=
  a <- get patient_assessments ;;
  assessment_data <- lift (py_getitem a patient_id) ;;
  user_responses <- lift (py_getitem assessment_data (VStr (lit "user_responses"))) ;;
  results <- lift (evaluate_responses assessment user_responses) ;;
  assessment_data' <- lift (py_setitem assessment_data (VStr (lit "results")) results) ;;
  a' <- lift (py_setitem a patient_id assessment_data') ;;
  set_patient_assessments a' ;;
  save_data ;;
  ret results.

(** What the page reads of one feedback entry to show it. *)
Fixpoint show_feedback (entries : list value) : result unit :=
  match entries with
  | [] => Return tt
  | fb :: rest =>
      q <~ py_getitem fb (VStr (lit "question")) ;;
      _ <~ py_format q ;;
      u <~ py_getitem fb (VStr (lit "user_answer")) ;;
      _ <~ py_format u ;;
      c <~ py_getitem fb (VStr (lit "correct_answer")) ;;
      _ <~ py_format c ;;
      f <~ py_getitem fb (VStr (lit "feedback")) ;;
      _ <~ py_format f ;;
      show_feedback rest
  end.

(** The results section (lines 1279-1289) *)
Definition show_results (results : value) : result unit :=
  some <~ py_test results ;;
  if some then
    t <~ py_getitem results (VStr (lit "total_questions")) ;;
    _ <~ py_format t ;;
    c <~ py_getitem results (VStr (lit "correct_answers")) ;;
    _ <~ py_format c ;;
    i <~ py_getitem results (VStr (lit "incorrect_answers")) ;;
    _ <~ py_format i ;;
    fb <~ py_getitem results (VStr (lit "feedback")) ;;
    entries <~ py_iter fb ;;
    show_feedback entries
  else Return tt.

(** The part of the page below the patient information, for the patient
    with id [patient_id].  [generate] is the reply of the service when the
    Generate button was pressed, [selected] what the radio groups hold and
    [submit] whether the Submit button was pressed.  The page returns the
    results it shows ([None] when it shows none). *)
Definition knowledge_assessment (patient_id : value)
  (generate : option (option pystr)) (selected : nat -> value)
  (submit : bool) : M value :=
  match generate with
  | Some reply => assessment_generate patient_id reply ;; ret tt
  | None => ret tt
  end ;;
  a <- get patient_assessments ;;
  present <- lift (py_contains a patient_id) ;;
  if present then
    assessment_data <- lift (py_getitem a patient_id) ;;
    assessment <- lift (py_getitem assessment_data (VStr (lit "assessment"))) ;;
    lift (py_getitem assessment_data (VStr (lit "user_responses"))) ;;
    results <- lift (py_getitem assessment_data (VStr (lit "results"))) ;;
    qs <- lift (py_getitem assessment (VStr (lit "questions"))) ;;
    questions <- lift (py_iter qs) ;;
    render_questions patient_id selected 0 questions ;;
    results' <- (if submit then assessment_submit patient_id assessment
                 else ret results) ;;
    lift (show_results results') ;;
    ret results'
  else ret VNone.

(** *** The chat figures of the Analytics page (lines 1137-1160) *)

(** [next((p['name'] for p in records if p['id'] == patient_id), "Unknown")] *)
Fixpoint find_patient_name (records : list value) (patient_id : value)
  : result value :=
  match records with
  | [] => Return (VStr (lit "Unknown"))
  | p :: rest =>
      i <~ py_getitem p (VStr (lit "id")) ;;
      if py_eq i patient_id then py_getitem p (VStr (lit "name"))
      else find_patient_name rest patient_id
  end.

Record chat_figures : Type := {
  total_chats : nat;
  total_messages : nat;
  patients_with_chats : nat;
  chat_data : list value
}.

(** The loop over [chat_history.items()] *)
Fixpoint chat_figures_loop (records : value) (items : list (pystr * value))
  (f : chat_figures) : result chat_figures :=
  match items with
  | [] => Return f
  | (patient_id, messages) :: rest =>
      some <~ py_test messages ;;
      if some then
        n <~ py_len messages ;;
        ps <~ py_iter records ;;
        patient_name <~ find_patient_name ps (VStr patient_id) ;;
        n' <~ py_len messages ;;
        last <~ py_getitem messages (VInt (-1)) ;;
        stamp <~ py_getitem last (VStr (lit "timestamp")) ;;
        chat_figures_loop records rest
          {| total_chats := total_chats f + 1;
             total_messages := total_messages f + n;
             patients_with_chats := patients_with_chats f + 1;
             chat_data := chat_data f ++
               [VDict [(lit "Patient", patient_name);
                       (lit "Messages", VInt (Z.of_nat n'));
                       (lit "Last Interaction", stamp)]] |}
      else chat_figures_loop records rest f
  end.

(** [any(c)] *)
Definition py_any (c : value) : result bool :=
  items <~ py_iter c ;;
  (fix any (xs : list value) : result bool :=
     match xs with
     | [] => Return false
     | x :: xs' => t <~ py_test x ;; if t then Return true else any xs'
     end) items.

(** The figures, or [None] when the block is skipped. *)
Definition chat_interactions (s : session_state) : result (option chat_figures) :=
  some <~ py_any (chat_history s) ;;
  if some then
    match chat_history s with
    | VDict items =>
        f <~ chat_figures_loop (patient_records s) items
               {| total_chats := 0; total_messages := 0;
                  patients_with_chats := 0; chat_data := [] |} ;;
        Return (Some f)
    | _ => Raise AttributeError
    end
  else Return None.

(* ================================================================== *)
(** * Part II: notions used in the statements and proofs *)
(* ================================================================== *)

(** Structural induction on objects, through lists and dicts. *)
Definition value_ind' (P : value -> Prop)
  (fnone : P VNone) (fbool : forall b, P (VBool b)) (fint : forall n, P (VInt n))
  (ffloat : forall l, P (VFloat l)) (fstr : forall s, P (VStr s))
  (flist : forall items, Forall P items -> P (VList items))
  (fdict : forall entries, Forall (fun kv => P (snd kv)) entries -> P (VDict entries))
  : forall v, P v :=
  fix F (v : value) : P v :=
    match v with
    | VNone => fnone
    | VBool b => fbool b
    | VInt n => fint n
    | VFloat l => ffloat l
    | VStr s => fstr s
    | VList items =>
        flist items
          ((fix G (xs : list value) : Forall P xs :=
              match xs with
              | [] => Forall_nil _
              | x :: xs' => Forall_cons x (F x) (G xs')
              end) items)
    | VDict entries =>
        fdict entries
          ((fix G (d : list (pystr * value)) : Forall (fun kv => P (snd kv)) d :=
              match d with
              | [] => Forall_nil _
              | kv :: d' => Forall_cons kv (F (snd kv)) (G d')
              end) entries)
    end.

(** What may follow a run of digits without being read as part of it. *)
Definition not_digit_head (s : pystr) : Prop :=
  match s with [] => True | c :: _ => is_digit c = false end.

(** What may follow an integer literal: no digit, point or exponent. *)
Definition number_end (s : pystr) : Prop :=
  match s with
  | [] => True
  | c :: _ => is_digit c = false /\ c <> 46%N /\ c <> 101%N /\ c <> 69%N
  end.

(** What follows a value in a document: the end, a comma, a closing
    bracket or brace, or whitespace. *)
Definition delimiter (rest : pystr) : Prop :=
  match rest with
  | [] => True
  | c :: _ => c = 44%N \/ c = 93%N \/ c = 125%N \/ is_json_ws c = true
  end.

(** The first character of the text of a value. *)
Definition value_start (c : N) : bool :=
  ((c =? 34) || (c =? 123) || (c =? 91) || (c =? 110) || (c =? 116)
   || (c =? 102) || (c =? 45) || is_digit c)%N.

(** Calls of the scanner that reading [v] back takes. *)
Fixpoint fuel_of (v : value) : nat :=
  match v with
  | VList items =>
      S ((fix go (xs : list value) : nat :=
            match xs with [] => 0 | x :: xs' => S (fuel_of x) + go xs' end) items)
  | VDict entries =>
      S ((fix go (d : list (pystr * value)) : nat :=
            match d with [] => 0 | kv :: d' => S (fuel_of (snd kv)) + go d' end) entries)
  | _ => 1
  end.

Definition items_fuel (xs : list value) : nat :=
  fold_right (fun x a => S (fuel_of x) + a) 0 xs.

Definition entries_fuel (d : list (pystr * value)) : nat :=
  fold_right (fun kv a => S (fuel_of (snd kv)) + a) 0 d.

(** The text of one entry of a dict. *)
Definition dumps_entry (kv : pystr * value) : pystr :=
  encode_basestring_ascii (fst kv) ++ lit ": " ++ json_dumps (snd kv).

Definition entries_ok (d : list (pystr * value)) : bool :=
  forallb (fun kv => text_ok (fst kv) && storable (snd kv)) d.

Fixpoint distinct_keys (d : list (pystr * value)) : bool :=
  match d with
  | [] => true
  | kv :: d' => negb (key_in (fst kv) d') && distinct_keys d'
  end.

(** Reading the text of [v] gives [v] back and stops where the text ends. *)
Definition parses (v : value) : Prop :=
  forall fuel rest, fuel_of v <= fuel -> delimiter rest ->
    scan_once fuel (json_dumps v ++ rest) = Some (v, rest).

(** The number a string of hexadecimal digits denotes. *)
Definition hex_value (s : pystr) : N :=
  fold_left (fun a c => (16 * a + match hex_val c with Some d => d | None => 0 end)%N) s 0%N.

(** The 32 digits of a UUID string, with the hyphens taken out. *)
Definition unhyphenate (s : pystr) : pystr :=
  firstn 8 s ++ firstn 4 (skipn 9 s) ++ firstn 4 (skipn 14 s)
  ++ firstn 4 (skipn 19 s) ++ skipn 24 s.

(** The object [save_data] serialises. *)
Definition document (s : session_state) : value :=
  VDict [(lit "patients", patient_records s);
         (lit "materials", generated_materials s);
         (lit "chat_history", chat_history s)].

(** The world after [load_data] found no file. *)
Definition emptied (w : world) : world :=
  {| session := {| patient_records := VList [];
                   generated_materials := VList [];
                   chat_history := VDict [];
                   patient_assessments := patient_assessments (session w) |};
     disk := disk w |}.

Definition or_default (o : option value) (default : value) : value :=
  match o with Some v => v | None => default end.

(** *** Scoring, as the specification words it *)

(** The key under which the answer to question [i] is submitted. *)
Definition question_key (i : nat) : pystr := lit "question_" ++ str_of_nat i.

Definition submitted (answers : dict) (i : nat) : option value :=
  dict_get (question_key i) answers.

(** An answer is correct when it was submitted and is the very string
    [correct_answer]; a missing answer is incorrect. *)
Definition is_correct (answers : dict) (i : nat) (q : Question) : bool :=
  match submitted answers i with
  | Some (VStr a) => pystr_eqb a (q_correct_answer q)
  | _ => false
  end.

Definition feedback_text (ok : bool) (q : Question) : pystr :=
  if ok then CHECK_MARK ++ lit " Correct! " ++ q_explanation q
  else CROSS_MARK ++ lit " Incorrect. The correct answer is: "
       ++ q_correct_answer q ++ lit ". " ++ q_explanation q.

(** The feedback entry of question [i]: its text, the submitted answer or
    [None], the correct answer, and the feedback text with the explanation. *)
Definition feedback_entry (answers : dict) (i : nat) (q : Question) : value :=
  VDict [(lit "question", VStr (q_text q));
         (lit "user_answer", or_default (submitted answers i) VNone);
         (lit "correct_answer", VStr (q_correct_answer q));
         (lit "feedback", VStr (feedback_text (is_correct answers i q) q))].

Fixpoint count_correct (answers : dict) (i : nat) (qs : list Question) : nat :=
  match qs with
  | [] => 0
  | q :: qs' => (if is_correct answers i q then 1 else 0) + count_correct answers (S i) qs'
  end.

Fixpoint feedback_from (answers : dict) (i : nat) (qs : list Question) : list value :=
  match qs with
  | [] => []
  | q :: qs' => feedback_entry answers i q :: feedback_from answers (S i) qs'
  end.

(** *** Sample replies of the generation service *)

(** A JSON object between code fences, the way the service wraps it:
    three backquotes and the word json, the object, three backquotes. *)
Definition quiz_json : pystr :=
  [123; 34]%N ++ lit "questions" ++ [34]%N ++ lit ": []}".

Definition fenced_reply : pystr :=
  [96; 96; 96]%N ++ lit "json" ++ [10]%N ++ quiz_json ++ [10; 96; 96; 96]%N.

(** Prose that is not JSON. *)
Definition prose_reply : pystr := lit "Here is the json quiz you asked for".

(** The error object for a reply that does not parse. *)
Definition parse_error (cleaned : pystr) : value :=
  VDict [(lit "error", VStr (lit "Failed to parse assessment"));
         (lit "raw_response", VStr cleaned)].

(** *** A sample store *)

(** One patient with an empty chat history, nothing on disk. *)
Definition sample_world : world :=
  {| session :=
       {| patient_records := VList [VDict [(lit "id", VStr (lit "p1"))]];
          generated_materials := VList [];
          chat_history := VDict [(lit "p1", VList [])];
          patient_assessments := VDict [] |};
     disk := None |}.

(** The session with the chat history replaced. *)
Definition with_chat_history (s : session_state) (h : value) : session_state :=
  {| patient_records := patient_records s;
     generated_materials := generated_materials s;
     chat_history := h;
     patient_assessments := patient_assessments s |}.

(** The session with the materials replaced. *)
Definition with_materials (s : session_state) (ms : value) : session_state :=
  {| patient_records := patient_records s;
     generated_materials := ms;
     chat_history := chat_history s;
     patient_assessments := patient_assessments s |}.

(** The world after a full flush of session [s]. *)
Definition flushed (s : session_state) : world :=
  {| session := s; disk := Some (json_dumps (document s)) |}.

(** *** Sample data *)

Definition sample_intake : intake :=
  {| name := lit "Ann Lee"; age := 54; gender := lit "Female";
     education_level := lit "College"; language := lit "English";
     condition := lit "Asthma"; treatment := lit "Inhaled corticosteroid";
     medications := lit "Budesonide"; learning_style := lit "Visual";
     special_needs := lit "" |}.

(** The same form with the name left empty. *)
Definition nameless_intake : intake :=
  {| name := lit ""; age := 54; gender := lit "Female";
     education_level := lit "College"; language := lit "English";
     condition := lit "Asthma"; treatment := lit "Inhaled corticosteroid";
     medications := lit "Budesonide"; learning_style := lit "Visual";
     special_needs := lit "" |}.

Definition sample_material_1 : Material :=
  {| m_id := lit "m1"; m_patient_id := lit "p1"; m_patient_name := lit "Ann Lee";
     m_condition := lit "Asthma"; m_content := lit "Use your inhaler daily.";
     m_timestamp := lit "2024-01-01 10:00:00" |}.

Definition sample_material_2 : Material :=
  {| m_id := lit "m2"; m_patient_id := lit "p1"; m_patient_name := lit "Ann Lee";
     m_condition := lit "Asthma"; m_content := lit "Avoid smoke.";
     m_timestamp := lit "2024-01-02 09:30:00" |}.

(** A store with two materials. *)
Definition sample_world_2 : world :=
  {| session :=
       {| patient_records := VList [patient_dict (lit "p1") sample_intake
                                      (lit "2024-01-01 09:00:00")];
          generated_materials :=
            VList (map material_value [sample_material_1; sample_material_2]);
          chat_history := VDict [(lit "p1", VList [])];
          patient_assessments := VDict [] |};
     disk := None |}.

Definition sample_question : Question :=
  {| q_text := lit "What does a reliever inhaler do?";
     q_options := [lit "A"; lit "B"; lit "C"; lit "D"];
     q_correct_answer := lit "B";
     q_explanation := lit "It opens the airways.";
     q_category := lit "Medication" |}.

(** A document with only the [patients] key. *)
Definition partial_document : pystr :=
  [123; 34]%N ++ lit "patients" ++ [34]%N ++ lit ": []}".

(** *** The persisted collections stay serialisable *)

(** The three collections can be written and read back. *)
Definition persistable (s : session_state) : Prop :=
  storable (patient_records s) = true
  /\ storable (generated_materials s) = true
  /\ storable (chat_history s) = true.

(** The file, when there is one, was written by [save_data]. *)
Definition disk_ok (d : option pystr) : Prop :=
  match d with
  | None => True
  | Some text => exists s, persistable s /\ text = json_dumps (document s)
  end.

Definition consistent (w : world) : Prop :=
  persistable (session w) /\ disk_ok (disk w).

(** A computation keeps the world consistent, whether it returns or
    raises, and what it returns satisfies [R]. *)
Definition keeps {A : Type} (m : M A) (R : A -> Prop) : Prop :=
  forall w, consistent w ->
    consistent (snd (m w)) /\ forall a, fst (m w) = Return a -> R a.

Definition intake_ok (f : intake) : bool :=
  text_ok (name f) && text_ok (gender f) && text_ok (education_level f)
  && text_ok (language f) && text_ok (condition f) && text_ok (treatment f)
  && text_ok (medications f) && text_ok (learning_style f)
  && text_ok (special_needs f).

Definition reply_ok (reply : option pystr) : bool :=
  match reply with Some text => text_ok text | None => true end.

(** What a user can do on the pages that touch the store. *)
Inductive action : Type :=
| AddPatient (f : intake) (rnd : N) (now : pystr)
| GenerateMaterial (patient_info : value) (reply : option pystr) (rnd : N) (now : pystr)
| OpenChat (patient_id : value)
| SendChat (patient_id : value) (user_question : pystr) (reply : option pystr)
    (now1 now2 : pystr)
| ClearChat (patient_id : value)
| ViewMaterials (filter_patient filter_condition clicked : pystr)
| Restart.

(** The text that comes from outside is Unicode text, and the patient a
    page works on is one of the stored ones. *)
Definition action_ok (a : action) : bool :=
  match a with
  | AddPatient f _ now => intake_ok f && text_ok now
  | GenerateMaterial patient_info reply _ now =>
      storable patient_info && reply_ok reply && text_ok now
  | OpenChat patient_id => storable patient_id
  | SendChat patient_id q reply now1 now2 =>
      storable patient_id && text_ok q && reply_ok reply && text_ok now1 && text_ok now2
  | ClearChat patient_id => storable patient_id
  | ViewMaterials _ _ _ => true
  | Restart => true
  end.

(** One run of the script: line 285 loads the file, then the page runs. *)
Definition script {A : Type} (page : M A) : M A := load_data ;; page.

(** The world after an action; an exception ends the run of the script
    and leaves the world as it is then.  [Restart] is a new process: the
    session is initialised before the file is loaded. *)
Definition run (a : action) (w : world) : world :=
  match a with
  | AddPatient f rnd now => snd (script (add_patient f rnd now) w)
  | GenerateMaterial patient_info reply rnd now =>
      snd (script (generate_patient_education patient_info reply rnd now) w)
  | OpenChat patient_id => snd (script (ensure_chat_history patient_id) w)
  | SendChat patient_id q reply now1 now2 =>
      snd (script (ensure_chat_history patient_id ;;
                   chat_send patient_id q reply now1 now2) w)
  | ClearChat patient_id =>
      snd (script (ensure_chat_history patient_id ;; chat_clear patient_id) w)
  | ViewMaterials fp fc clicked => snd (script (view_materials fp fc clicked) w)
  | Restart => snd (load_data {| session := initial_session; disk := disk w |})
  end.

(** The world at the first start, with no file. *)
Definition initial_world : world := {| session := initial_session; disk := None |}.

(** The worlds the application reaches. *)
Inductive reachable : world -> Prop :=
| reach_start : reachable (snd (load_data initial_world))
| reach_step (a : action) (w : world) :
    reachable w -> action_ok a = true -> reachable (run a w).

(** *** Notions for the pages around the store *)

(** The session with the patients replaced. *)
Definition with_patients (s : session_state) (ps : value) : session_state :=
  {| patient_records := ps;
     generated_materials := generated_materials s;
     chat_history := chat_history s;
     patient_assessments := patient_assessments s |}.

(** The session with the assessments replaced. *)
Definition with_assessments (s : session_state) (a : value) : session_state :=
  {| patient_records := patient_records s;
     generated_materials := generated_materials s;
     chat_history := chat_history s;
     patient_assessments := a |}.

(** The material that [generate_patient_education] stores. *)
Definition new_material (material_id : pystr) (patient_id patient_name condition : value)
  (text now : pystr) : value :=
  VDict [(lit "id", VStr material_id);
         (lit "patient_id", patient_id);
         (lit "patient_name", patient_name);
         (lit "condition", condition);
         (lit "content", VStr text);
         (lit "timestamp", VStr now)].

(** A material passes a filter box set to [choice] when the box is on
    [All] or holds the material's value. *)
Definition passes (choice x : pystr) : bool :=
  pystr_eqb choice (lit "All") || pystr_eqb x choice.

(** The materials the View Materials page shows under the two filters. *)
Definition displayed (filter_patient filter_condition : pystr) (ms : list Material)
  : list Material :=
  filter (fun m => passes filter_condition (m_condition m))
    (filter (fun m => passes filter_patient (m_patient_name m)) ms).

Definition material_eqb (a b : Material) : bool :=
  pystr_eqb (m_id a) (m_id b) && pystr_eqb (m_patient_id a) (m_patient_id b)
  && pystr_eqb (m_patient_name a) (m_patient_name b)
  && pystr_eqb (m_condition a) (m_condition b)
  && pystr_eqb (m_content a) (m_content b)
  && pystr_eqb (m_timestamp a) (m_timestamp b).

(** The list without the first material equal to [m]. *)
Fixpoint remove_one (m : Material) (ms : list Material) : list Material :=
  match ms with
  | [] => []
  | x :: rest => if material_eqb x m then rest else x :: remove_one m rest
  end.

(** A file that holds a JSON array. *)
Definition array_document : pystr := lit "[]".

(** A store read from a file whose [chat_history] is an array. *)
Definition array_history_world : world :=
  {| session :=
       {| patient_records := VList [];
          generated_materials := VList [];
          chat_history := VList [];
          patient_assessments := VDict [] |};
     disk := Some ([123; 34]%N ++ lit "chat_history" ++ [34]%N ++ lit ": []}") |}.

(** The counters of [evaluate_responses] before the loop. *)
Definition no_results (n : nat) : results :=
  {| total_questions := n; correct_answers := 0; incorrect_answers := 0;
     feedback := [] |}.

(** A stored patient. *)
Record Patient : Type := {
  p_id : pystr;
  p_form : intake;
  p_date_added : pystr
}.

Definition patient_value (p : Patient) : value :=
  patient_dict (p_id p) (p_form p) (p_date_added p).

(** The entry of the select boxes for a patient. *)
Definition label (p : Patient) : pystr :=
  name (p_form p) ++ lit " - " ++ condition (p_form p).

Definition p_condition (p : Patient) : pystr := condition (p_form p).

Definition sample_patient_1 : Patient :=
  {| p_id := lit "p1"; p_form := sample_intake;
     p_date_added := lit "2024-01-01 09:00:00" |}.

(** A second patient with the name and the condition of the first. *)
Definition sample_patient_2 : Patient :=
  {| p_id := lit "p2"; p_form := sample_intake;
     p_date_added := lit "2024-02-01 09:00:00" |}.

(** A session in which one patient has chatted. *)
Definition chatty_session : session_state :=
  {| patient_records := VList [patient_value sample_patient_1];
     generated_materials := VList [];
     chat_history :=
       VDict [(lit "p1",
               VList [chat_message (lit "user") (lit "hello") (lit "2024-01-01 10:00:00");
                      chat_message (lit "assistant") (lit "hi")
                        (lit "2024-01-01 10:00:05")])];
     patient_assessments := VDict [] |}.

Definition chatty_figures : chat_figures :=
  {| total_chats := 1; total_messages := 2; patients_with_chats := 1;
     chat_data := [VDict [(lit "Patient", VStr (lit "Ann Lee"));
                          (lit "Messages", VInt 2);
                          (lit "Last Interaction", VStr (lit "2024-01-01 10:00:05"))]] |}.

(** *** The Knowledge Assessment page *)

(** The answers after the radio groups of the questions [i], ...,
    [i + n - 1] were read into [answers]. *)
Fixpoint record_answers (selected : nat -> value) (i n : nat) (answers : dict) : dict :=
  match n with
  | 0 => answers
  | S n' =>
      record_answers selected (S i) n' (dict_set (question_key i) (selected i) answers)
  end.

(** The assessments, with [answers] as the answers of the patient's entry. *)
Definition stored (a : dict) (patient_id : pystr) (entry answers : dict) : dict :=
  dict_set patient_id
    (VDict (dict_set (lit "user_responses") (VDict answers) entry)) a.

(** The result of a quiz of well-formed questions. *)
Definition score (answers : dict) (qs : list Question) : results :=
  {| total_questions := length qs;
     correct_answers := count_correct answers 0 qs;
     incorrect_answers := length qs - count_correct answers 0 qs;
     feedback := feedback_from answers 0 qs |}.

(** The message of the page when no assessment could be generated. *)
Definition ASSESSMENT_FAILED : ui :=
  st_error (lit "Failed to generate assessment. Please try again.").

(** A world in which patient [p1] has an assessment of one question. *)
Definition quiz_world : world :=
  {| session :=
       {| patient_records := VList [patient_value sample_patient_1];
          generated_materials := VList [];
          chat_history := VDict [(lit "p1", VList [])];
          patient_assessments :=
            VDict [(lit "p1", assessment_entry (assessment_value [sample_question]))] |};
     disk := None |}.

(** The material generated for patient [p]. *)
Definition material_for (material_id : pystr) (p : Patient) (text now : pystr)
  : Material :=
  {| m_id := material_id; m_patient_id := p_id p;
     m_patient_name := name (p_form p); m_condition := p_condition p;
     m_content := text; m_timestamp := now |}.

(** *** Ids of patients *)

(** A store with one patient, whose id is the text of the version-4 UUID
    that the draw 7 gives. *)
Definition issued_world : world :=
  {| session :=
       {| patient_records :=
            VList [patient_dict (uuid_str (uuid4 7)) sample_intake
                     (lit "2024-01-01 09:00:00")];
          generated_materials := VList [];
          chat_history := VDict [(uuid_str (uuid4 7), VList [])];
          patient_assessments := VDict [] |};
     disk := None |}.

(** The form of a second patient. *)
Definition second_intake : intake :=
  {| name := lit "Bob Ray"; age := 61; gender := lit "Male";
     education_level := lit "High School"; language := lit "English";
     condition := lit "Diabetes"; treatment := lit "Metformin";
     medications := lit "Metformin"; learning_style := lit "Auditory";
     special_needs := lit "" |}.

(** The patients carry, in order, the texts of the UUIDs [issued]. *)
Definition ids_issued (ps : list value) (issued : list N) : Prop :=
  Forall2 (fun p u => (u < 2 ^ 128)%N
                      /\ py_getitem p (VStr (lit "id")) = Return (VStr (uuid_str u)))
    ps issued.

(* ================================================================== *)
(** * Part III: properties *)
(* ================================================================== *)

#[local] Arguments N.eqb : simpl never.
#[local] Arguments N.leb : simpl never.
#[local] Arguments N.ltb : simpl never.

(** ** Strings, integers and JSON strings *)

Lemma pystr_eqb_eq (a b : pystr) : pystr_eqb a b = true <-> a = b.
Proof.
  unfold pystr_eqb. destruct (list_eq_dec N.eq_dec a b); split; congruence.
Qed.

Lemma pystr_eqb_refl (a : pystr) : pystr_eqb a a = true.
Proof. now apply pystr_eqb_eq. Qed.

Lemma pystr_eqb_neq (a b : pystr) : pystr_eqb a b = false <-> a <> b.
Proof.
  unfold pystr_eqb. destruct (list_eq_dec N.eq_dec a b); split; congruence.
Qed.

(** Replacing the empty string by the empty string changes nothing. *)
Lemma replace_empty_empty (s : pystr) : replace [] [] s = s.
Proof.
  unfold replace. simpl. induction s as [|c s IH]; simpl; congruence.
Qed.

Lemma clean_response_eq (text : pystr) :
  clean_response text = strip (replace (lit "json") [] (strip text)).
Proof. unfold clean_response. change (lit "") with (@nil N). now rewrite replace_empty_empty. Qed.

Lemma scan_uint_chars (u : Decimal.uint) (rest : pystr) :
  not_digit_head rest -> scan_uint (uint_chars u ++ rest) = (u, rest).
Proof.
  intros H. induction u; simpl; try (rewrite IHu; reflexivity).
  destruct rest as [|c r]; simpl in *; [reflexivity | now rewrite H].
Qed.

Lemma nzhead_not_D0 (d d' : Decimal.uint) : Decimal.nzhead d <> Decimal.D0 d'.
Proof. induction d; simpl; try discriminate. assumption. Qed.

Lemma unorm_fixed_head (d d' : Decimal.uint) :
  Decimal.unorm d = d -> d = Decimal.D0 d' -> d' = Decimal.Nil.
Proof.
  intros H ->. unfold Decimal.unorm in H. simpl in H.
  destruct (Decimal.nzhead d') eqn:E; try (inversion H; fail).
  - inversion H. reflexivity.
  - exfalso. apply (nzhead_not_D0 d' d'). now rewrite E, H.
Qed.

Lemma to_uint_normal (n : N) : Decimal.unorm (N.to_uint n) = N.to_uint n.
Proof.
  rewrite <- DecimalN.Unsigned.to_of. now rewrite DecimalN.Unsigned.of_to.
Qed.

Lemma pos_to_uint_head (p : positive) :
  exists c cs, uint_chars (Pos.to_uint p) = c :: cs /\ is_digit c = true /\ c <> 48%N.
Proof.
  pose proof (to_uint_normal (Npos p)) as Hn. simpl in Hn.
  pose proof (DecimalPos.Unsigned.to_uint_nonzero p) as Hz.
  destruct (Pos.to_uint p) as [|d|d|d|d|d|d|d|d|d|d] eqn:E; simpl;
    try (eexists; eexists; split; [reflexivity | split; [reflexivity | discriminate]]).
  - exfalso. apply (DecimalPos.Unsigned.to_uint_nonnil p). exact E.
  - exfalso. apply Hz. f_equal. eapply unorm_fixed_head; [exact Hn | reflexivity].
Qed.

Lemma number_end_not_digit rest : number_end rest -> not_digit_head rest.
Proof. destruct rest; simpl; tauto. Qed.

Lemma scan_frac_end rest : number_end rest -> scan_frac rest = None.
Proof.
  destruct rest as [|c [|d r]]; simpl; try reflexivity. intros (_ & H & _).
  apply N.eqb_neq in H. now rewrite H.
Qed.

Lemma scan_exp_end rest : number_end rest -> scan_exp rest = None.
Proof.
  destruct rest as [|c r]; simpl; [reflexivity|]. intros (_ & _ & H1 & H2).
  apply N.eqb_neq in H1, H2. now rewrite H1, H2.
Qed.

Lemma scan_unsigned_digits (neg : bool) (p : positive) (s rest : pystr) :
  number_end rest ->
  scan_unsigned neg s (str_of_N (Npos p) ++ rest)
  = Some (VInt (if neg then Zneg p else Zpos p), rest).
Proof.
  intros Hend. pose proof (number_end_not_digit _ Hend) as Hnd.
  unfold str_of_N. simpl N.to_uint.
  destruct (pos_to_uint_head p) as (c & cs & E & Hd & H0).
  apply N.eqb_neq in H0.
  unfold scan_unsigned. rewrite E at 1. simpl app. cbv beta iota. rewrite Hd, H0.
  rewrite scan_uint_chars by assumption.
  rewrite scan_frac_end, scan_exp_end by assumption.
  change (Pos.to_uint p) with (N.to_uint (Npos p)).
  rewrite DecimalN.Unsigned.of_to. now destruct neg.
Qed.

Lemma str_of_N_head (p : positive) :
  exists c cs, str_of_N (Npos p) = c :: cs /\ is_digit c = true.
Proof.
  destruct (pos_to_uint_head p) as (c & cs & E & Hd & _). now exists c, cs.
Qed.

(** The text of an integer is read back as that integer. *)
Lemma scan_number_str_of_Z (z : Z) (rest : pystr) :
  number_end rest -> scan_number (str_of_Z z ++ rest) = Some (VInt z, rest).
Proof.
  intros Hend. destruct z as [|p|p]; unfold str_of_Z, scan_number.
  - simpl. now rewrite scan_frac_end, scan_exp_end.
  - simpl Z.to_N. destruct (str_of_N_head p) as (c & cs & E & Hd).
    replace (startswith [45%N] (str_of_N (N.pos p) ++ rest)) with false.
    + now apply scan_unsigned_digits.
    + rewrite E. simpl. destruct (N.eqb_spec 45 c) as [<-|]; [discriminate | reflexivity].
  - simpl. now apply scan_unsigned_digits.
Qed.

Lemma hex_val_digit (d : N) : (d < 16)%N -> hex_val (hex_digit d) = Some d.
Proof.
  intros H.
  assert (E : In d [0;1;2;3;4;5;6;7;8;9;10;11;12;13;14;15]%N) by (simpl; lia).
  simpl in E.
  repeat (destruct E as [<-|E]; [reflexivity|]). contradiction.
Qed.

Lemma hex_digits_value (n : N) :
  (n < 65536)%N ->
  (((n / 4096 mod 16 * 16 + n / 256 mod 16) * 16 + n / 16 mod 16) * 16 + n mod 16 = n)%N.
Proof.
  intros H.
  replace (n / 4096)%N with (n / 16 / 16 / 16)%N by (now rewrite !N.Div0.div_div).
  replace (n / 256)%N with (n / 16 / 16)%N by (now rewrite !N.Div0.div_div).
  pose proof (N.div_mod n 16 ltac:(discriminate)) as E1.
  pose proof (N.div_mod (n / 16) 16 ltac:(discriminate)) as E2.
  pose proof (N.div_mod (n / 16 / 16) 16 ltac:(discriminate)) as E3.
  pose proof (N.div_mod (n / 16 / 16 / 16) 16 ltac:(discriminate)) as E4.
  pose proof (N.mod_lt n 16 ltac:(discriminate)).
  pose proof (N.mod_lt (n / 16) 16 ltac:(discriminate)).
  pose proof (N.mod_lt (n / 16 / 16) 16 ltac:(discriminate)).
  pose proof (N.mod_lt (n / 16 / 16 / 16) 16 ltac:(discriminate)).
  assert ((n / 16 / 16 / 16 / 16 = 0)%N).
  { rewrite !N.Div0.div_div. apply N.div_small. exact H. }
  lia.
Qed.

Lemma hex4_u_escape (n : N) (tail : pystr) :
  (n < 65536)%N ->
  exists a b c d, u_escape n ++ tail = 92%N :: 117%N :: a :: b :: c :: d :: tail
                  /\ hex4 a b c d = Some n.
Proof.
  intros H. unfold u_escape. simpl app. do 4 eexists. split; [reflexivity|].
  unfold hex4.
  rewrite !hex_val_digit by (apply N.mod_lt; discriminate).
  f_equal. now apply hex_digits_value.
Qed.

Lemma lor_disjoint (a b : N) : N.land a b = 0%N -> N.lor a b = (a + b)%N.
Proof.
  intros H. rewrite <- N.lxor_lor by assumption. symmetry. now apply N.add_nocarry_lxor.
Qed.

Lemma land_pow2_small (a b k : N) : (b < 2 ^ k)%N -> N.land (a * 2 ^ k) b = 0%N.
Proof.
  intros H. apply N.bits_inj_0. intros i. rewrite N.land_spec.
  destruct (N.lt_ge_cases i k) as [Hi|Hi].
  - now rewrite N.mul_pow2_bits_low.
  - destruct (N.eq_dec b 0) as [->|Hb]; [now rewrite N.bits_0, andb_false_r|].
    rewrite (N.bits_above_log2 b i), andb_false_r; [reflexivity|].
    apply N.log2_lt_pow2 in H; lia.
Qed.

Lemma surrogate_pair (c : N) :
  (65536 <= c < 1114112)%N ->
  let n := (c - 65536)%N in
  let hi := N.lor 55296 (N.land (N.shiftr n 10) 1023) in
  let lo := N.lor 56320 (N.land n 1023) in
  (hi < 65536)%N /\ (lo < 65536)%N /\ is_high_surrogate hi = true /\ is_low_surrogate lo = true
  /\ (65536 + N.lor (N.shiftl (hi - 55296) 10) (lo - 56320))%N = c.
Proof.
  intros Hc n hi lo.
  assert (Hq : N.land (N.shiftr n 10) 1023 = (n / 1024)%N).
  { change 1023%N with (N.ones 10). rewrite N.land_ones, N.shiftr_div_pow2.
    change (2 ^ 10)%N with 1024%N. apply N.mod_small.
    apply N.Div0.div_lt_upper_bound; subst n; lia. }
  assert (Hr : N.land n 1023 = (n mod 1024)%N).
  { change 1023%N with (N.ones 10). now rewrite N.land_ones. }
  assert (Hqb : (n / 1024 < 1024)%N) by (apply N.Div0.div_lt_upper_bound; subst n; lia).
  assert (Hrb : (n mod 1024 < 1024)%N) by (apply N.mod_lt; discriminate).
  assert (Hhi : hi = (55296 + n / 1024)%N).
  { subst hi. rewrite Hq. apply lor_disjoint.
    change 55296%N with (54 * 2 ^ 10)%N. now apply land_pow2_small. }
  assert (Hlo : lo = (56320 + n mod 1024)%N).
  { subst lo. rewrite Hr. apply lor_disjoint.
    change 56320%N with (55 * 2 ^ 10)%N. now apply land_pow2_small. }
  unfold is_high_surrogate, is_low_surrogate.
  rewrite Hhi, Hlo. repeat split; try lia.
  - apply andb_true_intro; split; apply N.leb_le; lia.
  - apply andb_true_intro; split; apply N.leb_le; lia.
  - replace (55296 + n / 1024 - 55296)%N with (n / 1024)%N by lia.
    replace (56320 + n mod 1024 - 56320)%N with (n mod 1024)%N by lia.
    rewrite N.shiftl_mul_pow2. rewrite lor_disjoint by now apply land_pow2_small.
    change (2 ^ 10)%N with 1024%N.
    pose proof (N.div_mod n 1024). subst n. lia.
Qed.

Lemma scanstring_cons (c : N) (s1 : pystr) :
  scanstring (c :: s1) =
  if (c =? 34)%N then Some ([], s1)
  else if (c =? 92)%N then
    match s1 with
    | [] => None
    | e :: s2 =>
        if (e =? 117)%N then
          match s2 with
          | a :: b :: c' :: d :: s3 =>
              match hex4 a b c' d with
              | None => None
              | Some uni =>
                  if is_high_surrogate uni && startswith [92; 117]%N s3
                  then
                    match s3 with
                    | _ :: _ :: a2 :: b2 :: c2 :: d2 :: s4 =>
                        match hex4 a2 b2 c2 d2 with
                        | None => None
                        | Some uni2 =>
                            if is_low_surrogate uni2
                            then cons_fst
                                   (65536 + N.lor (N.shiftl (uni - 55296) 10)
                                                  (uni2 - 56320))%N
                                   (scanstring s4)
                            else cons_fst uni (scanstring s3)
                        end
                    | _ => None
                    end
                  else cons_fst uni (scanstring s3)
              end
          | _ => None
          end
        else
          match backslash e with
          | Some c' => cons_fst c' (scanstring s2)
          | None => None
          end
    end
  else if (c <? 32)%N then None
  else cons_fst c (scanstring s1).
Proof. reflexivity. Qed.

Lemma scalar_not_high (c : N) : scalar c = true -> is_high_surrogate c = false.
Proof.
  unfold scalar, is_high_surrogate. intros H.
  apply orb_true_iff in H. apply andb_false_iff.
  destruct H as [H|H].
  - apply N.ltb_lt in H. left. apply N.leb_gt. lia.
  - apply andb_true_iff in H. destruct H as [H _]. apply N.ltb_lt in H.
    right. apply N.leb_gt. lia.
Qed.

Lemma scanstring_escape_char (c : N) (tail : pystr) :
  scalar c = true ->
  scanstring (escape_char c ++ tail) = cons_fst c (scanstring tail).
Proof.
  intros Hs. unfold escape_char.
  destruct (N.eqb_spec c 34) as [->|H34]; [reflexivity|].
  destruct (N.eqb_spec c 92) as [->|H92]; [reflexivity|].
  destruct (N.eqb_spec c 10) as [->|H10]; [reflexivity|].
  destruct (N.eqb_spec c 13) as [->|H13]; [reflexivity|].
  destruct (N.eqb_spec c 9) as [->|H9]; [reflexivity|].
  destruct (N.eqb_spec c 12) as [->|H12]; [reflexivity|].
  destruct (N.eqb_spec c 8) as [->|H8]; [reflexivity|].
  destruct ((32 <=? c)%N && (c <=? 126)%N) eqn:Hp.
  - apply andb_true_iff in Hp. destruct Hp as [Hlo Hhi].
    apply N.leb_le in Hlo. simpl app. rewrite scanstring_cons.
    apply N.eqb_neq in H34, H92. rewrite H34, H92.
    replace (c <? 32)%N with false by (symmetry; apply N.ltb_ge; lia).
    reflexivity.
  - destruct (N.ltb_spec c 65536) as [Hlt|Hge].
    + destruct (hex4_u_escape c tail Hlt) as (a & b & c' & d & E & Hx).
      rewrite E, scanstring_cons. simpl. rewrite Hx.
      now rewrite (scalar_not_high c Hs).
    + assert (Hc : (65536 <= c < 1114112)%N).
      { split; [assumption|]. unfold scalar in Hs. apply orb_true_iff in Hs.
        destruct Hs as [Hs|Hs]; [apply N.ltb_lt in Hs; lia|].
        apply andb_true_iff in Hs. destruct Hs as [_ Hs]. now apply N.ltb_lt in Hs. }
      destruct (surrogate_pair c Hc) as (Hhi & Hlo & Hh & Hl & Hv).
      cbv zeta. rewrite <- app_assoc.
      destruct (hex4_u_escape _ (u_escape (N.lor 56320 (N.land (c - 65536) 1023)) ++ tail) Hhi)
        as (a & b & c' & d & E & Hx).
      rewrite E, scanstring_cons. simpl N.eqb. cbv iota. rewrite Hx, Hh.
      destruct (hex4_u_escape _ tail Hlo) as (a2 & b2 & c2 & d2 & E2 & Hx2).
      rewrite E2.
      change (startswith [92; 117]%N (92%N :: 117%N :: a2 :: b2 :: c2 :: d2 :: tail)) with true.
      cbn [andb]. cbv iota. rewrite Hx2, Hl, Hv. reflexivity.
Qed.

(** The escaped form of Unicode text is read back as that text. *)
Lemma scanstring_encode (s rest : pystr) :
  text_ok s = true ->
  scanstring (flat_map escape_char s ++ 34%N :: rest) = Some (s, rest).
Proof.
  induction s as [|c s IH]; intros H; simpl in H |- *.
  - reflexivity.
  - apply andb_true_iff in H. destruct H as [Hc Hs].
    rewrite <- app_assoc, scanstring_escape_char by assumption.
    now rewrite IH.
Qed.

Lemma fuel_of_list xs : fuel_of (VList xs) = S (items_fuel xs).
Proof. reflexivity. Qed.

Lemma fuel_of_dict d : fuel_of (VDict d) = S (entries_fuel d).
Proof. reflexivity. Qed.

Lemma json_dumps_list xs :
  json_dumps (VList xs) = 91%N :: join (lit ", ") (map json_dumps xs) ++ [93%N].
Proof. reflexivity. Qed.

Lemma json_dumps_dict d :
  json_dumps (VDict d) = 123%N :: join (lit ", ") (map dumps_entry d) ++ [125%N].
Proof. reflexivity. Qed.

Lemma storable_list xs : storable (VList xs) = forallb storable xs.
Proof. reflexivity. Qed.

Lemma storable_dict d : storable (VDict d) = entries_ok d && distinct_keys d.
Proof.
  simpl. induction d as [|[k v] d IH]; simpl; [reflexivity|].
  rewrite IH. unfold entries_ok. simpl.
  destruct (text_ok k), (key_in k d), (storable v); simpl; try reflexivity;
    now rewrite ?andb_false_r.
Qed.

(** ** The JSON round trip *)

Lemma is_digit_cases (c : N) :
  is_digit c = true -> In c [48;49;50;51;52;53;54;55;56;57]%N.
Proof.
  unfold is_digit. intros H. apply andb_true_iff in H. destruct H as [H1 H2].
  apply N.leb_le in H1, H2. simpl. lia.
Qed.

Lemma value_start_cases (c : N) :
  value_start c = true ->
  In c [34;123;91;110;116;102;45;48;49;50;51;52;53;54;55;56;57]%N.
Proof.
  unfold value_start. rewrite !orb_true_iff, !N.eqb_eq.
  intros [[[[[[[H|H]|H]|H]|H]|H]|H]|H]; subst; simpl; try tauto.
  apply is_digit_cases in H. simpl in H. tauto.
Qed.

Ltac by_cases H :=
  simpl in H; repeat (destruct H as [<-|H]; [try reflexivity|]); try contradiction.

Lemma skip_ws_start (c : N) (s : pystr) :
  value_start c = true -> skip_ws (c :: s) = c :: s.
Proof. intros H. apply value_start_cases in H. by_cases H. Qed.

Lemma start_not_close (c : N) (s : pystr) :
  value_start c = true ->
  startswith [93%N] (c :: s) = false /\ startswith [125%N] (c :: s) = false.
Proof. intros H. apply value_start_cases in H. by_cases H; split; reflexivity. Qed.

Lemma str_of_Z_head (z : Z) :
  exists c s, str_of_Z z = c :: s /\ (c = 45%N \/ is_digit c = true).
Proof.
  destruct z as [|p|p].
  - exists 48%N, []. split; [reflexivity | now right].
  - destruct (str_of_N_head p) as (c & cs & E & Hd). exists c, cs. split; [exact E | now right].
  - eexists; eexists. split; [reflexivity | now left].
Qed.

Lemma dumps_head (v : value) :
  storable v = true ->
  exists c s, json_dumps v = c :: s /\ value_start c = true.
Proof.
  destruct v as [|[|]|z|l|s|xs|d]; intros H; try discriminate;
    try (eexists; eexists; split; reflexivity).
  destruct (str_of_Z_head z) as (c & s & E & Hc). exists c, s. split; [exact E|].
  destruct Hc as [->|Hc]; [reflexivity|].
  unfold value_start. rewrite Hc. now rewrite !orb_true_r.
Qed.

Lemma scan_once_number (f : nat) (c : N) (s : pystr) :
  c = 45%N \/ is_digit c = true ->
  scan_once (S f) (c :: s) =
  match scan_number (c :: s) with Some r => Some r | None => scan_constant (c :: s) end.
Proof.
  intros [->|H]; [reflexivity|]. apply is_digit_cases in H. by_cases H.
Qed.

Lemma delimiter_number_end rest : delimiter rest -> number_end rest.
Proof.
  destruct rest as [|c r]; simpl; [trivial|].
  unfold is_json_ws. rewrite !orb_true_iff, !N.eqb_eq.
  intros [->|[->|[->|[[[->| ->]| ->]| ->]]]]; repeat split; discriminate.
Qed.

Lemma skip_ws_delim (c : N) (s : pystr) :
  c = 44%N \/ c = 93%N \/ c = 125%N \/ c = 58%N -> skip_ws (c :: s) = c :: s.
Proof. intros [->|[->|[->| ->]]]; reflexivity. Qed.

Lemma JSONArray_S (f : nat) (s : pystr) (acc : list value) :
  JSONArray (S f) s acc =
  match scan_once f s with
  | None => None
  | Some (v, s1) =>
      match skip_ws s1 with
      | c :: s2 =>
          if (c =? 93)%N then Some (VList (rev (v :: acc)), s2)
          else if (c =? 44)%N then JSONArray f (skip_ws s2) (v :: acc)
          else None
      | [] => None
      end
  end.
Proof. reflexivity. Qed.

Lemma JSONObject_S (f : nat) (s : pystr) (acc : list (pystr * value)) :
  JSONObject (S f) s acc =
  if startswith [34%N] s then
    match scanstring (skipn 1 s) with
    | None => None
    | Some (key, s2) =>
        if startswith [58%N] (skip_ws s2) then
          match scan_once f (skip_ws (skipn 1 (skip_ws s2))) with
          | None => None
          | Some (v, s4) =>
              match skip_ws s4 with
              | c :: s5 =>
                  if (c =? 125)%N
                  then Some (VDict (dict_of_pairs (rev ((key, v) :: acc))), s5)
                  else if (c =? 44)%N
                  then JSONObject f (skip_ws s5) ((key, v) :: acc)
                  else None
              | [] => None
              end
          end
        else None
    end
  else None.
Proof. reflexivity. Qed.

Lemma join_cons2 (sep a b : pystr) (l : list pystr) :
  join sep (a :: b :: l) = a ++ sep ++ join sep (b :: l).
Proof. reflexivity. Qed.

Lemma JSONArray_items (xs : list value) :
  Forall parses xs -> forallb storable xs = true -> xs <> [] ->
  forall fuel acc rest, items_fuel xs <= fuel ->
    JSONArray fuel (join (lit ", ") (map json_dumps xs) ++ 93%N :: rest) acc
    = Some (VList (rev acc ++ xs), rest).
Proof.
  induction 1 as [|x xs Hx Hxs IH]; intros Hst Hne fuel acc rest Hf; [congruence|].
  simpl in Hst. apply andb_true_iff in Hst. destruct Hst as [Hsx Hsxs].
  simpl in Hf. destruct fuel as [|f]; [lia|]. rewrite JSONArray_S.
  destruct xs as [|y ys].
  - simpl map. simpl join. rewrite Hx; [|lia|simpl; tauto].
    reflexivity.
  - destruct (dumps_head y) as (c & s & E & Hc).
    { simpl in Hsxs. now apply andb_true_iff in Hsxs. }
    assert (Hj : exists t, join (lit ", ") (map json_dumps (y :: ys)) = c :: t).
    { simpl map. destruct ys; simpl; rewrite E; eexists; reflexivity. }
    destruct Hj as (t & Hj).
    change (map json_dumps (x :: y :: ys)) with (json_dumps x :: json_dumps y :: map json_dumps ys).
    rewrite join_cons2.
    change (json_dumps y :: map json_dumps ys) with (map json_dumps (y :: ys)).
    rewrite Hj in IH |- *. rewrite <- !app_assoc.
    rewrite Hx; [|lia|simpl; tauto].
    change (lit ", " ++ (c :: t) ++ 93%N :: rest) with (44%N :: 32%N :: c :: t ++ 93%N :: rest).
    rewrite skip_ws_delim by tauto. cbv beta iota.
    change (44 =? 93)%N with false. change (44 =? 44)%N with true. cbv iota.
    change (skip_ws (32%N :: c :: t ++ 93%N :: rest)) with (skip_ws (c :: t ++ 93%N :: rest)).
    rewrite skip_ws_start by assumption.
    change (c :: t ++ 93%N :: rest) with ((c :: t) ++ 93%N :: rest).
    rewrite IH; [|assumption|discriminate|simpl in *; lia].
    simpl. now rewrite <- app_assoc.
Qed.

Lemma dumps_entry_eq (kv : pystr * value) :
  dumps_entry kv = 34%N :: flat_map escape_char (fst kv)
                   ++ 34%N :: 58%N :: 32%N :: json_dumps (snd kv).
Proof.
  unfold dumps_entry, encode_basestring_ascii. simpl. now rewrite <- app_assoc.
Qed.

Lemma scan_entry (f : nat) (kv : pystr * value) (tail : pystr) (acc : list (pystr * value)) :
  text_ok (fst kv) = true -> storable (snd kv) = true -> parses (snd kv) ->
  fuel_of (snd kv) <= f -> delimiter tail ->
  JSONObject (S f) (dumps_entry kv ++ tail) acc =
  match skip_ws tail with
  | c :: s5 =>
      if (c =? 125)%N
      then Some (VDict (dict_of_pairs (rev (kv :: acc))), s5)
      else if (c =? 44)%N
      then JSONObject f (skip_ws s5) (kv :: acc)
      else None
  | [] => None
  end.
Proof.
  intros Hk Hs Hp Hf Hd. destruct kv as [k v]. simpl fst in *. simpl snd in *.
  rewrite JSONObject_S, dumps_entry_eq. simpl fst. simpl snd.
  change (startswith [34%N] ((34%N :: flat_map escape_char k ++ 34%N :: 58%N :: 32%N :: json_dumps v) ++ tail))
    with true. cbv iota.
  change (skipn 1 ((34%N :: flat_map escape_char k ++ 34%N :: 58%N :: 32%N :: json_dumps v) ++ tail))
    with ((flat_map escape_char k ++ 34%N :: 58%N :: 32%N :: json_dumps v) ++ tail).
  rewrite <- app_assoc. change ((34%N :: 58%N :: 32%N :: json_dumps v) ++ tail)
    with (34%N :: 58%N :: 32%N :: json_dumps v ++ tail).
  rewrite scanstring_encode by assumption.
  rewrite skip_ws_delim by tauto.
  change (startswith [58%N] (58%N :: 32%N :: json_dumps v ++ tail)) with true. cbv iota.
  change (skip_ws (skipn 1 (58%N :: 32%N :: json_dumps v ++ tail)))
    with (skip_ws (json_dumps v ++ tail)).
  destruct (dumps_head v Hs) as (c & s & E & Hc).
  rewrite E at 1. simpl app. rewrite skip_ws_start by assumption.
  change (c :: s ++ tail) with ((c :: s) ++ tail). rewrite <- E.
  rewrite Hp by assumption. reflexivity.
Qed.

Lemma JSONObject_entries (d : list (pystr * value)) :
  Forall (fun kv => parses (snd kv)) d -> entries_ok d = true -> d <> [] ->
  forall fuel acc rest, entries_fuel d <= fuel ->
    JSONObject fuel (join (lit ", ") (map dumps_entry d) ++ 125%N :: rest) acc
    = Some (VDict (dict_of_pairs (rev acc ++ d)), rest).
Proof.
  induction 1 as [|kv d Hx Hxs IH]; intros Hst Hne fuel acc rest Hf; [congruence|].
  unfold entries_ok in Hst. simpl in Hst.
  apply andb_true_iff in Hst. destruct Hst as [Hkv Hsd].
  apply andb_true_iff in Hkv. destruct Hkv as [Hk Hv].
  simpl in Hf. destruct fuel as [|f]; [lia|].
  destruct d as [|kv2 d2].
  - simpl map. simpl join. rewrite scan_entry; try assumption; [|lia|simpl; tauto].
    reflexivity.
  - change (map dumps_entry (kv :: kv2 :: d2))
      with (dumps_entry kv :: dumps_entry kv2 :: map dumps_entry d2).
    rewrite join_cons2.
    change (dumps_entry kv2 :: map dumps_entry d2) with (map dumps_entry (kv2 :: d2)).
    assert (Hj : exists t, join (lit ", ") (map dumps_entry (kv2 :: d2)) = 34%N :: t).
    { simpl map. rewrite dumps_entry_eq. destruct d2; simpl; eexists; reflexivity. }
    destruct Hj as (t & Hj). rewrite Hj in IH |- *. rewrite <- !app_assoc.
    change (lit ", " ++ (34%N :: t) ++ 125%N :: rest) with (44%N :: 32%N :: 34%N :: t ++ 125%N :: rest).
    rewrite scan_entry; try assumption; [|lia|simpl; tauto].
    rewrite skip_ws_delim by tauto. cbv beta iota.
    change (44 =? 125)%N with false. change (44 =? 44)%N with true. cbv iota.
    change (skip_ws (32%N :: 34%N :: t ++ 125%N :: rest)) with ((34%N :: t) ++ 125%N :: rest).
    rewrite IH; [|assumption|discriminate|simpl in *; lia].
    simpl. now rewrite <- app_assoc.
Qed.

Lemma dict_set_fresh (k : pystr) (v : value) (d : dict) :
  key_in k d = false -> dict_set k v d = d ++ [(k, v)].
Proof.
  induction d as [|[k' v'] d IH]; simpl; [reflexivity|].
  intros H. apply orb_false_iff in H. destruct H as [H1 H2].
  rewrite H1. now rewrite IH.
Qed.

Lemma key_in_app (k : pystr) (d1 d2 : dict) :
  key_in k (d1 ++ d2) = key_in k d1 || key_in k d2.
Proof. unfold key_in. apply existsb_app. Qed.

(** [dict(pairs)] keeps pairs with distinct keys as they are. *)
Lemma dict_of_pairs_distinct (d : list (pystr * value)) :
  distinct_keys d = true -> dict_of_pairs d = d.
Proof.
  unfold dict_of_pairs.
  assert (G : forall d0, distinct_keys d = true ->
                (forall kv, In kv d0 -> key_in (fst kv) d = false) ->
                fold_left (fun d1 kv => dict_set (fst kv) (snd kv) d1) d d0 = d0 ++ d).
  { induction d as [|[k v] d IH]; intros d0 Hd H0; simpl.
    - now rewrite app_nil_r.
    - simpl in Hd. apply andb_true_iff in Hd. destruct Hd as [Hk Hd].
      apply negb_true_iff in Hk.
      rewrite dict_set_fresh.
      + rewrite IH; [now rewrite <- app_assoc | assumption |].
        intros kv Hin. apply in_app_or in Hin. destruct Hin as [Hin|[<-|[]]].
        * specialize (H0 kv Hin). simpl in H0. now apply orb_false_iff in H0.
        * exact Hk.
      + destruct (key_in k d0) eqn:E; [|reflexivity].
        unfold key_in in E. apply existsb_exists in E. destruct E as (kv & Hin & E).
        specialize (H0 kv Hin). simpl in H0. apply orb_false_iff in H0.
        destruct H0 as [H0 _]. apply pystr_eqb_eq in E. subst k.
        now rewrite pystr_eqb_refl in H0. }
  intros H. now apply (G [] H).
Qed.

(** The scanner reads the text of a serialisable object back, whatever
    delimiter follows it. *)
Theorem scan_once_dumps (v : value) : storable v = true -> parses v.
Proof.
  induction v as [|b|z|l|s|xs IH|d IH] using value_ind'; intros Hs fuel rest Hf Hd;
    (destruct fuel as [|f]; [simpl in Hf; lia|]); try discriminate.
  - reflexivity.
  - destruct b; reflexivity.
  - destruct (str_of_Z_head z) as (c & s & E & Hc).
    change (json_dumps (VInt z)) with (str_of_Z z).
    rewrite E at 1. simpl app. rewrite scan_once_number by assumption.
    change (c :: s ++ rest) with ((c :: s) ++ rest). rewrite <- E.
    now rewrite scan_number_str_of_Z by now apply delimiter_number_end.
  - change (json_dumps (VStr s)) with (34%N :: flat_map escape_char s ++ [34%N]).
    simpl app. rewrite <- app_assoc. simpl app.
    change (scan_once (S f) (34%N :: flat_map escape_char s ++ 34%N :: rest))
      with (match scanstring (flat_map escape_char s ++ 34%N :: rest) with
            | Some (content, r) => Some (VStr content, r) | None => None end).
    now rewrite scanstring_encode.
  - rewrite json_dumps_list. simpl app. rewrite <- app_assoc. simpl app.
    rewrite storable_list in Hs.
    destruct xs as [|x xs]; [reflexivity|].
    destruct (dumps_head x) as (c & s & E & Hc).
    { simpl in Hs. now apply andb_true_iff in Hs. }
    assert (Hj : exists t, join (lit ", ") (map json_dumps (x :: xs)) = c :: t).
    { simpl map. destruct xs; simpl; rewrite E; eexists; reflexivity. }
    destruct Hj as (t & Hj).
    assert (Hp : Forall parses (x :: xs)).
    { apply Forall_forall. intros y Hy. rewrite Forall_forall in IH.
      apply IH; [assumption|]. rewrite forallb_forall in Hs. now apply Hs. }
    pose proof (JSONArray_items (x :: xs) Hp Hs ltac:(discriminate) f [] rest) as HA.
    rewrite Hj in HA |- *.
    change (scan_once (S f) (91%N :: (c :: t) ++ 93%N :: rest))
      with (if startswith [93%N] (skip_ws ((c :: t) ++ 93%N :: rest))
            then Some (VList [], skipn 1 (skip_ws ((c :: t) ++ 93%N :: rest)))
            else JSONArray f (skip_ws ((c :: t) ++ 93%N :: rest)) []).
    simpl app. rewrite skip_ws_start by assumption.
    rewrite (proj1 (start_not_close c _ Hc)).
    apply HA. change (fuel_of (VList (x :: xs))) with (S (items_fuel (x :: xs))) in Hf. lia.
  - rewrite json_dumps_dict. simpl app. rewrite <- app_assoc. simpl app.
    rewrite storable_dict in Hs. apply andb_true_iff in Hs. destruct Hs as [Hok Hdk].
    destruct d as [|kv d]; [reflexivity|].
    assert (Hj : exists t, join (lit ", ") (map dumps_entry (kv :: d)) = 34%N :: t).
    { simpl map. rewrite dumps_entry_eq. destruct d; simpl; eexists; reflexivity. }
    destruct Hj as (t & Hj).
    assert (Hp : Forall (fun kv => parses (snd kv)) (kv :: d)).
    { apply Forall_forall. intros y Hy. rewrite Forall_forall in IH.
      apply IH; [assumption|]. unfold entries_ok in Hok. rewrite forallb_forall in Hok.
      specialize (Hok y Hy). now apply andb_true_iff in Hok. }
    pose proof (JSONObject_entries (kv :: d) Hp Hok ltac:(discriminate) f [] rest) as HA.
    rewrite Hj in HA |- *.
    change (scan_once (S f) (123%N :: (34%N :: t) ++ 125%N :: rest))
      with (JSONObject f ((34%N :: t) ++ 125%N :: rest) []).
    rewrite HA.
    + simpl app. now rewrite dict_of_pairs_distinct.
    + change (fuel_of (VDict (kv :: d))) with (S (entries_fuel (kv :: d))) in Hf. lia.
Qed.

Lemma items_fuel_bound (xs : list value) :
  Forall (fun x => fuel_of x <= length (json_dumps x)) xs ->
  items_fuel xs <= length (join (lit ", ") (map json_dumps xs)) + 1.
Proof.
  induction 1 as [|x xs Hx Hxs IH]; [simpl; lia|].
  destruct xs as [|y ys].
  - simpl. lia.
  - change (map json_dumps (x :: y :: ys)) with (json_dumps x :: json_dumps y :: map json_dumps ys).
    rewrite join_cons2. rewrite !length_app.
    change (json_dumps y :: map json_dumps ys) with (map json_dumps (y :: ys)).
    change (items_fuel (x :: y :: ys)) with (S (fuel_of x) + items_fuel (y :: ys)).
    change (length (lit ", ")) with 2.
    set (Fy := items_fuel (y :: ys)) in *.
    set (L := length (join (lit ", ") (map json_dumps (y :: ys)))) in *.
    clearbody Fy L. clear Hxs. try clear He0. lia.
Qed.

Lemma entries_fuel_bound (d : list (pystr * value)) :
  Forall (fun kv => fuel_of (snd kv) <= length (json_dumps (snd kv))) d ->
  entries_fuel d <= length (join (lit ", ") (map dumps_entry d)) + 1.
Proof.
  assert (He : forall kv, length (json_dumps (snd kv)) <= length (dumps_entry kv)).
  { intros kv. unfold dumps_entry. rewrite !length_app. lia. }
  induction 1 as [|x xs Hx Hxs IH]; [simpl; lia|].
  destruct xs as [|y ys].
  - change (entries_fuel [x]) with (S (fuel_of (snd x)) + 0).
    change (join (lit ", ") (map dumps_entry [x])) with (dumps_entry x).
    specialize (He x). clear Hxs IH. lia.
  - change (map dumps_entry (x :: y :: ys)) with (dumps_entry x :: dumps_entry y :: map dumps_entry ys).
    rewrite join_cons2. rewrite !length_app.
    change (dumps_entry y :: map dumps_entry ys) with (map dumps_entry (y :: ys)).
    change (entries_fuel (x :: y :: ys)) with (S (fuel_of (snd x)) + entries_fuel (y :: ys)).
    change (length (lit ", ")) with 2. specialize (He x).
    set (Fy := entries_fuel (y :: ys)) in *.
    set (L := length (join (lit ", ") (map dumps_entry (y :: ys)))) in *.
    clearbody Fy L. clear Hxs. try clear He0. lia.
Qed.

Lemma fuel_of_bound (v : value) :
  storable v = true -> fuel_of v <= length (json_dumps v).
Proof.
  induction v as [|b|z|l|s|xs IH|d IH] using value_ind'; intros Hs; try discriminate.
  - simpl. lia.
  - destruct b; simpl; lia.
  - destruct (dumps_head (VInt z) Hs) as (c & t & E & _). rewrite E. simpl. lia.
  - simpl. lia.
  - rewrite fuel_of_list, json_dumps_list. simpl length. rewrite length_app. simpl length.
    rewrite storable_list in Hs.
    assert (H : Forall (fun x => fuel_of x <= length (json_dumps x)) xs).
    { apply Forall_forall. intros y Hy. rewrite Forall_forall in IH.
      apply IH; [assumption|]. rewrite forallb_forall in Hs. now apply Hs. }
    pose proof (items_fuel_bound xs H). lia.
  - rewrite fuel_of_dict, json_dumps_dict. simpl length. rewrite length_app. simpl length.
    rewrite storable_dict in Hs. apply andb_true_iff in Hs. destruct Hs as [Hok _].
    assert (H : Forall (fun kv => fuel_of (snd kv) <= length (json_dumps (snd kv))) d).
    { apply Forall_forall. intros y Hy. rewrite Forall_forall in IH.
      apply IH; [assumption|]. unfold entries_ok in Hok. rewrite forallb_forall in Hok.
      specialize (Hok y Hy). now apply andb_true_iff in Hok. }
    pose proof (entries_fuel_bound d H). lia.
Qed.

(** [json.loads(json.dumps(v)) == v] for a serialisable object. *)
Theorem json_loads_dumps (v : value) :
  storable v = true -> json_loads (json_dumps v) = Some v.
Proof.
  intros Hs. unfold json_loads.
  destruct (dumps_head v Hs) as (c & t & E & Hc).
  assert (Hb : startswith [65279%N] (json_dumps v) = false).
  { rewrite E. apply value_start_cases in Hc. by_cases Hc. }
  rewrite Hb. rewrite E at 2. rewrite skip_ws_start by assumption. rewrite <- E.
  pose proof (scan_once_dumps v Hs (2 * length (json_dumps v) + 2) []) as H.
  rewrite app_nil_r in H. rewrite H; [reflexivity| |exact I].
  pose proof (fuel_of_bound v Hs). lia.
Qed.

(** ** Fuel of the scanner *)

Lemma scan_once_S (f : nat) (s : pystr) :
  scan_once (S f) s =
  match s with
  | [] => None
  | c :: s1 =>
      if (c =? 34)%N then
        match scanstring s1 with
        | Some (content, rest) => Some (VStr content, rest)
        | None => None
        end
      else if (c =? 123)%N then
        if startswith [125%N] (skip_ws s1)
        then Some (VDict [], skipn 1 (skip_ws s1))
        else JSONObject f (skip_ws s1) []
      else if (c =? 91)%N then
        if startswith [93%N] (skip_ws s1)
        then Some (VList [], skipn 1 (skip_ws s1))
        else JSONArray f (skip_ws s1) []
      else if startswith (lit "null") s then Some (VNone, skipn 4 s)
      else if startswith (lit "true") s then Some (VBool true, skipn 4 s)
      else if startswith (lit "false") s then Some (VBool false, skipn 5 s)
      else
        match scan_number s with
        | Some r => Some r
        | None => scan_constant s
        end
  end.
Proof. reflexivity. Qed.

(** More fuel does not change a successful scan. *)
Lemma scan_fuel_succ (f : nat) :
  (forall s r, scan_once f s = Some r -> scan_once (S f) s = Some r)
  /\ (forall s acc r, JSONArray f s acc = Some r -> JSONArray (S f) s acc = Some r)
  /\ (forall s acc r, JSONObject f s acc = Some r -> JSONObject (S f) s acc = Some r).
Proof.
  induction f as [|f (IH1 & IH2 & IH3)].
  - repeat split; intros; discriminate.
  - split; [|split].
    + intros s r H. rewrite scan_once_S in H |- *.
      destruct s as [|c s1]; [discriminate|].
      destruct (c =? 34)%N; [exact H|].
      destruct (c =? 123)%N.
      { destruct (startswith [125%N] (skip_ws s1)); [exact H | now apply IH3]. }
      destruct (c =? 91)%N.
      { destruct (startswith [93%N] (skip_ws s1)); [exact H | now apply IH2]. }
      exact H.
    + intros s acc r H. rewrite JSONArray_S in H |- *.
      destruct (scan_once f s) as [[v s1]|] eqn:E; [|discriminate].
      rewrite (IH1 _ _ E).
      destruct (skip_ws s1) as [|c s2]; [discriminate|].
      destruct (c =? 93)%N; [exact H|].
      destruct (c =? 44)%N; [now apply IH2 | discriminate].
    + intros s acc r H. rewrite JSONObject_S in H |- *.
      destruct (startswith [34%N] s); [|discriminate].
      destruct (scanstring (skipn 1 s)) as [[key s2]|]; [|discriminate].
      destruct (startswith [58%N] (skip_ws s2)); [|discriminate].
      destruct (scan_once f (skip_ws (skipn 1 (skip_ws s2)))) as [[v s4]|] eqn:E; [|discriminate].
      rewrite (IH1 _ _ E).
      destruct (skip_ws s4) as [|c s5]; [discriminate|].
      destruct (c =? 125)%N; [exact H|].
      destruct (c =? 44)%N; [now apply IH3 | discriminate].
Qed.

Lemma scan_once_mono (f f' : nat) (s : pystr) (r : value * pystr) :
  f <= f' -> scan_once f s = Some r -> scan_once f' s = Some r.
Proof.
  induction 1 as [|f' Hle IH]; intros H; [exact H|].
  apply (proj1 (scan_fuel_succ f')). now apply IH.
Qed.

Lemma JSONArray_mono (f f' : nat) (s : pystr) (acc : list value) (r : value * pystr) :
  f <= f' -> JSONArray f s acc = Some r -> JSONArray f' s acc = Some r.
Proof.
  induction 1 as [|f' Hle IH]; intros H; [exact H|].
  apply (proj1 (proj2 (scan_fuel_succ f'))). now apply IH.
Qed.

Lemma JSONObject_mono (f f' : nat) (s : pystr) (acc : list (pystr * value))
    (r : value * pystr) :
  f <= f' -> JSONObject f s acc = Some r -> JSONObject f' s acc = Some r.
Proof.
  induction 1 as [|f' Hle IH]; intros H; [exact H|].
  apply (proj2 (proj2 (scan_fuel_succ f'))). now apply IH.
Qed.

Lemma cons_fst_some (c : N) (o : option (pystr * pystr)) (content rest : pystr) :
  cons_fst c o = Some (content, rest) ->
  exists content', o = Some (content', rest).
Proof.
  destruct o as [[c' r]|]; simpl; [|discriminate].
  intros H. injection H as _ ->. now exists c'.
Qed.

Lemma scanstring_shorter (n : nat) :
  forall s content rest,
    length s <= n -> scanstring s = Some (content, rest) -> length rest < length s.
Proof.
  induction n as [|n IH]; intros s content rest Hn H.
  - destruct s; [discriminate | simpl in Hn; lia].
  - assert (Hrec : forall x t content' rest', length t <= n ->
              cons_fst x (scanstring t) = Some (content', rest') ->
              length rest' < length t).
    { intros x t content' rest' Ht Hc. apply cons_fst_some in Hc.
      destruct Hc as (c0 & Hc). now apply IH in Hc. }
    destruct s as [|c s1]; [discriminate|]. rewrite scanstring_cons in H.
    cbn [length] in Hn |- *.
    destruct (c =? 34)%N; [injection H as _ <-; lia|].
    destruct (c =? 92)%N.
    + destruct s1 as [|e s2]; [discriminate|]. cbn [length] in Hn |- *.
      destruct (e =? 117)%N.
      * destruct s2 as [|a [|b [|c' [|d s3]]]]; try discriminate.
        cbn [length] in Hn |- *.
        destruct (hex4 a b c' d) as [uni|]; [|discriminate].
        destruct (is_high_surrogate uni && startswith [92; 117]%N s3).
        -- destruct s3 as [|x1 [|x2 [|a2 [|b2 [|c2 [|d2 s4]]]]]]; try discriminate.
           destruct (hex4 a2 b2 c2 d2) as [uni2|]; [|discriminate].
           destruct (is_low_surrogate uni2);
             apply Hrec in H; cbn [length] in *; lia.
        -- apply Hrec in H; lia.
      * destruct (backslash e) as [c'|]; [|discriminate].
        apply Hrec in H; lia.
    + destruct (c <? 32)%N; [discriminate|]. apply Hrec in H; lia.
Qed.

Lemma dropwhile_length (p : N -> bool) (s : pystr) :
  length (dropwhile p s) <= length s.
Proof.
  induction s as [|c s IH]; simpl; [lia|]. destruct (p c); simpl; lia.
Qed.

Lemma skip_ws_length (s : pystr) : length (skip_ws s) <= length s.
Proof. apply dropwhile_length. Qed.

Lemma scan_uint_length (s : pystr) : length (snd (scan_uint s)) <= length s.
Proof.
  induction s as [|c s IH]; simpl; [lia|].
  destruct (is_digit c); [|simpl; lia].
  destruct (scan_uint s) as [u r]. simpl in *. lia.
Qed.

Lemma scan_frac_length (s r : pystr) : scan_frac s = Some r -> length r <= length s.
Proof.
  destruct s as [|c [|d s]]; simpl; try discriminate.
  destruct ((c =? 46)%N && is_digit d); [|discriminate].
  intros H. injection H as <-.
  pose proof (scan_uint_length (d :: s)). simpl in *. lia.
Qed.

Lemma scan_exp_length (s r : pystr) : scan_exp s = Some r -> length r <= length s.
Proof.
  unfold scan_exp. destruct s as [|e s1]; [discriminate|].
  destruct ((e =? 101)%N || (e =? 69)%N); [|discriminate].
  destruct s1 as [|sg s2]; [discriminate|].
  assert (G : forall t, match t with
                        | [] => None
                        | d :: _ => if is_digit d then Some (snd (scan_uint t)) else None
                        end = Some r -> length r <= length t).
  { intros [|d t]; [discriminate|]. destruct (is_digit d); [|discriminate].
    intros H. injection H as <-. exact (scan_uint_length (d :: t)). }
  destruct ((sg =? 43)%N || (sg =? 45)%N); intros H;
    [apply (G s2) in H | apply (G (sg :: s2)) in H]; simpl in *; lia.
Qed.

Lemma scan_unsigned_shorter (neg : bool) (s body : pystr) (v : value) (rest : pystr) :
  scan_unsigned neg s body = Some (v, rest) -> length rest < length body.
Proof.
  unfold scan_unsigned. destruct body as [|d body']; [discriminate|].
  destruct (is_digit d) eqn:Hd; [|discriminate].
  assert (H0 : forall u r0, (if (d =? 48)%N then (Decimal.D0 Decimal.Nil, body')
                             else scan_uint (d :: body')) = (u, r0) ->
                            length r0 < length (d :: body')).
  { intros u r0. destruct (d =? 48)%N.
    - intros H. injection H as _ <-. simpl. lia.
    - simpl scan_uint. rewrite Hd. pose proof (scan_uint_length body') as Hl.
      destruct (scan_uint body') as [u' r']. intros H. injection H as _ <-.
      simpl in *. lia. }
  destruct (if (d =? 48)%N then (Decimal.D0 Decimal.Nil, body') else scan_uint (d :: body'))
    as [u r0] eqn:E.
  specialize (H0 u r0 eq_refl).
  destruct (scan_frac r0) as [r1|] eqn:Ef.
  - apply scan_frac_length in Ef.
    destruct (scan_exp r1) as [r2|] eqn:Ee; intros H; injection H as _ <-.
    + apply scan_exp_length in Ee. lia.
    + lia.
  - destruct (scan_exp r0) as [r2|] eqn:Ee; intros H; injection H as _ <-.
    + apply scan_exp_length in Ee. lia.
    + lia.
Qed.

Lemma scan_number_shorter (s : pystr) (v : value) (rest : pystr) :
  scan_number s = Some (v, rest) -> length rest < length s.
Proof.
  unfold scan_number. destruct (startswith [45%N] s) eqn:E; intros H;
    apply scan_unsigned_shorter in H.
  - destruct s; [discriminate|]. simpl in *. lia.
  - exact H.
Qed.

Lemma startswith_length (p s : pystr) :
  startswith p s = true -> length p <= length s.
Proof.
  revert s. induction p as [|a p IH]; intros s H; simpl; [lia|].
  destruct s as [|b s]; [discriminate|]. simpl in H.
  apply andb_true_iff in H. destruct H as [_ H]. apply IH in H. simpl. lia.
Qed.

Lemma skipn_shorter (k : nat) (p s : pystr) :
  startswith p s = true -> length p = k -> 0 < k -> length (skipn k s) < length s.
Proof.
  intros H <- Hk. apply startswith_length in H. rewrite length_skipn. lia.
Qed.

Lemma scan_constant_shorter (s : pystr) (v : value) (rest : pystr) :
  scan_constant s = Some (v, rest) -> length rest < length s.
Proof.
  unfold scan_constant.
  destruct (startswith (lit "NaN") s) eqn:E1.
  { intros H. injection H as _ <-. apply (skipn_shorter 3 (lit "NaN")); [assumption | reflexivity | lia]. }
  destruct (startswith (lit "Infinity") s) eqn:E2.
  { intros H. injection H as _ <-. apply (skipn_shorter 8 (lit "Infinity")); [assumption | reflexivity | lia]. }
  destruct (startswith (lit "-Infinity") s) eqn:E3; [|discriminate].
  intros H. injection H as _ <-. apply (skipn_shorter 9 (lit "-Infinity")); [assumption | reflexivity | lia].
Qed.

(** A successful scan consumes at least one character. *)
Lemma scan_shorter (f : nat) :
  (forall s v rest, scan_once f s = Some (v, rest) -> length rest < length s)
  /\ (forall s acc v rest, JSONArray f s acc = Some (v, rest) -> length rest < length s)
  /\ (forall s acc v rest, JSONObject f s acc = Some (v, rest) -> length rest < length s).
Proof.
  induction f as [|f (IH1 & IH2 & IH3)].
  - repeat split; intros; discriminate.
  - split; [|split].
    + intros s v rest H. rewrite scan_once_S in H.
      destruct s as [|c s1]; [discriminate|].
      destruct (c =? 34)%N.
      { destruct (scanstring s1) as [[content r]|] eqn:E; [|discriminate].
        injection H as _ <-. apply (scanstring_shorter (length s1)) in E; simpl; lia. }
      pose proof (skip_ws_length s1) as Hw.
      destruct (c =? 123)%N.
      { destruct (startswith [125%N] (skip_ws s1)) eqn:E.
        - injection H as _ <-. apply (skipn_shorter 1) in E; simpl in *; lia.
        - apply IH3 in H. simpl. lia. }
      destruct (c =? 91)%N.
      { destruct (startswith [93%N] (skip_ws s1)) eqn:E.
        - injection H as _ <-. apply (skipn_shorter 1) in E; simpl in *; lia.
        - apply IH2 in H. simpl. lia. }
      destruct (startswith (lit "null") (c :: s1)) eqn:E1.
      { injection H as _ <-. exact (skipn_shorter 4 (lit "null") (c :: s1) E1 eq_refl ltac:(lia)). }
      destruct (startswith (lit "true") (c :: s1)) eqn:E2.
      { injection H as _ <-. exact (skipn_shorter 4 (lit "true") (c :: s1) E2 eq_refl ltac:(lia)). }
      destruct (startswith (lit "false") (c :: s1)) eqn:E3.
      { injection H as _ <-. exact (skipn_shorter 5 (lit "false") (c :: s1) E3 eq_refl ltac:(lia)). }
      destruct (scan_number (c :: s1)) as [[v' r']|] eqn:E4.
      { injection H as _ <-. now apply scan_number_shorter in E4. }
      now apply scan_constant_shorter in H.
    + intros s acc v rest H. rewrite JSONArray_S in H.
      destruct (scan_once f s) as [[v1 s1]|] eqn:E; [|discriminate].
      apply IH1 in E. pose proof (skip_ws_length s1) as Hw.
      destruct (skip_ws s1) as [|c s2]; [discriminate|]. simpl in Hw.
      destruct (c =? 93)%N; [injection H as _ <-; lia|].
      destruct (c =? 44)%N; [|discriminate].
      apply IH2 in H. pose proof (skip_ws_length s2). lia.
    + intros s acc v rest H. rewrite JSONObject_S in H.
      destruct (startswith [34%N] s) eqn:Eq; [|discriminate].
      destruct (scanstring (skipn 1 s)) as [[key s2]|] eqn:Es; [|discriminate].
      apply (scanstring_shorter (length (skipn 1 s))) in Es; [|lia].
      rewrite length_skipn in Es.
      destruct (startswith [58%N] (skip_ws s2)); [|discriminate].
      destruct (scan_once f (skip_ws (skipn 1 (skip_ws s2)))) as [[v1 s4]|] eqn:E; [|discriminate].
      apply IH1 in E.
      pose proof (skip_ws_length (skipn 1 (skip_ws s2))) as H1.
      rewrite length_skipn in H1. pose proof (skip_ws_length s2) as H2.
      pose proof (skip_ws_length s4) as H4.
      destruct (skip_ws s4) as [|c s5]; [discriminate|]. simpl in H4.
      destruct (c =? 125)%N; [injection H as _ <-; lia|].
      destruct (c =? 44)%N; [|discriminate].
      apply IH3 in H. pose proof (skip_ws_length s5). lia.
Qed.

(** The fuel [json_loads] gives is enough: a scan that succeeds with some
    fuel succeeds with twice the length of the text. *)
Lemma scan_fuel_enough (f : nat) :
  (forall s r, scan_once f s = Some r -> scan_once (2 * length s + 1) s = Some r)
  /\ (forall s acc r, JSONArray f s acc = Some r ->
        JSONArray (2 * length s + 2) s acc = Some r)
  /\ (forall s acc r, JSONObject f s acc = Some r ->
        JSONObject (2 * length s + 2) s acc = Some r).
Proof.
  induction f as [|f (IH1 & IH2 & IH3)].
  - repeat split; intros; discriminate.
  - split; [|split].
    + intros s r H. replace (2 * length s + 1) with (S (2 * length s)) by lia.
      rewrite scan_once_S in H |- *.
      destruct s as [|c s1]; [discriminate|].
      destruct (c =? 34)%N; [exact H|].
      pose proof (skip_ws_length s1) as Hw.
      destruct (c =? 123)%N.
      { destruct (startswith [125%N] (skip_ws s1)); [exact H|].
        apply IH3 in H. revert H. apply JSONObject_mono. simpl. lia. }
      destruct (c =? 91)%N.
      { destruct (startswith [93%N] (skip_ws s1)); [exact H|].
        apply IH2 in H. revert H. apply JSONArray_mono. simpl. lia. }
      exact H.
    + intros s acc r H. replace (2 * length s + 2) with (S (2 * length s + 1)) by lia.
      rewrite JSONArray_S in H |- *.
      destruct (scan_once f s) as [[v s1]|] eqn:E; [|discriminate].
      pose proof (proj1 (scan_shorter f) _ _ _ E) as Hs.
      rewrite (IH1 _ _ E).
      pose proof (skip_ws_length s1) as Hw.
      destruct (skip_ws s1) as [|c s2]; [discriminate|]. simpl in Hw.
      destruct (c =? 93)%N; [exact H|].
      destruct (c =? 44)%N; [|discriminate].
      apply IH2 in H. revert H. apply JSONArray_mono.
      pose proof (skip_ws_length s2). lia.
    + intros s acc r H. replace (2 * length s + 2) with (S (2 * length s + 1)) by lia.
      rewrite JSONObject_S in H |- *.
      destruct (startswith [34%N] s) eqn:Eq; [|discriminate].
      destruct (scanstring (skipn 1 s)) as [[key s2]|] eqn:Es; [|discriminate].
      apply (scanstring_shorter (length (skipn 1 s))) in Es; [|lia].
      rewrite length_skipn in Es.
      destruct (startswith [58%N] (skip_ws s2)); [|discriminate].
      pose proof (skip_ws_length (skipn 1 (skip_ws s2))) as H1.
      rewrite length_skipn in H1. pose proof (skip_ws_length s2) as H2.
      destruct (scan_once f (skip_ws (skipn 1 (skip_ws s2)))) as [[v s4]|] eqn:E; [|discriminate].
      pose proof (proj1 (scan_shorter f) _ _ _ E) as Hs.
      apply IH1 in E.
      assert (Hle : 2 * length (skip_ws (skipn 1 (skip_ws s2))) + 1 <= 2 * length s + 1) by lia.
      rewrite (scan_once_mono _ _ _ _ Hle E).
      pose proof (skip_ws_length s4) as H4.
      destruct (skip_ws s4) as [|c s5]; [discriminate|]. simpl in H4.
      destruct (c =? 125)%N; [exact H|].
      destruct (c =? 44)%N; [|discriminate].
      apply IH3 in H. revert H. apply JSONObject_mono.
      pose proof (skip_ws_length s5). lia.
Qed.

(** [json_loads] accepts a text exactly when the scanner, with whatever
    fuel, reads one value from it and only whitespace is left. *)
Theorem json_loads_spec (s : pystr) (v : value) :
  json_loads s = Some v <->
  startswith [65279%N] s = false
  /\ exists fuel rest, scan_once fuel (skip_ws s) = Some (v, rest) /\ skip_ws rest = [].
Proof.
  unfold json_loads. split.
  - destruct (startswith [65279%N] s); [discriminate|]. intros H. split; [reflexivity|].
    destruct (scan_once (2 * length s + 2) (skip_ws s)) as [[v' rest]|] eqn:E; [|discriminate].
    exists (2 * length s + 2), rest.
    destruct (skip_ws rest); [|discriminate]. injection H as ->. now split.
  - intros (Hb & fuel & rest & H & Hr). rewrite Hb.
    apply (proj1 (scan_fuel_enough fuel)) in H.
    assert (Hle : 2 * length (skip_ws s) + 1 <= 2 * length s + 2)
      by (pose proof (skip_ws_length s); lia).
    rewrite (scan_once_mono _ _ _ _ Hle H).
    now rewrite Hr.
Qed.

(** ** UUID strings *)

Lemma hex_digits_length (k : nat) (n : N) : length (hex_digits k n) = k.
Proof.
  revert n. induction k as [|k IH]; intros n; simpl; [reflexivity|].
  rewrite length_app, IH. simpl. lia.
Qed.

Lemma hex_value_digits (k : nat) (n : N) :
  hex_value (hex_digits k n) = (n mod 16 ^ N.of_nat k)%N.
Proof.
  revert n. induction k as [|k IH]; intros n.
  - simpl. now rewrite N.mod_1_r.
  - unfold hex_value in *. simpl hex_digits. rewrite fold_left_app. simpl fold_left.
    rewrite IH. rewrite hex_val_digit by (apply N.mod_lt; discriminate).
    rewrite Nat2N.inj_succ, N.pow_succ_r'.
    rewrite N.Div0.mod_mul_r. apply N.add_comm.
Qed.

Lemma unhyphenate_hyphenate (h : pystr) :
  length h = 32 -> unhyphenate (hyphenate h) = h.
Proof.
  intros H.
  do 32 (destruct h as [|? h]; [discriminate|]).
  destruct h; [reflexivity | discriminate].
Qed.

Lemma hyphenate_length (h : pystr) : length h = 32 -> length (hyphenate h) = 36.
Proof.
  intros H.
  do 32 (destruct h as [|? h]; [discriminate|]).
  destruct h; [reflexivity | discriminate].
Qed.

(** The string of a UUID has 36 characters. *)
Lemma uuid_str_length (u : N) : length (uuid_str u) = 36.
Proof. unfold uuid_str. apply hyphenate_length, hex_digits_length. Qed.

Lemma uuid_str_nonempty (u : N) : uuid_str u <> [].
Proof.
  intros H. pose proof (uuid_str_length u) as L. rewrite H in L. discriminate.
Qed.

(** Different UUIDs have different strings. *)
Lemma uuid_str_inj (u u' : N) :
  (u < 2 ^ 128)%N -> (u' < 2 ^ 128)%N -> uuid_str u = uuid_str u' -> u = u'.
Proof.
  intros Hu Hu' H. unfold uuid_str in H.
  apply (f_equal unhyphenate) in H.
  rewrite !unhyphenate_hyphenate in H by apply hex_digits_length.
  apply (f_equal hex_value) in H. rewrite !hex_value_digits in H.
  change (16 ^ N.of_nat 32)%N with (2 ^ 128)%N in H.
  now rewrite !N.mod_small in H.
Qed.

Lemma log2_lt (x n : N) : (x < 2 ^ n)%N -> (0 < n)%N -> (N.log2 x < n)%N.
Proof.
  intros H Hn. destruct (N.eq_dec x 0) as [->|Hx]; [exact Hn|].
  apply N.log2_lt_pow2; [lia | exact H].
Qed.

Lemma lor_lt_pow2 (a b n : N) : (a < 2 ^ n)%N -> (b < 2 ^ n)%N -> (N.lor a b < 2 ^ n)%N.
Proof.
  intros Ha Hb. destruct (N.eq_dec n 0) as [->|Hn].
  - simpl in Ha, Hb. assert (a = 0%N) by lia. assert (b = 0%N) by lia. now subst.
  - destruct (N.eq_dec (N.lor a b) 0) as [E|E].
    + rewrite E. apply N.neq_0_lt_0. apply N.pow_nonzero. discriminate.
    + apply N.log2_lt_pow2; [lia|]. rewrite N.log2_lor.
      apply N.max_lub_lt; apply log2_lt; assumption || lia.
Qed.

Lemma ldiff_lt_pow2 (a b n : N) : (a < 2 ^ n)%N -> (N.ldiff a b < 2 ^ n)%N.
Proof. intros H. pose proof (N.ldiff_le_l a b). lia. Qed.

Lemma uuid4_bound (rnd : N) : (rnd < 2 ^ 128)%N -> (uuid4 rnd < 2 ^ 128)%N.
Proof.
  intros H. unfold uuid4.
  apply lor_lt_pow2; [|reflexivity].
  apply ldiff_lt_pow2. apply lor_lt_pow2; [|reflexivity].
  now apply ldiff_lt_pow2.
Qed.

(** ** Persistence *)

Lemma save_data_eq (w : world) :
  save_data w = (Return tt, {| session := session w; disk := Some (json_dumps (document (session w))) |}).
Proof. reflexivity. Qed.

Lemma storable_document (s : session_state) :
  storable (patient_records s) = true ->
  storable (generated_materials s) = true ->
  storable (chat_history s) = true ->
  storable (document s) = true.
Proof.
  intros H1 H2 H3. unfold document. rewrite storable_dict.
  unfold entries_ok. cbn [forallb fst snd]. rewrite H1, H2, H3. reflexivity.
Qed.

Lemma load_data_dict (w : world) (text : pystr) (d : dict) :
  disk w = Some text -> json_loads text = Some (VDict d) ->
  load_data w =
  (Return tt,
   {| session :=
        {| patient_records :=
             match dict_get (lit "patients") d with Some v => v | None => VList [] end;
           generated_materials :=
             match dict_get (lit "materials") d with Some v => v | None => VList [] end;
           chat_history :=
             match dict_get (lit "chat_history") d with Some v => v | None => VDict [] end;
           patient_assessments := patient_assessments (session w) |};
      disk := Some text |}).
Proof.
  intros Hd Hj. unfold load_data. rewrite Hd, Hj. destruct w as [s dk]. simpl in *.
  subst dk. reflexivity.
Qed.

Lemma save_load_restores (w : world) (s0 : session_state) :
  persistable (session w) ->
  load_data {| session := s0; disk := disk (snd (save_data w)) |}
  = (Return tt,
     {| session := {| patient_records := patient_records (session w);
                      generated_materials := generated_materials (session w);
                      chat_history := chat_history (session w);
                      patient_assessments := patient_assessments s0 |};
        disk := Some (json_dumps (document (session w))) |}).
Proof.
  intros (H1 & H2 & H3). rewrite save_data_eq. cbn [snd disk].
  assert (Hj : json_loads (json_dumps (document (session w))) = Some (document (session w))).
  { apply json_loads_dumps. now apply storable_document. }
  rewrite (load_data_dict
             {| session := s0; disk := Some (json_dumps (document (session w))) |}
             (json_dumps (document (session w))) _ eq_refl Hj).
  reflexivity.
Qed.

(** C3.  Round trip of the store: after [save_data], a [load_data] from the
    written file, in this session or in a fresh one, gives back the very
    list of patients, the very list of materials and the very dict of chat
    histories, each in its order; the assessments are not touched.  The
    collections hold None, booleans, integers, Unicode text, lists and
    dicts ([storable]). *)
Theorem C3_save_load_roundtrip (w : world) (s0 : session_state) :
  storable (patient_records (session w)) = true ->
  storable (generated_materials (session w)) = true ->
  storable (chat_history (session w)) = true ->
  exists w',
    load_data {| session := s0; disk := disk (snd (save_data w)) |} = (Return tt, w')
    /\ patient_records (session w') = patient_records (session w)
    /\ generated_materials (session w') = generated_materials (session w)
    /\ chat_history (session w') = chat_history (session w)
    /\ patient_assessments (session w') = patient_assessments s0
    /\ disk w' = disk (snd (save_data w)).
Proof.
  intros H1 H2 H3. eexists. split.
  - apply save_load_restores. now repeat split.
  - cbn. split; [reflexivity|]. split; [reflexivity|]. split; [reflexivity|].
    split; reflexivity.
Qed.

(** C4.  What [save_data] writes is one JSON document: the text of a dict
    whose keys are exactly [patients], [materials] and [chat_history].  The
    knowledge assessments are not part of it: the text is the same whatever
    the assessment map holds. *)
Theorem C4_persisted_document (w : world) :
  exists text,
    disk (snd (save_data w)) = Some text
    /\ text = json_dumps (VDict [(lit "patients", patient_records (session w));
                                 (lit "materials", generated_materials (session w));
                                 (lit "chat_history", chat_history (session w))])
    /\ (forall a : value,
          disk (snd (save_data
            {| session := {| patient_records := patient_records (session w);
                             generated_materials := generated_materials (session w);
                             chat_history := chat_history (session w);
                             patient_assessments := a |};
               disk := disk w |})) = Some text)
    /\ (storable (patient_records (session w)) = true ->
        storable (generated_materials (session w)) = true ->
        storable (chat_history (session w)) = true ->
        exists d, json_loads text = Some (VDict d)
                  /\ keys d = [lit "patients"; lit "materials"; lit "chat_history"]).
Proof.
  eexists. split; [reflexivity|]. split; [reflexivity|]. split; [reflexivity|].
  intros H1 H2 H3. eexists. split.
  - apply json_loads_dumps. now apply (storable_document (session w)).
  - reflexivity.
Qed.

(** C5.  [load_data] without a file sets the three collections to empty
    and returns; with a file that is not JSON it raises (the decode error of
    the json module, which nothing catches) and leaves the session as it
    was. *)
Theorem C5_load_missing_or_malformed (w : world) :
  (disk w = None -> load_data w = (Return tt, emptied w))
  /\ (forall text, disk w = Some text -> json_loads text = None ->
        load_data w = (Raise JSONDecodeError, w)).
Proof.
  split.
  - intros H. unfold load_data. rewrite H. reflexivity.
  - intros text H Hj. unfold load_data. now rewrite H, Hj.
Qed.

(** C10.  When the file holds a JSON object, [load_data] returns with each
    collection set to the value under its key, and to the empty list or
    dict when the key is missing. *)
Theorem C10_load_missing_keys (w : world) (text : pystr) (d : dict) :
  disk w = Some text -> json_loads text = Some (VDict d) ->
  exists w',
    load_data w = (Return tt, w')
    /\ patient_records (session w') = or_default (dict_get (lit "patients") d) (VList [])
    /\ generated_materials (session w') = or_default (dict_get (lit "materials") d) (VList [])
    /\ chat_history (session w') = or_default (dict_get (lit "chat_history") d) (VDict [])
    /\ (key_in (lit "patients") d = false -> patient_records (session w') = VList [])
    /\ (key_in (lit "materials") d = false -> generated_materials (session w') = VList [])
    /\ (key_in (lit "chat_history") d = false -> chat_history (session w') = VDict []).
Proof.
  intros Hd Hj. eexists. split; [eapply load_data_dict; eassumption|].
  cbn [session patient_records generated_materials chat_history].
  assert (G : forall k, key_in k d = false -> dict_get k d = None).
  { clear. intros k. induction d as [|[k' v] d' IH]; simpl; [reflexivity|].
    intros H. apply orb_false_iff in H. destruct H as [H1 H2]. rewrite H1. now apply IH. }
  repeat split; try reflexivity; intros H; now rewrite (G _ H).
Qed.

(** A file that holds JSON other than an object makes [data.get] raise;
    the session is left as it was. *)
Lemma load_data_not_object (w : world) (text : pystr) (v : value) :
  disk w = Some text -> json_loads text = Some v ->
  (forall d, v <> VDict d) ->
  load_data w = (Raise AttributeError, w).
Proof.
  intros Hd Hj Hv. unfold load_data. rewrite Hd, Hj.
  destruct v; try reflexivity. now elim (Hv entries).
Qed.

(** C6.  The Add Patient form with an empty name or an empty condition
    shows the error message and changes nothing: no record, no chat
    history, no write. *)
Theorem C6_create_patient_invalid (f : intake) (rnd : N) (now : pystr) (w : world) :
  name f = [] \/ condition f = [] ->
  add_patient f rnd now w
  = (Return (st_error (lit "Name and Medical Condition are required fields.")), w).
Proof.
  intros H. unfold add_patient.
  replace (py_truthy (VStr (name f)) && py_truthy (VStr (condition f))) with false; [reflexivity|].
  destruct H as [-> | ->]; simpl; [reflexivity | now rewrite andb_false_r].
Qed.

Lemma truthy_nonempty (s : pystr) : s <> [] -> py_truthy (VStr s) = true.
Proof. destruct s; [congruence | reflexivity]. Qed.

Lemma ids_issued_stored (ps : list value) (issued : list N) (u : N) :
  ids_issued ps issued -> In u issued ->
  exists p, In p ps /\ py_getitem p (VStr (lit "id")) = Return (VStr (uuid_str u)).
Proof.
  intros H. induction H as [|p u0 ps issued [_ Hp] _ IH]; intros Hin; [destruct Hin|].
  destruct Hin as [->|Hin].
  - exists p. split; [now left | exact Hp].
  - destruct (IH Hin) as (q & Hq & E). exists q. split; [now right | exact E].
Qed.

Lemma ids_issued_drawn (ps : list value) (issued : list N) (p : value) :
  ids_issued ps issued -> In p ps ->
  exists u, In u issued /\ (u < 2 ^ 128)%N
            /\ py_getitem p (VStr (lit "id")) = Return (VStr (uuid_str u)).
Proof.
  intros H. induction H as [|q u0 ps issued [Hb Hq] _ IH]; intros Hin; [destruct Hin|].
  destruct Hin as [->|Hin].
  - exists u0. split; [now left | now split].
  - destruct (IH Hin) as (u & Hu & E). exists u. split; [now right | exact E].
Qed.

(** C7, as stated, fails: the id is the text of the UUID that was drawn,
    and nothing compares it with the ids of the stored patients.  In a
    store that holds a patient whose id came from the draw 7, a valid form
    submitted with the draw 7 + 2^78 (another draw, which gives the same
    version-4 UUID) is accepted, and the new profile has the id of the
    stored patient. *)
Lemma C7_counterexample :
  name second_intake <> [] /\ condition second_intake <> []
  /\ (7 + 2 ^ 78 < 2 ^ 128)%N /\ (7 + 2 ^ 78 <> 7)%N
  /\ patient_records (session issued_world)
     = VList [patient_dict (lit "00000000-0000-4000-8000-000000000007") sample_intake
                (lit "2024-01-01 09:00:00")]
  /\ fst (add_patient second_intake (7 + 2 ^ 78) (lit "2024-01-02 09:00:00") issued_world)
     = Return (st_success (lit "Patient Bob Ray added successfully!"))
  /\ patient_records
       (session (snd (add_patient second_intake (7 + 2 ^ 78) (lit "2024-01-02 09:00:00")
                        issued_world)))
     = VList [patient_dict (lit "00000000-0000-4000-8000-000000000007") sample_intake
                (lit "2024-01-01 09:00:00");
              patient_dict (lit "00000000-0000-4000-8000-000000000007") second_intake
                (lit "2024-01-02 09:00:00")].
Proof.
  split; [discriminate|]. split; [discriminate|].
  split; [reflexivity|]. split; [discriminate|].
  split; [vm_compute; reflexivity|].
  split; vm_compute; reflexivity.
Qed.

(** C7.  The Add Patient form with a name and a condition appends the
    profile to the patients, gives it the text of the version-4 UUID it
    draws as id, creates an empty chat history under that id and flushes
    the whole store.  The id is not empty.  It is not compared with the
    ids of the stored patients: when these are the texts of the UUIDs
    issued so far, the new id differs from all of them exactly when the
    UUID drawn is none of the issued ones. *)
Theorem C7_create_patient_valid (f : intake) (rnd : N) (now : pystr) (w : world)
    (ps : list value) (h : dict) :
  name f <> [] -> condition f <> [] ->
  patient_records (session w) = VList ps ->
  chat_history (session w) = VDict h ->
  (rnd < 2 ^ 128)%N ->
  let patient_id := uuid_str (uuid4 rnd) in
  let s' := {| patient_records := VList (ps ++ [patient_dict patient_id f now]);
               generated_materials := generated_materials (session w);
               chat_history := VDict (dict_set patient_id (VList []) h);
               patient_assessments := patient_assessments (session w) |} in
  add_patient f rnd now w
  = (Return (st_success (lit "Patient " ++ name f ++ lit " added successfully!")),
     {| session := s'; disk := Some (json_dumps (document s')) |})
  /\ patient_id <> []
  /\ (forall issued, ids_issued ps issued ->
        ((forall p, In p ps ->
            py_getitem p (VStr (lit "id")) <> Return (VStr patient_id))
         <-> ~ In (uuid4 rnd) issued))
  /\ dict_get (lit "id") (match patient_dict patient_id f now with VDict e => e | _ => [] end)
     = Some (VStr patient_id)
  /\ dict_get patient_id (dict_set patient_id (VList []) h) = Some (VList []).
Proof.
  intros Hn Hc Hps Hh Hr pid s'.
  split; [|split; [|split; [|split]]].
  - unfold add_patient. rewrite !truthy_nonempty by assumption.
    cbv zeta. fold pid. subst s'. clearbody pid.
    destruct w as [[p m c a] dk]. simpl in Hps, Hh. subst p c.
    cbn [andb]. unfold bind, get, lift, ret, set_patient_records, set_chat_history,
      save_data, py_append, py_setitem, document.
    cbn [session patient_records generated_materials chat_history patient_assessments disk].
    reflexivity.
  - apply uuid_str_nonempty.
  - intros issued Hi. unfold pid. split.
    + intros Hall Hin.
      destruct (ids_issued_stored ps issued (uuid4 rnd) Hi Hin) as (p & Hp & E).
      exact (Hall p Hp E).
    + intros Hfresh p Hp E.
      destruct (ids_issued_drawn ps issued p Hi Hp) as (u & Hu & Hb & E').
      assert (E2 : uuid_str u = uuid_str (uuid4 rnd)) by congruence.
      apply uuid_str_inj in E2; [|exact Hb | now apply uuid4_bound].
      apply Hfresh. now rewrite <- E2.
  - clearbody pid. reflexivity.
  - clearbody pid. clear. induction h as [|[k v] h IH]; simpl.
    + now rewrite pystr_eqb_refl.
    + destruct (pystr_eqb pid k) eqn:E; simpl; rewrite E; [reflexivity | exact IH].
Qed.

(** ** Scoring *)

Lemma question_text (q : Question) :
  py_getitem (question_value q) (VStr (lit "text")) = Return (VStr (q_text q)).
Proof. reflexivity. Qed.

Lemma question_correct_answer (q : Question) :
  py_getitem (question_value q) (VStr (lit "correct_answer"))
  = Return (VStr (q_correct_answer q)).
Proof. reflexivity. Qed.

Lemma question_explanation (q : Question) :
  py_getitem (question_value q) (VStr (lit "explanation"))
  = Return (VStr (q_explanation q)).
Proof. reflexivity. Qed.

Lemma py_eq_str (v : value) (s : pystr) :
  py_eq v (VStr s) = match v with VStr a => pystr_eqb a s | _ => false end.
Proof. destruct v as [|[|]| | | | |]; reflexivity. Qed.

Section Scoring.

Variable answers : dict.

Lemma py_eq_answer (i : nat) (q : Question) :
  py_eq (or_default (submitted answers i) VNone) (VStr (q_correct_answer q))
  = is_correct answers i q.
Proof.
  rewrite py_eq_str. unfold is_correct, or_default.
  destruct (submitted answers i) as [[| | | | | |]|]; reflexivity.
Qed.

Lemma evaluate_question_typed (i : nat) (q : Question) (r : results) :
  evaluate_question (VDict answers) i (question_value q) r =
  Return {| total_questions := total_questions r;
            correct_answers := correct_answers r + (if is_correct answers i q then 1 else 0);
            incorrect_answers := incorrect_answers r + (if is_correct answers i q then 0 else 1);
            feedback := feedback r ++ [feedback_entry answers i q] |}.
Proof.
  unfold evaluate_question.
  change (py_get (VDict answers) (lit "question_" ++ str_of_nat i))
    with (Return (or_default (submitted answers i) VNone)).
  cbn [bindr]. rewrite question_correct_answer. cbn [bindr].
  rewrite py_eq_answer. rewrite !question_explanation, !question_text.
  unfold feedback_entry, feedback_text.
  destruct (is_correct answers i q); cbn [bindr py_format];
    rewrite ?question_correct_answer; cbn [bindr py_format];
    rewrite ?Nat.add_0_r; reflexivity.
Qed.

Lemma count_correct_le (i : nat) (qs : list Question) :
  count_correct answers i qs <= length qs.
Proof.
  revert i. induction qs as [|q qs IH]; intros i; simpl; [lia|].
  specialize (IH (S i)). destruct (is_correct answers i q); lia.
Qed.

Lemma evaluate_loop_typed (qs : list Question) :
  forall (i : nat) (r : results),
    evaluate_loop (VDict answers) i (map question_value qs) r =
    Return {| total_questions := total_questions r;
              correct_answers := correct_answers r + count_correct answers i qs;
              incorrect_answers :=
                incorrect_answers r + (length qs - count_correct answers i qs);
              feedback := feedback r ++ feedback_from answers i qs |}.
Proof.
  induction qs as [|q qs IH]; intros i r.
  - simpl. rewrite !Nat.add_0_r, app_nil_r. now destruct r.
  - cbn [map evaluate_loop]. rewrite evaluate_question_typed. cbn [bindr].
    rewrite IH. cbn [total_questions correct_answers incorrect_answers feedback].
    pose proof (count_correct_le (S i) qs) as Hle.
    f_equal. cbn [count_correct feedback_from length].
    rewrite <- app_assoc. cbn [app].
    destruct (is_correct answers i q); f_equal; lia.
Qed.

Lemma feedback_from_length (i : nat) (qs : list Question) :
  length (feedback_from answers i qs) = length qs.
Proof. revert i. induction qs; intros i; simpl; [reflexivity | now rewrite IHqs]. Qed.

Lemma feedback_from_nth (qs : list Question) :
  forall i j q, nth_error qs j = Some q ->
    nth_error (feedback_from answers i qs) j = Some (feedback_entry answers (i + j) q).
Proof.
  induction qs as [|q0 qs IH]; intros i j q H; destruct j as [|j]; simpl in *; try discriminate.
  - injection H as ->. now rewrite Nat.add_0_r.
  - rewrite (IH (S i) j q H). do 2 f_equal. lia.
Qed.

Lemma count_correct_all (qs : list Question) :
  forall i,
    (forall j q, nth_error qs j = Some q -> is_correct answers (i + j) q = true) ->
    count_correct answers i qs = length qs.
Proof.
  induction qs as [|q qs IH]; intros i H; simpl; [reflexivity|].
  pose proof (H 0 q eq_refl) as H0. rewrite Nat.add_0_r in H0. rewrite H0.
  rewrite IH; [reflexivity|]. intros j q' Hj.
  specialize (H (S j) q' Hj). now rewrite Nat.add_succ_r in H.
Qed.

End Scoring.

Lemma count_correct_empty (i : nat) (qs : list Question) :
  count_correct [] i qs = 0.
Proof. revert i. induction qs; intros i; simpl; [reflexivity | apply IHqs]. Qed.

(** C2.  [evaluate_responses] on a quiz [qs] and submitted answers: the
    result has [total_questions = len(qs)], counts as correct exactly the
    questions whose submitted answer is the string [correct_answer] (a
    missing answer is incorrect), has [incorrect = total - correct], and
    one feedback entry per question, in order, with the question text, the
    submitted answer or None, the correct answer and the explanation.  All
    answers right gives [correct = total] and [incorrect = 0]; no answers
    gives [correct = 0]. *)
Theorem C2_score (qs : list Question) (answers : dict) :
  let total := length qs in
  let correct := count_correct answers 0 qs in
  evaluate_responses (assessment_value qs) (VDict answers)
  = Return (results_value {| total_questions := total;
                             correct_answers := correct;
                             incorrect_answers := total - correct;
                             feedback := feedback_from answers 0 qs |})
  /\ correct <= total
  /\ length (feedback_from answers 0 qs) = total
  /\ (forall i q, nth_error qs i = Some q ->
        nth_error (feedback_from answers 0 qs) i = Some (feedback_entry answers i q))
  /\ ((forall i q, nth_error qs i = Some q ->
         submitted answers i = Some (VStr (q_correct_answer q))) ->
      correct = total /\ total - correct = 0)
  /\ (answers = [] -> correct = 0).
Proof.
  intros total correct. subst total correct.
  split; [|split; [|split; [|split; [|split]]]].
  - unfold evaluate_responses, assessment_value.
    change (py_getitem (VDict [(lit "questions", VList (map question_value qs))])
              (VStr (lit "questions")))
      with (Return (VList (map question_value qs))).
    cbn [bindr py_len py_iter]. rewrite evaluate_loop_typed. cbn [bindr].
    cbn [total_questions correct_answers incorrect_answers feedback app].
    now rewrite length_map, !Nat.add_0_l.
  - apply count_correct_le.
  - apply feedback_from_length.
  - intros i q H. now rewrite (feedback_from_nth answers qs 0 i q H).
  - intros H. rewrite count_correct_all; [split; [reflexivity | lia]|].
    intros j q Hj. change (0 + j) with j. unfold is_correct.
    rewrite (H j q Hj). apply pystr_eqb_refl.
  - intros ->. apply count_correct_empty.
Qed.

(** ** Structured responses *)

(** C1, as stated, fails.  A JSON object between code fences is not
    returned parsed: line 81 replaces the empty string, so the fences stay
    and the text does not parse.  And for prose the error object carries
    the cleaned text (trimmed, every [json] deleted), not the original. *)
Lemma C1_counterexample :
  json_loads quiz_json = Some (VDict [(lit "questions", VList [])])
  /\ generate_knowledge_assessment (Some fenced_reply)
     <> VDict [(lit "questions", VList [])]
  /\ json_loads prose_reply = None
  /\ generate_knowledge_assessment (Some prose_reply) <> parse_error prose_reply
  /\ generate_knowledge_assessment (Some prose_reply)
     = parse_error (lit "Here is the  quiz you asked for").
Proof.
  split; [vm_compute; reflexivity|].
  split; [vm_compute; discriminate|].
  split; [vm_compute; reflexivity|].
  split; [vm_compute; discriminate|].
  vm_compute; reflexivity.
Qed.

(** C1, amended.  [generate_knowledge_assessment] parses the cleaned reply:
    when the cleaned text is JSON it returns the parsed value; when it is
    not, it returns the error object, which carries the cleaned text.  For
    a reply without backquotes the cleaned text is the reply trimmed, with
    every occurrence of [json] deleted, and trimmed again. *)
Theorem C1_generate_structured (raw : pystr) :
  (forall v, json_loads (clean_response raw) = Some v ->
     generate_knowledge_assessment (Some raw) = v)
  /\ (json_loads (clean_response raw) = None ->
      generate_knowledge_assessment (Some raw) = parse_error (clean_response raw))
  /\ (~ In 96%N raw ->
      clean_response raw = strip (replace (lit "json") [] (strip raw))).
Proof.
  unfold generate_knowledge_assessment. split; [|split].
  - intros v H. now rewrite H.
  - intros H. now rewrite H.
  - intros _. apply clean_response_eq.
Qed.

Lemma dropwhile_snoc (p : N -> bool) (l : pystr) (c : N) :
  p c = false -> exists t, dropwhile p (l ++ [c]) = t ++ [c].
Proof.
  intros H. induction l as [|a l IH]; simpl.
  - rewrite H. now exists [].
  - destruct (p a); [exact IH|]. now exists (a :: l).
Qed.

Lemma strip_head (c : N) (s : pystr) :
  is_space c = false -> exists t, strip (c :: s) = c :: t.
Proof.
  intros H. unfold strip, lstrip, rstrip. simpl dropwhile at 2. rewrite H.
  simpl rev. destruct (dropwhile_snoc is_space (rev s) c H) as (t & E).
  rewrite E, rev_app_distr. simpl. now exists (rev t).
Qed.

(** A reply that starts with a backquote, as every fenced reply does, ends
    in the error object. *)
Lemma fenced_reply_rejected (raw rest : pystr) :
  strip raw = 96%N :: rest ->
  generate_knowledge_assessment (Some raw) = parse_error (clean_response raw).
Proof.
  intros H. unfold generate_knowledge_assessment.
  rewrite clean_response_eq, H.
  change (replace (lit "json") [] (96%N :: rest))
    with (96%N :: replace_from (lit "json") [] 0 rest).
  destruct (strip_head 96 (replace_from (lit "json") [] 0 rest) eq_refl) as (t & E).
  rewrite E.
  unfold json_loads.
  change (startswith [65279%N] (96%N :: t)) with false.
  change (skip_ws (96%N :: t)) with (96%N :: t).
  replace (2 * length (96%N :: t) + 2) with (S (2 * length (96%N :: t) + 1)) by lia.
  reflexivity.
Qed.

(** ** Failure of the generation service *)

(** C8, as stated, fails on the chat page: when the generation call fails,
    the chat history of the patient gains the question and the apology,
    and the file is written. *)
Lemma C8_counterexample :
  let w' := snd (chat_send (VStr (lit "p1")) (lit "hello") None
                   (lit "2024-01-01 10:00:00") (lit "2024-01-01 10:00:05")
                   sample_world) in
  chat_history (session w') <> chat_history (session sample_world)
  /\ disk w' <> disk sample_world
  /\ chat_history (session w')
     = VDict [(lit "p1",
               VList [chat_message (lit "user") (lit "hello") (lit "2024-01-01 10:00:00");
                      chat_message (lit "assistant") CHAT_ERROR_TEXT
                        (lit "2024-01-01 10:00:05")])].
Proof.
  split; [vm_compute; discriminate|].
  split; [vm_compute; discriminate|].
  vm_compute; reflexivity.
Qed.

Lemma dict_get_set_same (k : pystr) (v : value) (d : dict) :
  dict_get k (dict_set k v d) = Some v.
Proof.
  induction d as [|[k' v'] d IH]; simpl.
  - now rewrite pystr_eqb_refl.
  - destruct (pystr_eqb k k') eqn:E; simpl; rewrite E; [reflexivity | exact IH].
Qed.

Lemma dict_set_set (k : pystr) (v v' : value) (d : dict) :
  dict_set k v' (dict_set k v d) = dict_set k v' d.
Proof.
  induction d as [|[k0 v0] d IH]; simpl.
  - now rewrite pystr_eqb_refl.
  - destruct (pystr_eqb k k0) eqn:E; simpl; rewrite E; [reflexivity | now rewrite IH].
Qed.

Lemma chat_append_typed (patient_id : pystr) (message : value) (w : world)
    (h : dict) (msgs : list value) :
  chat_history (session w) = VDict h ->
  dict_get patient_id h = Some (VList msgs) ->
  chat_append (VStr patient_id) message w
  = (Return tt,
     {| session := with_chat_history (session w)
                     (VDict (dict_set patient_id (VList (msgs ++ [message])) h));
        disk := disk w |}).
Proof.
  intros Hh Hg. unfold chat_append, bind, get, lift, set_chat_history.
  rewrite Hh. cbn [py_getitem]. rewrite Hg. reflexivity.
Qed.

(** C8, amended.  When the generation call fails: generating a material
    returns the error text and leaves the world as it was; generating a
    quiz returns the error object; the Send button of the chat page leaves
    patients, materials and assessments as they were, appends the question
    and then the fixed apology to the history of the patient, and flushes
    the store. *)
Theorem C8_generation_failure (w : world) (patient_info : value) (rnd : N)
    (now : pystr) (patient_id user_question now1 now2 : pystr)
    (h : dict) (msgs : list value) :
  user_question <> [] ->
  chat_history (session w) = VDict h ->
  dict_get patient_id h = Some (VList msgs) ->
  generate_patient_education patient_info None rnd now w
    = (Return GENERATION_ERROR_TEXT, w)
  /\ generate_knowledge_assessment None
     = VDict [(lit "error", VStr (lit "Failed to generate assessment"))]
  /\ chat_send (VStr patient_id) user_question None now1 now2 w
     = (Return tt,
        flushed (with_chat_history (session w)
                   (VDict (dict_set patient_id
                             (VList (msgs ++
                                [chat_message (lit "user") user_question now1;
                                 chat_message (lit "assistant") CHAT_ERROR_TEXT now2]))
                             h)))).
Proof.
  intros Hq Hh Hg. split; [reflexivity|]. split; [reflexivity|].
  unfold chat_send. rewrite truthy_nonempty by assumption.
  unfold bind at 1. rewrite (chat_append_typed patient_id _ w h msgs Hh Hg).
  cbv zeta. unfold bind at 1.
  rewrite (chat_append_typed patient_id _
             {| session := with_chat_history (session w)
                             (VDict (dict_set patient_id
                                 (VList (msgs ++ [chat_message (lit "user") user_question now1])) h));
                disk := disk w |}
             (dict_set patient_id
                (VList (msgs ++ [chat_message (lit "user") user_question now1])) h)
             (msgs ++ [chat_message (lit "user") user_question now1]));
    [|reflexivity|apply dict_get_set_same].
  rewrite dict_set_set, <- app_assoc. reflexivity.
Qed.

(** ** Removal of a material *)

Lemma material_id (m : Material) :
  py_getitem (material_value m) (VStr (lit "id")) = Return (VStr (m_id m)).
Proof. reflexivity. Qed.

Lemma render_material_typed (m : Material) :
  render_material (material_value m) = Return tt.
Proof. reflexivity. Qed.

Lemma py_eq_material (a b : Material) :
  py_eq (material_value a) (material_value b) =
  pystr_eqb (m_id a) (m_id b) &&
  (pystr_eqb (m_patient_id a) (m_patient_id b) &&
   (pystr_eqb (m_patient_name a) (m_patient_name b) &&
    (pystr_eqb (m_condition a) (m_condition b) &&
     (pystr_eqb (m_content a) (m_content b) &&
      (pystr_eqb (m_timestamp a) (m_timestamp b) && true))))).
Proof. reflexivity. Qed.

Lemma py_eq_material_refl (m : Material) :
  py_eq (material_value m) (material_value m) = true.
Proof. rewrite py_eq_material. now rewrite !pystr_eqb_refl. Qed.

Lemma py_eq_material_id (a b : Material) :
  m_id a <> m_id b -> py_eq (material_value a) (material_value b) = false.
Proof.
  intros H. rewrite py_eq_material. apply pystr_eqb_neq in H. now rewrite H.
Qed.

Lemma filter_options_typed (field : pystr) (ms : list Material) :
  field = lit "patient_name" \/ field = lit "condition" ->
  filter_options field (map material_value ms) = Return tt.
Proof.
  intros H. induction ms as [|m ms IH]; [reflexivity|].
  cbn [map filter_options]. destruct H as [-> | ->].
  - change (py_getitem (material_value m) (VStr (lit "patient_name")))
      with (Return (VStr (m_patient_name m))). cbn [bindr]. apply IH.
  - change (py_getitem (material_value m) (VStr (lit "condition")))
      with (Return (VStr (m_condition m))). cbn [bindr]. apply IH.
Qed.

Lemma pystr_eqb_app (p a b : pystr) : pystr_eqb (p ++ a) (p ++ b) = pystr_eqb a b.
Proof.
  destruct (pystr_eqb a b) eqn:E.
  - apply pystr_eqb_eq in E. subst. apply pystr_eqb_refl.
  - apply pystr_eqb_neq. apply pystr_eqb_neq in E. intros H. apply E.
    now apply app_inv_head in H.
Qed.

Lemma delete_loop_step (clicked : pystr) (m : Material) (rest : list value) (w : world) :
  delete_loop (lit "delete_" ++ clicked) (material_value m :: rest) w =
  if pystr_eqb (m_id m) clicked then
    (ms <- get generated_materials ;;
     ms' <- lift (py_remove ms (material_value m)) ;;
     set_generated_materials ms' ;;
     save_data ;;
     ret (st_success (lit "Material deleted")))%py w
  else delete_loop (lit "delete_" ++ clicked) rest w.
Proof.
  cbn [delete_loop]. rewrite render_material_typed, material_id.
  unfold bind at 1, lift at 1. unfold bind at 1, lift at 1.
  unfold bind at 1, lift at 1. cbn [py_format].
  rewrite pystr_eqb_app. now destruct (pystr_eqb (m_id m) clicked).
Qed.

Lemma delete_loop_absent (clicked : pystr) (ds : list Material) (w : world) :
  ~ In clicked (map m_id ds) ->
  delete_loop (lit "delete_" ++ clicked) (map material_value ds) w = (Return st_nothing, w).
Proof.
  induction ds as [|m ds IH]; intros H; [reflexivity|].
  cbn [map]. rewrite delete_loop_step.
  replace (pystr_eqb (m_id m) clicked) with false.
  - apply IH. intros Hin. apply H. now right.
  - symmetry. apply pystr_eqb_neq. intros E. apply H. now left.
Qed.

Lemma delete_loop_first (m : Material) (pre post : list Material) (w : world) :
  ~ In (m_id m) (map m_id pre) ->
  delete_loop (lit "delete_" ++ m_id m) (map material_value (pre ++ m :: post)) w =
  (ms <- get generated_materials ;;
   ms' <- lift (py_remove ms (material_value m)) ;;
   set_generated_materials ms' ;;
   save_data ;;
   ret (st_success (lit "Material deleted")))%py w.
Proof.
  induction pre as [|a pre IH]; intros H.
  - cbn [app map]. rewrite delete_loop_step. now rewrite pystr_eqb_refl.
  - cbn [app map]. rewrite delete_loop_step.
    replace (pystr_eqb (m_id a) (m_id m)) with false.
    + apply IH. intros Hin. apply H. now right.
    + symmetry. apply pystr_eqb_neq. intros E. apply H. now left.
Qed.

Lemma remove_first_material (m : Material) (pre post : list Material) :
  ~ In (m_id m) (map m_id pre) ->
  remove_first (material_value m) (map material_value (pre ++ m :: post))
  = Some (map material_value (pre ++ post)).
Proof.
  induction pre as [|a pre IH]; intros H.
  - cbn [app map remove_first]. now rewrite py_eq_material_refl.
  - cbn [app map remove_first]. rewrite py_eq_material_id.
    + rewrite IH; [reflexivity|]. intros Hin. apply H. now right.
    + intros E. apply H. left. exact E.
Qed.

(** C9.  On the View Materials page of a store whose materials have
    distinct ids (the keys of the Delete buttons are made of the ids, and
    the page cannot draw two widgets with one key), a Delete key whose id
    no material has changes nothing and raises nothing; the Delete key of
    a material removes that material and flushes the store. *)
Theorem C9_remove_material (w : world) (ms : list Material) :
  generated_materials (session w) = VList (map material_value ms) ->
  NoDup (map m_id ms) ->
  (forall id, ~ In id (map m_id ms) ->
     exists u, view_materials (lit "All") (lit "All") (lit "delete_" ++ id) w
               = (Return u, w))
  /\ (forall pre m post, ms = pre ++ m :: post ->
        view_materials (lit "All") (lit "All") (lit "delete_" ++ m_id m) w
        = (Return (st_success (lit "Material deleted")),
           flushed (with_materials (session w)
                      (VList (map material_value (pre ++ post)))))).
Proof.
  intros Hm Hnd.
  assert (Hview : forall clicked, ms <> [] ->
            view_materials (lit "All") (lit "All") clicked w
            = delete_loop clicked (map material_value ms) w).
  { intros clicked Hne. unfold view_materials. unfold bind at 1, get at 1.
    rewrite Hm. destruct ms as [|m0 ms0]; [congruence|].
    cbn [py_truthy map negb]. unfold bind at 1, lift at 1. cbn [py_iter].
    change (material_value m0 :: map material_value ms0)
      with (map material_value (m0 :: ms0)).
    rewrite !filter_options_typed by tauto.
    unfold bind at 1, lift at 1. unfold bind at 1, lift at 1.
    unfold bind at 1, lift at 1.
    change (apply_filter (lit "patient_name") (lit "All") (map material_value (m0 :: ms0)))
      with (Return (map material_value (m0 :: ms0))).
    cbv beta iota.
    unfold bind at 1, lift at 1.
    change (apply_filter (lit "condition") (lit "All") (map material_value (m0 :: ms0)))
      with (Return (map material_value (m0 :: ms0))).
    reflexivity. }
  split.
  - intros id Hid. destruct ms as [|m0 ms0].
    + eexists. unfold view_materials. unfold bind at 1, get at 1. rewrite Hm. reflexivity.
    + rewrite Hview by discriminate. eexists. now apply delete_loop_absent.
  - intros pre m post -> .
    assert (Hpre : ~ In (m_id m) (map m_id pre)).
    { rewrite map_app in Hnd. cbn [map] in Hnd.
      apply NoDup_remove_2 in Hnd. intros Hin. apply Hnd.
      apply in_or_app. now left. }
    rewrite Hview by (destruct pre; discriminate).
    rewrite delete_loop_first by assumption.
    unfold bind at 1, get at 1. rewrite Hm.
    unfold bind at 1, lift at 1. cbn [py_remove].
    rewrite remove_first_material by assumption. reflexivity.
Qed.

(** ** Instances *)

Lemma C3_witness :
  storable (patient_records (session sample_world_2)) = true
  /\ exists w',
    load_data {| session := initial_session; disk := disk (snd (save_data sample_world_2)) |}
      = (Return tt, w')
    /\ patient_records (session w') = patient_records (session sample_world_2)
    /\ generated_materials (session w') = generated_materials (session sample_world_2)
    /\ chat_history (session w') = chat_history (session sample_world_2)
    /\ patient_assessments (session w') = patient_assessments initial_session
    /\ disk w' = disk (snd (save_data sample_world_2)).
Proof.
  split; [vm_compute; reflexivity|].
  apply (C3_save_load_roundtrip sample_world_2 initial_session); vm_compute; reflexivity.
Defined.

Lemma C6_witness :
  name nameless_intake = []
  /\ add_patient nameless_intake 7 (lit "2024-01-01 09:00:00") sample_world
     = (Return (st_error (lit "Name and Medical Condition are required fields.")),
        sample_world).
Proof.
  split; [reflexivity|].
  apply (C6_create_patient_invalid nameless_intake 7 (lit "2024-01-01 09:00:00") sample_world).
  left. reflexivity.
Defined.

Lemma C10_witness :
  json_loads partial_document = Some (VDict [(lit "patients", VList [])])
  /\ exists w',
    load_data {| session := session sample_world_2; disk := Some partial_document |}
      = (Return tt, w')
    /\ patient_records (session w') = VList []
    /\ generated_materials (session w') = VList []
    /\ chat_history (session w') = VDict [].
Proof.
  split; [vm_compute; reflexivity|].
  destruct (C10_load_missing_keys
              {| session := session sample_world_2; disk := Some partial_document |}
              partial_document [(lit "patients", VList [])] eq_refl
              ltac:(vm_compute; reflexivity))
    as (w' & H & Hp & _ & _ & _ & Hm & Hh).
  exists w'. split; [exact H|]. split; [exact Hp|].
  split; [apply Hm | apply Hh]; vm_compute; reflexivity.
Defined.

Lemma C7_witness :
  name second_intake <> [] /\ condition second_intake <> []
  /\ (9 < 2 ^ 128)%N
  /\ ids_issued
       [patient_dict (uuid_str (uuid4 7)) sample_intake (lit "2024-01-01 09:00:00")]
       [uuid4 7]
  /\ uuid_str (uuid4 9) = lit "00000000-0000-4000-8000-000000000009"
  /\ fst (add_patient second_intake 9 (lit "2024-01-02 09:00:00") issued_world)
     = Return (st_success (lit "Patient Bob Ray added successfully!"))
  /\ (forall p,
        In p [patient_dict (uuid_str (uuid4 7)) sample_intake (lit "2024-01-01 09:00:00")] ->
        py_getitem p (VStr (lit "id")) <> Return (VStr (uuid_str (uuid4 9)))).
Proof.
  assert (Hi : ids_issued
                 [patient_dict (uuid_str (uuid4 7)) sample_intake
                    (lit "2024-01-01 09:00:00")]
                 [uuid4 7]).
  { constructor; [|constructor]. split; [vm_compute; reflexivity | reflexivity]. }
  split; [discriminate|]. split; [discriminate|]. split; [reflexivity|].
  split; [exact Hi|]. split; [vm_compute; reflexivity|].
  destruct (C7_create_patient_valid second_intake 9 (lit "2024-01-02 09:00:00")
              issued_world
              [patient_dict (uuid_str (uuid4 7)) sample_intake (lit "2024-01-01 09:00:00")]
              [(uuid_str (uuid4 7), VList [])]
              ltac:(discriminate) ltac:(discriminate) eq_refl eq_refl eq_refl)
    as (Hrun & _ & Hfresh & _ & _).
  split.
  - rewrite Hrun. reflexivity.
  - apply (proj2 (Hfresh [uuid4 7] Hi)).
    intros [E|[]]. vm_compute in E. discriminate E.
Defined.

Lemma C8_witness :
  lit "hello" <> []
  /\ generate_patient_education (VDict [(lit "id", VStr (lit "p1"))]) None 7
       (lit "2024-01-01 10:00:00") sample_world
     = (Return GENERATION_ERROR_TEXT, sample_world)
  /\ chat_send (VStr (lit "p1")) (lit "hello") None (lit "2024-01-01 10:00:00")
       (lit "2024-01-01 10:00:05") sample_world
     = (Return tt,
        flushed (with_chat_history (session sample_world)
                   (VDict (dict_set (lit "p1")
                             (VList ([] ++
                                [chat_message (lit "user") (lit "hello")
                                   (lit "2024-01-01 10:00:00");
                                 chat_message (lit "assistant") CHAT_ERROR_TEXT
                                   (lit "2024-01-01 10:00:05")]))
                             [(lit "p1", VList [])])))).
Proof.
  split; [discriminate|].
  destruct (C8_generation_failure sample_world (VDict [(lit "id", VStr (lit "p1"))]) 7
              (lit "2024-01-01 10:00:00") (lit "p1") (lit "hello")
              (lit "2024-01-01 10:00:00") (lit "2024-01-01 10:00:05")
              [(lit "p1", VList [])] []
              ltac:(discriminate) eq_refl eq_refl)
    as (He & _ & Hc).
  split; [exact He | exact Hc].
Defined.

Lemma C9_witness :
  generated_materials (session sample_world_2)
    = VList (map material_value [sample_material_1; sample_material_2])
  /\ (exists u, view_materials (lit "All") (lit "All") (lit "delete_" ++ lit "nonexistent-id")
                  sample_world_2 = (Return u, sample_world_2))
  /\ view_materials (lit "All") (lit "All") (lit "delete_" ++ lit "m2") sample_world_2
     = (Return (st_success (lit "Material deleted")),
        flushed (with_materials (session sample_world_2)
                   (VList (map material_value ([sample_material_1] ++ []))))).
Proof.
  split; [reflexivity|].
  assert (Hnd : NoDup (map m_id [sample_material_1; sample_material_2])).
  { constructor; [intros [H|[]]; discriminate H|].
    constructor; [intros []|]. constructor. }
  destruct (C9_remove_material sample_world_2 [sample_material_1; sample_material_2]
              eq_refl Hnd)
    as (Habsent & Hpresent).
  split.
  - apply Habsent. vm_compute. intros [H|[H|[]]]; discriminate.
  - apply (Hpresent [sample_material_1] sample_material_2 []). reflexivity.
Defined.

Lemma C1_witness :
  generate_knowledge_assessment (Some ([32; 10]%N ++ quiz_json ++ [10]%N))
    = VDict [(lit "questions", VList [])]
  /\ generate_knowledge_assessment (Some prose_reply)
     = parse_error (lit "Here is the  quiz you asked for").
Proof.
  split.
  - apply (proj1 (C1_generate_structured ([32; 10]%N ++ quiz_json ++ [10]%N))).
    vm_compute. reflexivity.
  - rewrite (proj1 (proj2 (C1_generate_structured prose_reply))).
    + vm_compute. reflexivity.
    + vm_compute. reflexivity.
Defined.

Lemma C2_witness :
  evaluate_responses (assessment_value [sample_question])
    (VDict [(lit "question_0", VStr (lit "B"))])
  = Return (results_value
      {| total_questions := 1; correct_answers := 1; incorrect_answers := 0;
         feedback :=
           [VDict [(lit "question", VStr (lit "What does a reliever inhaler do?"));
                   (lit "user_answer", VStr (lit "B"));
                   (lit "correct_answer", VStr (lit "B"));
                   (lit "feedback",
                    VStr (CHECK_MARK ++ lit " Correct! It opens the airways."))]] |}).
Proof.
  exact (proj1 (C2_score [sample_question] [(lit "question_0", VStr (lit "B"))])).
Defined.

Lemma C5_witness :
  load_data {| session := session sample_world_2; disk := None |}
    = (Return tt, emptied {| session := session sample_world_2; disk := None |})
  /\ load_data {| session := session sample_world_2; disk := Some prose_reply |}
     = (Raise JSONDecodeError,
        {| session := session sample_world_2; disk := Some prose_reply |}).
Proof.
  split.
  - apply (proj1 (C5_load_missing_or_malformed
                    {| session := session sample_world_2; disk := None |})).
    reflexivity.
  - apply (proj2 (C5_load_missing_or_malformed
                    {| session := session sample_world_2; disk := Some prose_reply |})
             prose_reply); [reflexivity | vm_compute; reflexivity].
Defined.

Lemma C4_witness :
  exists d,
    option_map json_loads (disk (snd (save_data sample_world_2))) = Some (Some (VDict d))
    /\ keys d = [lit "patients"; lit "materials"; lit "chat_history"].
Proof.
  destruct (C4_persisted_document sample_world_2) as (text & Hd & _ & _ & Hk).
  destruct Hk as (d & Hj & Hkeys); try (vm_compute; reflexivity).
  exists d. rewrite Hd. simpl. rewrite Hj. split; [reflexivity | exact Hkeys].
Defined.

(** ** The persisted collections stay serialisable *)

Lemma storable_str (s : pystr) : storable (VStr s) = text_ok s.
Proof. reflexivity. Qed.

Lemma entries_ok_get (k : pystr) (d : dict) (v : value) :
  entries_ok d = true -> dict_get k d = Some v -> storable v = true.
Proof.
  unfold entries_ok. induction d as [|[k' v'] d IH]; simpl; [discriminate|].
  intros H. apply andb_true_iff in H. destruct H as [H1 H2].
  apply andb_true_iff in H1. destruct H1 as [_ H1].
  destruct (pystr_eqb k k'); [intros E; now injection E as <- | now apply IH].
Qed.

Lemma entries_ok_set (k : pystr) (v : value) (d : dict) :
  entries_ok d = true -> text_ok k = true -> storable v = true ->
  entries_ok (dict_set k v d) = true.
Proof.
  unfold entries_ok. intros H Hk Hv. induction d as [|[k' v'] d IH]; simpl.
  - now rewrite Hk, Hv.
  - simpl in H. apply andb_true_iff in H. destruct H as [H1 H2].
    apply andb_true_iff in H1. destruct H1 as [H0 H1].
    destruct (pystr_eqb k k'); simpl.
    + now rewrite H0, Hv, H2.
    + now rewrite H0, H1, IH.
Qed.

Lemma pystr_eqb_sym (a b : pystr) : pystr_eqb a b = pystr_eqb b a.
Proof.
  destruct (pystr_eqb a b) eqn:E.
  - apply pystr_eqb_eq in E. subst. now rewrite pystr_eqb_refl.
  - symmetry. apply pystr_eqb_neq. apply pystr_eqb_neq in E. congruence.
Qed.

Lemma key_in_set (k0 k : pystr) (v : value) (d : dict) :
  key_in k0 (dict_set k v d) = key_in k0 d || pystr_eqb k0 k.
Proof.
  induction d as [|[k' v'] d IH]; simpl.
  - now rewrite orb_false_r.
  - destruct (pystr_eqb k k') eqn:E; simpl.
    + apply pystr_eqb_eq in E. subst k'.
      destruct (pystr_eqb k0 k); [reflexivity | now rewrite orb_false_r].
    + rewrite IH. now rewrite orb_assoc.
Qed.

Lemma distinct_keys_set (k : pystr) (v : value) (d : dict) :
  distinct_keys d = true -> distinct_keys (dict_set k v d) = true.
Proof.
  induction d as [|[k' v'] d IH]; simpl; [reflexivity|].
  intros H. apply andb_true_iff in H. destruct H as [H1 H2].
  destruct (pystr_eqb k k') eqn:E; simpl.
  - now rewrite H1, H2.
  - rewrite key_in_set. apply negb_true_iff in H1. rewrite H1.
    rewrite pystr_eqb_sym, E. simpl. now apply IH.
Qed.

Lemma storable_nth (xs : list value) (j : nat) (v : value) :
  forallb storable xs = true -> nth_error xs j = Some v -> storable v = true.
Proof.
  intros H E. apply nth_error_In in E. rewrite forallb_forall in H. now apply H.
Qed.

Lemma text_ok_nth (s : pystr) (j : nat) (c : N) :
  text_ok s = true -> nth_error s j = Some c -> scalar c = true.
Proof.
  unfold text_ok. intros H E. apply nth_error_In in E.
  rewrite forallb_forall in H. now apply H.
Qed.

Lemma storable_getitem (c k v : value) :
  storable c = true -> py_getitem c k = Return v -> storable v = true.
Proof.
  destruct c as [| | | |s|xs|d]; try discriminate; intros Hc; simpl.
  - destruct (index_of k) as [i|]; [|discriminate].
    destruct (norm_index (length s) i) as [j|]; [|discriminate].
    destruct (nth_error s j) as [ch|] eqn:E; [|discriminate].
    intros H. injection H as <-. simpl. rewrite (text_ok_nth s j ch Hc E). reflexivity.
  - destruct (index_of k) as [i|]; [|discriminate].
    destruct (norm_index (length xs) i) as [j|]; [|discriminate].
    destruct (nth_error xs j) as [x|] eqn:E; [|discriminate].
    intros H. injection H as <-. rewrite storable_list in Hc. eapply storable_nth; eassumption.
  - rewrite storable_dict in Hc. apply andb_true_iff in Hc. destruct Hc as [Hc _].
    destruct k; try discriminate.
    destruct (dict_get s d) as [x|] eqn:E; [|discriminate].
    intros H. injection H as <-. eapply entries_ok_get; eassumption.
Qed.

Lemma forallb_list_set (xs : list value) (j : nat) (v : value) :
  forallb storable xs = true -> storable v = true ->
  forallb storable (list_set xs j v) = true.
Proof.
  revert j. induction xs as [|x xs IH]; intros j H Hv; simpl; [reflexivity|].
  simpl in H. apply andb_true_iff in H. destruct H as [H1 H2].
  destruct j; simpl; [now rewrite Hv, H2 | now rewrite H1, IH].
Qed.

Lemma storable_setitem (c k v c' : value) :
  storable c = true -> storable k = true -> storable v = true ->
  py_setitem c k v = Return c' -> storable c' = true.
Proof.
  destruct c as [| | | |s|xs|d]; try discriminate; intros Hc Hk Hv; simpl.
  - destruct (index_of k) as [i|]; [|discriminate].
    destruct (norm_index (length xs) i) as [j|]; [|discriminate].
    intros H. injection H as <-. rewrite storable_list in *. now apply forallb_list_set.
  - destruct k; try discriminate. intros H. injection H as <-.
    rewrite storable_dict in *. apply andb_true_iff in Hc. destruct Hc as [H1 H2].
    now rewrite entries_ok_set, distinct_keys_set.
Qed.

Lemma storable_append (l x l' : value) :
  storable l = true -> storable x = true -> py_append l x = Return l' ->
  storable l' = true.
Proof.
  destruct l; try discriminate. intros Hl Hx H. injection H as <-.
  rewrite storable_list in *. rewrite forallb_app, Hl. simpl. now rewrite Hx.
Qed.

Lemma forallb_remove_first (x : value) (xs r : list value) :
  forallb storable xs = true -> remove_first x xs = Some r ->
  forallb storable r = true.
Proof.
  revert r. induction xs as [|e xs IH]; intros r H; simpl; [discriminate|].
  simpl in H. apply andb_true_iff in H. destruct H as [H1 H2].
  destruct (py_eq e x); [intros E; now injection E as <-|].
  destruct (remove_first x xs) as [r'|]; [|discriminate].
  intros E. injection E as <-. simpl. now rewrite H1, (IH r').
Qed.

Lemma storable_remove (l x l' : value) :
  storable l = true -> py_remove l x = Return l' -> storable l' = true.
Proof.
  destruct l as [| | | | |xs|]; try discriminate. intros Hl. simpl.
  destruct (remove_first x xs) as [r|] eqn:E; [|discriminate].
  intros H. injection H as <-. rewrite storable_list in *.
  eapply forallb_remove_first; eassumption.
Qed.

Lemma hex_digit_scalar (d : N) : (d < 16)%N -> scalar (hex_digit d) = true.
Proof.
  intros H.
  assert (E : In d [0;1;2;3;4;5;6;7;8;9;10;11;12;13;14;15]%N) by (simpl; lia).
  by_cases E.
Qed.

Lemma text_ok_app (a b : pystr) : text_ok (a ++ b) = text_ok a && text_ok b.
Proof. apply forallb_app. Qed.

Lemma text_ok_firstn (k : nat) (s : pystr) : text_ok s = true -> text_ok (firstn k s) = true.
Proof.
  unfold text_ok. rewrite !forallb_forall. intros H x Hx. apply H.
  eapply In_nth_error in Hx. destruct Hx as (j & Hx).
  revert Hx. clear.
  revert k j. induction s as [|c s IH]; intros k j; destruct k, j; simpl; try discriminate.
  - intros E. injection E as <-. now left.
  - intros E. right. eapply IH. eassumption.
Qed.

Lemma text_ok_skipn (k : nat) (s : pystr) : text_ok s = true -> text_ok (skipn k s) = true.
Proof.
  revert k. induction s as [|c s IH]; intros k H; destruct k; simpl; try assumption; try reflexivity.
  apply IH. simpl in H. now apply andb_true_iff in H.
Qed.

Lemma hex_digits_ok (k : nat) (n : N) : text_ok (hex_digits k n) = true.
Proof.
  revert n. induction k as [|k IH]; intros n; simpl; [reflexivity|].
  rewrite text_ok_app, IH. simpl.
  rewrite hex_digit_scalar by (apply N.mod_lt; discriminate). reflexivity.
Qed.

Lemma text_ok_cons (c : N) (s : pystr) : text_ok (c :: s) = scalar c && text_ok s.
Proof. reflexivity. Qed.

Lemma uuid_str_ok (u : N) : text_ok (uuid_str u) = true.
Proof.
  unfold uuid_str, hyphenate. pose proof (hex_digits_ok 32 u) as H.
  rewrite !text_ok_app, !text_ok_cons, !text_ok_app, !text_ok_cons, !text_ok_app,
    !text_ok_cons.
  rewrite ?text_ok_app, ?text_ok_cons.
  rewrite !text_ok_firstn, !text_ok_skipn by (try apply text_ok_skipn; assumption).
  reflexivity.
Qed.

Lemma storable_patient_dict (patient_id : pystr) (f : intake) (now : pystr) :
  text_ok patient_id = true -> intake_ok f = true -> text_ok now = true ->
  storable (patient_dict patient_id f now) = true.
Proof.
  unfold intake_ok. rewrite !andb_true_iff.
  intros Hp ((((((((H1 & H2) & H3) & H4) & H5) & H6) & H7) & H8) & H9) Hn.
  unfold patient_dict. rewrite storable_dict. apply andb_true_iff. split; [|reflexivity].
  unfold entries_ok. cbn [forallb fst snd]. rewrite !storable_str.
  rewrite Hp, H1, H2, H3, H4, H5, H6, H7, H8, H9, Hn. reflexivity.
Qed.

Lemma storable_chat_message (role content timestamp : pystr) :
  text_ok role = true -> text_ok content = true -> text_ok timestamp = true ->
  storable (chat_message role content timestamp) = true.
Proof.
  intros H1 H2 H3. unfold chat_message. rewrite storable_dict.
  apply andb_true_iff. split; [|reflexivity].
  unfold entries_ok. cbn [forallb fst snd]. rewrite !storable_str.
  rewrite H1, H2, H3. reflexivity.
Qed.

Lemma storable_material (material_id : pystr) (patient_id patient_name condition : value)
    (content timestamp : pystr) :
  text_ok material_id = true -> storable patient_id = true ->
  storable patient_name = true -> storable condition = true ->
  text_ok content = true -> text_ok timestamp = true ->
  storable (VDict [(lit "id", VStr material_id); (lit "patient_id", patient_id);
                   (lit "patient_name", patient_name); (lit "condition", condition);
                   (lit "content", VStr content); (lit "timestamp", VStr timestamp)])
  = true.
Proof.
  intros H1 H2 H3 H4 H5 H6. rewrite storable_dict.
  apply andb_true_iff. split; [|reflexivity].
  unfold entries_ok. cbn [forallb fst snd]. rewrite !storable_str.
  rewrite H1, H2, H3, H4, H5, H6. reflexivity.
Qed.

(** Rules for [keeps] *)

Lemma keeps_ret {A : Type} (a : A) (R : A -> Prop) : R a -> keeps (ret a) R.
Proof. intros H w Hw. split; [exact Hw|]. intros a' E. now injection E as <-. Qed.

Lemma keeps_raise {A : Type} (e : exn) (R : A -> Prop) : keeps (raise e) R.
Proof. intros w Hw. split; [exact Hw | discriminate]. Qed.

Lemma keeps_lift {A : Type} (r : result A) (R : A -> Prop) :
  (forall a, r = Return a -> R a) -> keeps (lift r) R.
Proof. intros H w Hw. split; [exact Hw | exact H]. Qed.

Lemma keeps_bind {A B : Type} (m : M A) (k : A -> M B) (R : A -> Prop) (R' : B -> Prop) :
  keeps m R -> (forall a, R a -> keeps (k a) R') -> keeps (bind m k) R'.
Proof.
  intros Hm Hk w Hw. unfold bind. destruct (Hm w Hw) as [Hc Hr].
  destruct (m w) as [[a|e] w1]; simpl in *.
  - apply (Hk a (Hr a eq_refl) w1 Hc).
  - split; [exact Hc | discriminate].
Qed.

Lemma keeps_weaken {A : Type} (m : M A) (R R' : A -> Prop) :
  keeps m R -> (forall a, R a -> R' a) -> keeps m R'.
Proof.
  intros Hm H w Hw. destruct (Hm w Hw) as [Hc Hr]. split; [exact Hc|].
  intros a E. apply H, Hr, E.
Qed.

Lemma keeps_try {A : Type} (body : M A) (handler : exn -> M A) (R : A -> Prop) :
  keeps body R -> (forall e, keeps (handler e) R) -> keeps (try_except body handler) R.
Proof.
  intros Hb Hh w Hw. unfold try_except. destruct (Hb w Hw) as [Hc Hr].
  destruct (body w) as [[a|e] w1]; simpl in *.
  - split; [exact Hc | exact Hr].
  - destruct e; try apply (Hh _ w1 Hc). split; [exact Hc | discriminate].
Qed.

Lemma keeps_get_patient_records :
  keeps (get patient_records) (fun v => storable v = true).
Proof.
  intros w Hw. split; [exact Hw|]. intros a E. injection E as <-. apply Hw.
Qed.

Lemma keeps_get_generated_materials :
  keeps (get generated_materials) (fun v => storable v = true).
Proof.
  intros w Hw. split; [exact Hw|]. intros a E. injection E as <-. apply Hw.
Qed.

Lemma keeps_get_chat_history :
  keeps (get chat_history) (fun v => storable v = true).
Proof.
  intros w Hw. split; [exact Hw|]. intros a E. injection E as <-. apply Hw.
Qed.

Lemma keeps_set_patient_records (v : value) :
  storable v = true -> keeps (set_patient_records v) (fun _ => True).
Proof.
  intros Hv w ((H1 & H2 & H3) & Hd). split; [|trivial].
  split; [|exact Hd]. repeat split; assumption.
Qed.

Lemma keeps_set_generated_materials (v : value) :
  storable v = true -> keeps (set_generated_materials v) (fun _ => True).
Proof.
  intros Hv w ((H1 & H2 & H3) & Hd). split; [|trivial].
  split; [|exact Hd]. repeat split; assumption.
Qed.

Lemma keeps_set_chat_history (v : value) :
  storable v = true -> keeps (set_chat_history v) (fun _ => True).
Proof.
  intros Hv w ((H1 & H2 & H3) & Hd). split; [|trivial].
  split; [|exact Hd]. repeat split; assumption.
Qed.

Lemma keeps_save_data : keeps save_data (fun _ => True).
Proof.
  intros w (Hs & Hd). split; [|trivial]. split; [exact Hs|].
  simpl. exists (session w). split; [exact Hs | reflexivity].
Qed.

Lemma load_data_consistent (s0 : session_state) (d : option pystr) :
  disk_ok d -> consistent (snd (load_data {| session := s0; disk := d |})).
Proof.
  intros Hd. destruct d as [text|].
  - destruct Hd as (s & Hs & ->).
    assert (Hj : json_loads (json_dumps (document s)) = Some (document s)).
    { apply json_loads_dumps. destruct Hs as (H1 & H2 & H3). now apply storable_document. }
    rewrite (load_data_dict {| session := s0; disk := Some (json_dumps (document s)) |}
               (json_dumps (document s)) _ eq_refl Hj).
    split; [exact Hs|]. simpl. now exists s.
  - split; [|exact I]. repeat split; reflexivity.
Qed.

Lemma keeps_load_data : keeps load_data (fun _ => True).
Proof.
  intros w (Hs & Hd). split; [|trivial]. destruct w as [s0 d].
  now apply load_data_consistent.
Qed.

Lemma storable_iter (c : value) (xs : list value) :
  storable c = true -> py_iter c = Return xs -> forallb storable xs = true.
Proof.
  destruct c as [| | | |s|l|d]; try discriminate; intros Hc H; injection H as <-.
  - simpl in Hc. unfold text_ok in Hc. induction s as [|ch s IH]; simpl; [reflexivity|].
    simpl in Hc. apply andb_true_iff in Hc. destruct Hc as [H1 H2].
    now rewrite H1, IH.
  - exact Hc.
  - rewrite storable_dict in Hc. apply andb_true_iff in Hc. destruct Hc as [Hc _].
    unfold entries_ok in Hc. induction d as [|[k v] d IH]; simpl; [reflexivity|].
    simpl in Hc. apply andb_true_iff in Hc. destruct Hc as [H1 H2].
    apply andb_true_iff in H1. destruct H1 as [H1 _]. now rewrite H1, IH.
Qed.

Lemma storable_filter_by (field choice : pystr) (ms r : list value) :
  forallb storable ms = true -> filter_by field choice ms = Return r ->
  forallb storable r = true.
Proof.
  revert r. induction ms as [|m ms IH]; intros r H; simpl.
  - intros E. now injection E as <-.
  - simpl in H. apply andb_true_iff in H. destruct H as [H1 H2].
    destruct (py_getitem m (VStr field)) as [v|]; [|discriminate]. simpl.
    destruct (filter_by field choice ms) as [r'|]; [|discriminate]. simpl.
    intros E. injection E as <-. specialize (IH r' H2 eq_refl).
    destruct (py_eq v (VStr choice)); simpl; [now rewrite H1|assumption].
Qed.

Lemma storable_apply_filter (field choice : pystr) (ms r : list value) :
  forallb storable ms = true -> apply_filter field choice ms = Return r ->
  forallb storable r = true.
Proof.
  unfold apply_filter. destruct (pystr_eqb choice (lit "All")).
  - intros H E. now injection E as <-.
  - apply storable_filter_by.
Qed.

Ltac keeps_step :=
  first
    [ apply keeps_ret; trivial
    | apply keeps_raise
    | apply keeps_save_data
    | eapply keeps_bind; [apply keeps_get_patient_records|cbv beta; intros ? ?]
    | eapply keeps_bind; [apply keeps_get_generated_materials|cbv beta; intros ? ?]
    | eapply keeps_bind; [apply keeps_get_chat_history|cbv beta; intros ? ?]
    | eapply keeps_bind; [apply keeps_save_data|cbv beta; intros ? _]
    | eapply keeps_bind; [apply keeps_set_patient_records|cbv beta; intros ? _]
    | eapply keeps_bind; [apply keeps_set_generated_materials|cbv beta; intros ? _]
    | eapply keeps_bind; [apply keeps_set_chat_history|cbv beta; intros ? _] ].

Lemma keeps_add_patient (f : intake) (rnd : N) (now : pystr) :
  intake_ok f = true -> text_ok now = true ->
  keeps (add_patient f rnd now) (fun _ => True).
Proof.
  intros Hf Hn. unfold add_patient.
  destruct (py_truthy (VStr (name f)) && py_truthy (VStr (condition f)));
    [|now apply keeps_ret].
  cbv zeta. keeps_step.
  eapply keeps_bind with (R := fun v => storable v = true).
  { apply keeps_lift. intros ps' E. eapply storable_append; [eassumption| |exact E].
    apply storable_patient_dict; [apply uuid_str_ok|assumption|assumption]. }
  cbv beta. intros ps' Hps'. keeps_step; [assumption|]. keeps_step.
  eapply keeps_bind with (R := fun v => storable v = true).
  { apply keeps_lift. intros h' E.
    exact (storable_setitem a1 (VStr (uuid_str (uuid4 rnd))) (VList []) h' H0
             (uuid_str_ok (uuid4 rnd)) eq_refl E). }
  cbv beta. intros h' Hh'. keeps_step; [assumption|]. keeps_step. keeps_step.
Qed.

Ltac kbind L := eapply keeps_bind; [apply L | cbv beta].

Ltac klift R' := eapply keeps_bind with (R := R'); [apply keeps_lift | cbv beta].

Lemma keeps_generate_patient_education (patient_info : value) (reply : option pystr)
    (rnd : N) (now : pystr) :
  storable patient_info = true -> reply_ok reply = true -> text_ok now = true ->
  keeps (generate_patient_education patient_info reply rnd now) (fun _ => True).
Proof.
  intros Hp Hr Hn. unfold generate_patient_education.
  apply keeps_try; [|intros e; now apply keeps_ret].
  destruct reply as [text|]; [|apply keeps_raise]. simpl in Hr.
  klift (fun v => storable v = true).
  { intros v E. exact (storable_getitem _ _ _ Hp E). }
  intros pid Hpid. klift (fun v => storable v = true).
  { intros v E. exact (storable_getitem _ _ _ Hp E). }
  intros pname Hpname. klift (fun v => storable v = true).
  { intros v E. exact (storable_getitem _ _ _ Hp E). }
  intros cond Hcond. cbv zeta.
  kbind keeps_get_generated_materials. intros ms Hms.
  klift (fun v => storable v = true).
  { intros v E. eapply (storable_append ms _ v Hms); [|exact E].
    apply storable_material; try assumption. apply uuid_str_ok. }
  intros ms' Hms'. kbind (keeps_set_generated_materials ms' Hms'). intros _ _.
  kbind keeps_save_data. intros _ _. now apply keeps_ret.
Qed.

Lemma keeps_ensure_chat_history (patient_id : value) :
  storable patient_id = true ->
  keeps (ensure_chat_history patient_id) (fun _ => True).
Proof.
  intros Hp. unfold ensure_chat_history.
  kbind keeps_get_chat_history. intros h Hh.
  klift (fun _ : bool => True); [trivial|]. intros present _.
  destruct present; [now apply keeps_ret|].
  klift (fun v => storable v = true).
  { intros v E. exact (storable_setitem h patient_id (VList []) v Hh Hp eq_refl E). }
  intros h' Hh'. now apply keeps_set_chat_history.
Qed.

Lemma keeps_chat_append (patient_id message : value) :
  storable patient_id = true -> storable message = true ->
  keeps (chat_append patient_id message) (fun _ => True).
Proof.
  intros Hp Hm. unfold chat_append.
  kbind keeps_get_chat_history. intros h Hh.
  klift (fun v => storable v = true).
  { intros v E. exact (storable_getitem _ _ _ Hh E). }
  intros l Hl. klift (fun v => storable v = true).
  { intros v E. exact (storable_append _ _ _ Hl Hm E). }
  intros l' Hl'. klift (fun v => storable v = true).
  { intros v E. exact (storable_setitem h patient_id l' v Hh Hp Hl' E). }
  intros h' Hh'. now apply keeps_set_chat_history.
Qed.

Lemma chat_error_text_ok : text_ok CHAT_ERROR_TEXT = true.
Proof. vm_compute. reflexivity. Qed.

Lemma keeps_chat_send (patient_id : value) (user_question : pystr)
    (reply : option pystr) (now1 now2 : pystr) :
  storable patient_id = true -> text_ok user_question = true ->
  reply_ok reply = true -> text_ok now1 = true -> text_ok now2 = true ->
  keeps (chat_send patient_id user_question reply now1 now2) (fun _ => True).
Proof.
  intros Hp Hq Hr H1 H2. unfold chat_send.
  destruct (py_truthy (VStr user_question)); [|now apply keeps_ret].
  eapply keeps_bind.
  { apply keeps_chat_append; [assumption|]. now apply storable_chat_message. }
  cbv beta zeta. intros _ _. eapply keeps_bind.
  { apply keeps_chat_append; [assumption|]. apply storable_chat_message; try assumption;
      try reflexivity.
    destruct reply as [text|]; [exact Hr | apply chat_error_text_ok]. }
  cbv beta. intros _ _. apply keeps_save_data.
Qed.

Lemma keeps_chat_clear (patient_id : value) :
  storable patient_id = true -> keeps (chat_clear patient_id) (fun _ => True).
Proof.
  intros Hp. unfold chat_clear.
  kbind keeps_get_chat_history. intros h Hh.
  klift (fun v => storable v = true).
  { intros v E. exact (storable_setitem h patient_id (VList []) v Hh Hp eq_refl E). }
  intros h' Hh'. kbind (keeps_set_chat_history h' Hh'). intros _ _.
  apply keeps_save_data.
Qed.

Lemma keeps_delete_loop (clicked : pystr) (displayed : list value) :
  forallb storable displayed = true ->
  keeps (delete_loop clicked displayed) (fun _ => True).
Proof.
  induction displayed as [|m ms IH]; intros H; [now apply keeps_ret|].
  simpl in H. apply andb_true_iff in H. destruct H as [Hm Hms].
  cbn [delete_loop].
  klift (fun _ : unit => True); [trivial|]. intros _ _.
  klift (fun _ : value => True); [trivial|]. intros i _.
  klift (fun _ : pystr => True); [trivial|]. intros key _.
  destruct (pystr_eqb (lit "delete_" ++ key) clicked); [|now apply IH].
  kbind keeps_get_generated_materials. intros all Hall.
  klift (fun v => storable v = true).
  { intros v E. exact (storable_remove _ _ _ Hall E). }
  intros all' Hall'. kbind (keeps_set_generated_materials all' Hall'). intros _ _.
  kbind keeps_save_data. intros _ _. now apply keeps_ret.
Qed.

Lemma keeps_view_materials (filter_patient filter_condition clicked : pystr) :
  keeps (view_materials filter_patient filter_condition clicked) (fun _ => True).
Proof.
  unfold view_materials. kbind keeps_get_generated_materials. intros ms Hms.
  destruct (negb (py_truthy ms)); [now apply keeps_ret|].
  klift (fun xs => forallb storable xs = true).
  { intros xs E. exact (storable_iter _ _ Hms E). }
  intros all Hall.
  klift (fun _ : unit => True); [trivial|]. intros _ _.
  klift (fun _ : unit => True); [trivial|]. intros _ _.
  klift (fun xs => forallb storable xs = true).
  { intros xs E. exact (storable_apply_filter _ _ _ _ Hall E). }
  intros by_patient Hbp.
  klift (fun xs => forallb storable xs = true).
  { intros xs E. exact (storable_apply_filter _ _ _ _ Hbp E). }
  intros by_condition Hbc.
  destruct by_condition as [|m rest]; [now apply keeps_ret|].
  now apply keeps_delete_loop.
Qed.

Lemma keeps_script {A : Type} (page : M A) (R : A -> Prop) :
  keeps page R -> keeps (script page) R.
Proof. intros H. unfold script. kbind keeps_load_data. intros _ _. exact H. Qed.

(** Every action keeps the persisted collections serialisable and the
    file, if any, one that [save_data] wrote. *)
Theorem run_consistent (a : action) (w : world) :
  consistent w -> action_ok a = true -> consistent (run a w).
Proof.
  intros Hw Ha. destruct a; cbn [action_ok] in Ha; cbn [run].
  - apply andb_true_iff in Ha. destruct Ha as [Hf Hn].
    now apply (keeps_script _ _ (keeps_add_patient f rnd now Hf Hn)).
  - apply andb_true_iff in Ha. destruct Ha as [Ha Hn].
    apply andb_true_iff in Ha. destruct Ha as [Hp Hr].
    now apply (keeps_script _ _
                 (keeps_generate_patient_education patient_info reply rnd now Hp Hr Hn)).
  - now apply (keeps_script _ _ (keeps_ensure_chat_history patient_id Ha)).
  - apply andb_true_iff in Ha. destruct Ha as [Ha H2].
    apply andb_true_iff in Ha. destruct Ha as [Ha H1].
    apply andb_true_iff in Ha. destruct Ha as [Ha Hr].
    apply andb_true_iff in Ha. destruct Ha as [Hp Hq].
    apply keeps_script with (R := fun _ : unit => True); [|assumption].
    kbind (keeps_ensure_chat_history patient_id Hp). intros _ _.
    now apply keeps_chat_send.
  - apply keeps_script with (R := fun _ : unit => True); [|assumption].
    kbind (keeps_ensure_chat_history patient_id Ha). intros _ _.
    now apply keeps_chat_clear.
  - now apply (keeps_script _ _
                 (keeps_view_materials filter_patient filter_condition clicked)).
  - apply load_data_consistent. apply Hw.
Qed.

(** In every world the application reaches, the three collections are
    serialisable: the round trip of [save_data] and [load_data] applies. *)
Theorem reachable_consistent (w : world) : reachable w -> consistent w.
Proof.
  induction 1 as [|a w Hr IH Ha].
  - apply load_data_consistent. exact I.
  - now apply run_consistent.
Qed.

(** In a world the application reaches, what [save_data] writes is read
    back by [load_data], in any session, as the collections it was written
    from. *)
Theorem reachable_round_trip (w : world) (s0 : session_state) :
  reachable w ->
  load_data {| session := s0; disk := disk (snd (save_data w)) |}
  = (Return tt,
     {| session := {| patient_records := patient_records (session w);
                      generated_materials := generated_materials (session w);
                      chat_history := chat_history (session w);
                      patient_assessments := patient_assessments s0 |};
        disk := Some (json_dumps (document (session w))) |}).
Proof.
  intros H. apply save_load_restores. now apply reachable_consistent.
Qed.

(** ** Steps of a computation *)

Lemma bind_lift {A B : Type} (r : result A) (k : A -> M B) (w : world) :
  bind (lift r) k w = match r with Return a => k a w | Raise e => (Raise e, w) end.
Proof. now destruct r. Qed.

Lemma bind_lift_return {A B : Type} (a : A) (k : A -> M B) (w : world) :
  bind (lift (Return a)) k w = k a w.
Proof. reflexivity. Qed.

Lemma bind_get {A B : Type} (f : session_state -> A) (k : A -> M B) (w : world) :
  bind (get f) k w = k (f (session w)) w.
Proof. reflexivity. Qed.

Lemma bind_ret {A B : Type} (a : A) (k : A -> M B) (w : world) :
  bind (ret a) k w = k a w.
Proof. reflexivity. Qed.

Lemma bind_assoc {A B C : Type} (m : M A) (k : A -> M B) (k' : B -> M C) (w : world) :
  bind (bind m k) k' w = bind m (fun a => bind (k a) k') w.
Proof. unfold bind. destruct (m w) as [[a|e] w']; reflexivity. Qed.

Lemma bind_eq {A B : Type} (m : M A) (k : A -> M B) (w w' : world) (a : A) :
  m w = (Return a, w') -> bind m k w = k a w'.
Proof. intros H. unfold bind. now rewrite H. Qed.

Lemma bind_raise {A B : Type} (m : M A) (k : A -> M B) (w w' : world) (e : exn) :
  m w = (Raise e, w') -> bind m k w = (Raise e, w').
Proof. intros H. unfold bind. now rewrite H. Qed.

Lemma world_eta (w : world) : {| session := session w; disk := disk w |} = w.
Proof. now destruct w. Qed.

Lemma session_eta (s : session_state) :
  {| patient_records := patient_records s;
     generated_materials := generated_materials s;
     chat_history := chat_history s;
     patient_assessments := patient_assessments s |} = s.
Proof. now destruct s. Qed.

Lemma dict_get_set_other (k k' : pystr) (v : value) (d : dict) :
  k' <> k -> dict_get k' (dict_set k v d) = dict_get k' d.
Proof.
  intros H. apply pystr_eqb_neq in H.
  induction d as [|[k0 v0] d IH]; simpl.
  - now rewrite H.
  - destruct (pystr_eqb k k0) eqn:E; simpl.
    + apply pystr_eqb_eq in E. subst k0. now rewrite H.
    + destruct (pystr_eqb k' k0); [reflexivity | exact IH].
Qed.

(** ** The file and the runs of the script *)

Lemma load_data_missing (w : world) :
  disk w = None -> load_data w = (Return tt, emptied w).
Proof. intros H. unfold load_data. now rewrite H. Qed.

Lemma consistent_loads (w : world) :
  consistent w -> exists w', load_data w = (Return tt, w') /\ consistent w'.
Proof.
  intros Hw. pose proof (keeps_load_data w Hw) as [Hc _].
  destruct Hw as [Hs Hd]. destruct (disk w) as [text|] eqn:E.
  - destruct Hd as (s & Hp & ->).
    assert (Hj : json_loads (json_dumps (document s)) = Some (document s)).
    { apply json_loads_dumps. destruct Hp as (H1 & H2 & H3).
      now apply storable_document. }
    rewrite (load_data_dict w _ _ E Hj) in *. eexists. split; [reflexivity|].
    exact Hc.
  - rewrite (load_data_missing w E) in *. eexists. split; [reflexivity | exact Hc].
Qed.

(** X1.  From the first start with no file, whatever the user does on the
    pages that touch the store, the load at the top of the script never
    fails, and what [save_data] writes is read back by [load_data], in any
    session, as the very collections it was written from. *)
Theorem X1_reachable_store_loads_and_round_trips (w : world) (s0 : session_state) :
  reachable w ->
  (exists w', load_data w = (Return tt, w'))
  /\ load_data {| session := s0; disk := disk (snd (save_data w)) |}
     = (Return tt,
        {| session := {| patient_records := patient_records (session w);
                         generated_materials := generated_materials (session w);
                         chat_history := chat_history (session w);
                         patient_assessments := patient_assessments s0 |};
           disk := Some (json_dumps (document (session w))) |}).
Proof.
  intros H. apply reachable_consistent in H. split.
  - destruct (consistent_loads w H) as (w' & E & _). now exists w'.
  - apply save_load_restores. apply H.
Qed.

Lemma X1_witness :
  let w := run (AddPatient sample_intake 7 (lit "2024-01-01 09:00:00"))
             (snd (load_data initial_world)) in
  (exists w', load_data w = (Return tt, w'))
  /\ load_data {| session := initial_session; disk := disk (snd (save_data w)) |}
     = (Return tt,
        {| session := {| patient_records := patient_records (session w);
                         generated_materials := generated_materials (session w);
                         chat_history := chat_history (session w);
                         patient_assessments := patient_assessments initial_session |};
           disk := Some (json_dumps (document (session w))) |}).
Proof.
  intros w.
  apply (X1_reachable_store_loads_and_round_trips w initial_session).
  apply reach_step; [apply reach_start | vm_compute; reflexivity].
Defined.

(** X2.  A file that is not JSON, or that is JSON but not an object, stops
    every run of the script at line 285, before any page is drawn: the
    exception of [load_data] is not caught and the session is left as it
    was. *)
Theorem X2_unreadable_file_stops_every_run {A : Type} (page : M A) (w : world)
    (text : pystr) :
  disk w = Some text ->
  (json_loads text = None -> script page w = (Raise JSONDecodeError, w))
  /\ (forall v, json_loads text = Some v -> (forall d, v <> VDict d) ->
        script page w = (Raise AttributeError, w)).
Proof.
  intros Hd. split.
  - intros Hj. unfold script. apply bind_raise. unfold load_data. now rewrite Hd, Hj.
  - intros v Hj Hv. unfold script. apply bind_raise.
    exact (load_data_not_object w text v Hd Hj Hv).
Qed.

Lemma X2_witness :
  script (add_patient sample_intake 7 (lit "2024-01-01 09:00:00"))
    {| session := initial_session; disk := Some array_document |}
  = (Raise AttributeError, {| session := initial_session; disk := Some array_document |}).
Proof.
  apply (proj2 (X2_unreadable_file_stops_every_run
                  (add_patient sample_intake 7 (lit "2024-01-01 09:00:00"))
                  {| session := initial_session; disk := Some array_document |}
                  array_document eq_refl) (VList [])).
  - vm_compute. reflexivity.
  - intros d. discriminate.
Defined.

(** X3.  The file is what counts at every run: when the file is missing
    or holds a JSON object, a run of the script depends on the session it
    starts in only through the assessments.  Patients, materials and chat
    histories that were changed in the session and not saved are gone. *)
Theorem X3_run_starts_from_the_file {A : Type} (page : M A) (w1 w2 : world) :
  disk w1 = disk w2 ->
  patient_assessments (session w1) = patient_assessments (session w2) ->
  (disk w1 = None
   \/ exists text d, disk w1 = Some text /\ json_loads text = Some (VDict d)) ->
  script page w1 = script page w2.
Proof.
  intros Hd Ha H. unfold script.
  assert (E : exists w', load_data w1 = (Return tt, w') /\ load_data w2 = (Return tt, w')).
  { destruct H as [Hn | (text & d & Ht & Hj)].
    - exists (emptied w1). split; [now apply load_data_missing|].
      rewrite load_data_missing by congruence. unfold emptied. now rewrite Hd, Ha.
    - eexists. split; [exact (load_data_dict w1 text d Ht Hj)|].
      rewrite (load_data_dict w2 text d) by congruence. now rewrite Ha. }
  destruct E as (w' & E1 & E2).
  now rewrite (bind_eq _ _ _ _ _ E1), (bind_eq _ _ _ _ _ E2).
Qed.

Lemma X3_witness :
  script (view_materials (lit "All") (lit "All") (lit "delete_m1")) sample_world_2
  = script (view_materials (lit "All") (lit "All") (lit "delete_m1")) sample_world.
Proof.
  apply (X3_run_starts_from_the_file
           (view_materials (lit "All") (lit "All") (lit "delete_m1"))
           sample_world_2 sample_world eq_refl eq_refl).
  left. reflexivity.
Defined.

(** ** The chat page *)

Lemma ensure_chat_history_dict (patient_id : pystr) (h : dict) (w : world) :
  chat_history (session w) = VDict h ->
  ensure_chat_history (VStr patient_id) w =
  (Return tt,
   {| session := with_chat_history (session w)
                   (VDict (match dict_get patient_id h with
                           | Some _ => h
                           | None => dict_set patient_id (VList []) h
                           end));
      disk := disk w |}).
Proof.
  intros H. unfold ensure_chat_history. rewrite bind_get, H.
  cbn [py_contains]. rewrite bind_lift_return.
  destruct (dict_get patient_id h).
  - unfold ret. destruct w as [[p g c a] d]. cbn in H. subst c. reflexivity.
  - reflexivity.
Qed.

Lemma ensured_history (patient_id : pystr) (h : dict) :
  dict_get patient_id
    (match dict_get patient_id h with
     | Some _ => h
     | None => dict_set patient_id (VList []) h
     end)
  = Some (or_default (dict_get patient_id h) (VList [])).
Proof.
  destruct (dict_get patient_id h) eqn:E; [exact E | apply dict_get_set_same].
Qed.

Lemma ensured_others (patient_id other : pystr) (h : dict) :
  other <> patient_id ->
  dict_get other
    (match dict_get patient_id h with
     | Some _ => h
     | None => dict_set patient_id (VList []) h
     end)
  = dict_get other h.
Proof.
  intros H. destruct (dict_get patient_id h); [reflexivity|].
  now apply dict_get_set_other.
Qed.

(** X4.  Opening the chat of a patient creates an empty history when the
    patient has none and keeps the one there is; the histories of the
    other patients and the file are not touched, and opening the chat
    again changes nothing. *)
Theorem X4_chat_history_created_once (patient_id : pystr) (h : dict) (w : world) :
  chat_history (session w) = VDict h ->
  exists h',
    let w' := {| session := with_chat_history (session w) (VDict h');
                 disk := disk w |} in
    ensure_chat_history (VStr patient_id) w = (Return tt, w')
    /\ dict_get patient_id h' = Some (or_default (dict_get patient_id h) (VList []))
    /\ (forall other, other <> patient_id -> dict_get other h' = dict_get other h)
    /\ ensure_chat_history (VStr patient_id) w' = (Return tt, w').
Proof.
  intros H.
  set (h' := match dict_get patient_id h with
             | Some _ => h
             | None => dict_set patient_id (VList []) h
             end).
  exists h'. cbv zeta.
  split; [exact (ensure_chat_history_dict patient_id h w H)|].
  split; [apply ensured_history|].
  split; [intros other Ho; now apply ensured_others|].
  rewrite (ensure_chat_history_dict patient_id h'
             {| session := with_chat_history (session w) (VDict h'); disk := disk w |}
             eq_refl).
  rewrite (ensured_history patient_id h : dict_get patient_id h' = _). reflexivity.
Qed.

Lemma X4_witness :
  exists h',
    let w' := {| session := with_chat_history (session sample_world) (VDict h');
                 disk := disk sample_world |} in
    ensure_chat_history (VStr (lit "p2")) sample_world = (Return tt, w')
    /\ dict_get (lit "p2") h'
       = Some (or_default (dict_get (lit "p2") [(lit "p1", VList [])]) (VList []))
    /\ (forall other, other <> lit "p2" ->
          dict_get other h' = dict_get other [(lit "p1", VList [])])
    /\ ensure_chat_history (VStr (lit "p2")) w' = (Return tt, w').
Proof.
  apply (X4_chat_history_created_once (lit "p2") [(lit "p1", VList [])] sample_world).
  reflexivity.
Defined.

(** X5.  On the chat page, a question that is sent puts two messages at
    the end of the patient's history, the question and then the reply (or
    the apology), after the messages that were there; the history is
    created when the patient had none; the histories of the other
    patients stay as they are, and the store is saved. *)
Theorem X5_chat_send_appends_in_order (patient_id user_question : pystr)
    (reply : option pystr) (now1 now2 : pystr) (h : dict) (msgs : list value)
    (w : world) :
  user_question <> [] ->
  chat_history (session w) = VDict h ->
  or_default (dict_get patient_id h) (VList []) = VList msgs ->
  exists h',
    (ensure_chat_history (VStr patient_id) ;;
     chat_send (VStr patient_id) user_question reply now1 now2) w
    = (Return tt, flushed (with_chat_history (session w) (VDict h')))
    /\ dict_get patient_id h'
       = Some (VList (msgs ++
                  [chat_message (lit "user") user_question now1;
                   chat_message (lit "assistant") (chat_with_patient reply) now2]))
    /\ (forall other, other <> patient_id -> dict_get other h' = dict_get other h).
Proof.
  intros Hq Hh Hm.
  set (h1 := match dict_get patient_id h with
             | Some _ => h
             | None => dict_set patient_id (VList []) h
             end).
  assert (H1 : dict_get patient_id h1 = Some (VList msgs)).
  { unfold h1. rewrite ensured_history. now rewrite Hm. }
  set (u := chat_message (lit "user") user_question now1).
  set (a := chat_message (lit "assistant") (chat_with_patient reply) now2).
  exists (dict_set patient_id (VList (msgs ++ [u; a])) h1).
  split; [|split].
  - rewrite (bind_eq _ _ _ _ _ (ensure_chat_history_dict patient_id h w Hh)).
    fold h1. unfold chat_send. rewrite (truthy_nonempty _ Hq).
    set (w1 := {| session := with_chat_history (session w) (VDict h1);
                  disk := disk w |}).
    rewrite (bind_eq _ _ _ _ _
               (chat_append_typed patient_id u w1 h1 msgs eq_refl H1)).
    fold a.
    set (h2 := dict_set patient_id (VList (msgs ++ [u])) h1).
    set (w2 := {| session := with_chat_history (session w1) (VDict h2);
                  disk := disk w1 |}).
    rewrite (bind_eq _ _ _ _ _
               (chat_append_typed patient_id a w2 h2 (msgs ++ [u]) eq_refl
                  (dict_get_set_same _ _ _))).
    rewrite save_data_eq. unfold h2. rewrite dict_set_set, <- app_assoc. reflexivity.
  - apply dict_get_set_same.
  - intros other Ho. rewrite dict_get_set_other by assumption.
    unfold h1. now apply ensured_others.
Qed.

Lemma X5_witness :
  exists h',
    (ensure_chat_history (VStr (lit "p2")) ;;
     chat_send (VStr (lit "p2")) (lit "hello") (Some (lit "hi"))
       (lit "2024-01-01 10:00:00") (lit "2024-01-01 10:00:05")) sample_world
    = (Return tt, flushed (with_chat_history (session sample_world) (VDict h')))
    /\ dict_get (lit "p2") h'
       = Some (VList ([] ++
                  [chat_message (lit "user") (lit "hello") (lit "2024-01-01 10:00:00");
                   chat_message (lit "assistant") (chat_with_patient (Some (lit "hi")))
                     (lit "2024-01-01 10:00:05")]))
    /\ (forall other, other <> lit "p2" ->
          dict_get other h' = dict_get other [(lit "p1", VList [])]).
Proof.
  apply (X5_chat_send_appends_in_order (lit "p2") (lit "hello") (Some (lit "hi"))
           (lit "2024-01-01 10:00:00") (lit "2024-01-01 10:00:05")
           [(lit "p1", VList [])] [] sample_world).
  - discriminate.
  - reflexivity.
  - reflexivity.
Defined.

(** X6.  Clearing the chat of a patient leaves this patient with an empty
    history and every other patient with the history they had, and saves
    the store. *)
Theorem X6_chat_clear_empties_one_history (patient_id : pystr) (h : dict) (w : world) :
  chat_history (session w) = VDict h ->
  exists h',
    (ensure_chat_history (VStr patient_id) ;; chat_clear (VStr patient_id)) w
    = (Return tt, flushed (with_chat_history (session w) (VDict h')))
    /\ dict_get patient_id h' = Some (VList [])
    /\ (forall other, other <> patient_id -> dict_get other h' = dict_get other h).
Proof.
  intros Hh.
  set (h1 := match dict_get patient_id h with
             | Some _ => h
             | None => dict_set patient_id (VList []) h
             end).
  exists (dict_set patient_id (VList []) h1).
  split; [|split].
  - rewrite (bind_eq _ _ _ _ _ (ensure_chat_history_dict patient_id h w Hh)).
    fold h1. reflexivity.
  - apply dict_get_set_same.
  - intros other Ho. rewrite dict_get_set_other by assumption.
    unfold h1. now apply ensured_others.
Qed.

Lemma X6_witness :
  exists h',
    (ensure_chat_history (VStr (lit "p1")) ;; chat_clear (VStr (lit "p1"))) sample_world
    = (Return tt, flushed (with_chat_history (session sample_world) (VDict h')))
    /\ dict_get (lit "p1") h' = Some (VList [])
    /\ (forall other, other <> lit "p1" ->
          dict_get other h' = dict_get other [(lit "p1", VList [])]).
Proof.
  apply (X6_chat_clear_empties_one_history (lit "p1") [(lit "p1", VList [])]
           sample_world).
  reflexivity.
Defined.

(** ** Generation of a material *)

Lemma py_getitem_in_model (c k : value) : py_getitem c k <> Raise OutOfModel.
Proof.
  destruct c; cbn [py_getitem]; try discriminate.
  - destruct (index_of k); [|discriminate].
    destruct (norm_index (length s) z); [|discriminate].
    destruct (nth_error s n); discriminate.
  - destruct (index_of k); [|discriminate].
    destruct (norm_index (length items) z); [|discriminate].
    destruct (nth_error items n); discriminate.
  - destruct k; try discriminate. destruct (dict_get s entries); discriminate.
Qed.

(** X7.  [generate_patient_education] never raises and never leaves the
    store half changed: either it returns the text of the reply, having
    appended one material that copies the id, name and condition of the
    patient and saved the store, or it returns the error text and the
    session and the file are as before. *)
Theorem X7_generation_all_or_nothing (patient_info : value) (reply : option pystr)
    (rnd : N) (now : pystr) (w : world) :
  generate_patient_education patient_info reply rnd now w
  = (Return GENERATION_ERROR_TEXT, w)
  \/ exists text patient_id patient_name condition ms,
       reply = Some text
       /\ py_getitem patient_info (VStr (lit "id")) = Return patient_id
       /\ py_getitem patient_info (VStr (lit "name")) = Return patient_name
       /\ py_getitem patient_info (VStr (lit "condition")) = Return condition
       /\ generated_materials (session w) = VList ms
       /\ generate_patient_education patient_info reply rnd now w
          = (Return text,
             flushed (with_materials (session w)
                        (VList (ms ++ [new_material (uuid_str (uuid4 rnd)) patient_id
                                         patient_name condition text now])))).
Proof.
  unfold generate_patient_education, new_material.
  generalize (uuid_str (uuid4 rnd)). intros material_id.
  destruct reply as [text|]; [|left; reflexivity].
  unfold try_except.
  destruct (py_getitem patient_info (VStr (lit "id"))) as [pid|e1] eqn:E1.
  2:{ left. rewrite bind_lift.
      destruct e1; try reflexivity. now elim (py_getitem_in_model _ _ E1). }
  rewrite bind_lift_return.
  destruct (py_getitem patient_info (VStr (lit "name"))) as [pname|e2] eqn:E2.
  2:{ left. rewrite bind_lift.
      destruct e2; try reflexivity. now elim (py_getitem_in_model _ _ E2). }
  rewrite bind_lift_return.
  destruct (py_getitem patient_info (VStr (lit "condition"))) as [cond|e3] eqn:E3.
  2:{ left. rewrite bind_lift.
      destruct e3; try reflexivity. now elim (py_getitem_in_model _ _ E3). }
  rewrite bind_lift_return, bind_get.
  destruct (generated_materials (session w)) as [| | | | |ms|] eqn:Em;
    try (left; reflexivity).
  right. exists text, pid, pname, cond, ms.
  repeat (split; [reflexivity|]).
  cbn [py_append]. rewrite bind_lift_return.
  unfold bind at 1. unfold set_generated_materials at 1.
  unfold bind at 1. rewrite save_data_eq. unfold ret. cbn [session disk].
  unfold flushed, with_materials. reflexivity.
Qed.

(** X8.  The Generate Materials page announces success whenever the
    button was pressed: also when the generation failed, in which case
    the text it shows and offers for download is the error text and the
    store is as before. *)
Theorem X8_generate_page_reports_success (patient : value) (reply : option pystr)
    (rnd : N) (now : pystr) (w w' : world) (page : generated_page) :
  generate_materials patient reply rnd now w = (Return page, w') ->
  shown_message page = st_success (lit "Material generated successfully!")
  /\ (reply = None -> shown_content page = GENERATION_ERROR_TEXT /\ w' = w).
Proof.
  unfold generate_materials. intros H.
  assert (Hn : reply = None ->
               generate_patient_education patient reply rnd now w
               = (Return GENERATION_ERROR_TEXT, w)).
  { intros ->. reflexivity. }
  unfold bind at 1 in H.
  destruct (generate_patient_education patient reply rnd now w) as [[text|e] w1] eqn:E;
    [|discriminate].
  rewrite bind_lift in H.
  destruct (py_getitem patient (VStr (lit "name"))) as [n|]; [|discriminate].
  rewrite bind_lift in H. destruct (py_format n) as [n'|]; [|discriminate].
  rewrite bind_lift in H.
  destruct (py_getitem patient (VStr (lit "condition"))) as [c|]; [|discriminate].
  rewrite bind_lift in H. destruct (py_format c) as [c'|]; [|discriminate].
  unfold ret in H. injection H as <- <-. split; [reflexivity|].
  intros Hr. specialize (Hn Hr). injection Hn as -> ->.
  split; reflexivity.
Qed.

Lemma X8_witness :
  shown_message
    {| shown_message := st_success (lit "Material generated successfully!");
       shown_content := GENERATION_ERROR_TEXT;
       download_name := lit "Ann Lee_Asthma_education.txt" |}
  = st_success (lit "Material generated successfully!")
  /\ (@None pystr = None ->
      shown_content
        {| shown_message := st_success (lit "Material generated successfully!");
           shown_content := GENERATION_ERROR_TEXT;
           download_name := lit "Ann Lee_Asthma_education.txt" |}
      = GENERATION_ERROR_TEXT /\ sample_world_2 = sample_world_2).
Proof.
  apply (X8_generate_page_reports_success
           (patient_dict (lit "p1") sample_intake (lit "2024-01-01 09:00:00"))
           None 7 (lit "2024-01-02 10:00:00") sample_world_2 sample_world_2).
  vm_compute. reflexivity.
Defined.

(** ** The Add Patient form *)

(** X9.  The submit handler of the form is not all-or-nothing.  When the
    chat histories of the session are not a dict (a file can hold anything
    under [chat_history]), the handler raises [TypeError] after the new
    patient was appended to the session list, and the file is not
    written; when the patients are not a list it raises [AttributeError]
    and nothing changes. *)
Theorem X9_add_patient_is_not_atomic (f : intake) (rnd : N) (now : pystr) (w : world) :
  name f <> [] -> condition f <> [] ->
  (forall ps, patient_records (session w) = VList ps ->
     (forall h, chat_history (session w) <> VDict h) ->
     add_patient f rnd now w
     = (Raise TypeError,
        {| session := with_patients (session w)
                        (VList (ps ++ [patient_dict (uuid_str (uuid4 rnd)) f now]));
           disk := disk w |}))
  /\ ((forall ps, patient_records (session w) <> VList ps) ->
      add_patient f rnd now w = (Raise AttributeError, w)).
Proof.
  intros Hn Hc. unfold add_patient.
  rewrite (truthy_nonempty _ Hn), (truthy_nonempty _ Hc). cbn [andb].
  generalize (uuid_str (uuid4 rnd)). intros patient_id.
  generalize (patient_dict patient_id f now). intros patient.
  rewrite bind_get. split.
  - intros ps Hp Hh. rewrite Hp. cbn [py_append]. rewrite bind_lift_return.
    unfold bind at 1. unfold set_patient_records at 1. rewrite bind_get.
    cbn [session chat_history]. rewrite bind_lift. unfold with_patients.
    destruct (chat_history (session w)) as [| | | | | |h]; try reflexivity.
    now elim (Hh h).
  - intros Hp. rewrite bind_lift.
    destruct (patient_records (session w)) as [| | | | |ps|]; try reflexivity.
    now elim (Hp ps).
Qed.

Lemma X9_witness :
  add_patient sample_intake 7 (lit "2024-01-01 09:00:00") array_history_world
  = (Raise TypeError,
     {| session := with_patients (session array_history_world)
                     (VList ([] ++ [patient_dict (uuid_str (uuid4 7)) sample_intake
                                      (lit "2024-01-01 09:00:00")]));
        disk := disk array_history_world |}).
Proof.
  apply (proj1 (X9_add_patient_is_not_atomic sample_intake 7
                  (lit "2024-01-01 09:00:00") array_history_world
                  ltac:(discriminate) ltac:(discriminate)) [] eq_refl).
  intros h. discriminate.
Defined.

(** ** Scoring of arbitrary objects *)

Ltac step_bindr H :=
  match type of H with
  | context [bindr ?x _] =>
      let E := fresh "E" in
      destruct x eqn:E; cbn [bindr] in H; [|discriminate H]
  end.

Lemma evaluate_question_counts (user_responses : value) (i : nat)
    (question : value) (r r' : results) :
  evaluate_question user_responses i question r = Return r' ->
  total_questions r' = total_questions r
  /\ correct_answers r' + incorrect_answers r'
     = S (correct_answers r + incorrect_answers r)
  /\ length (feedback r') = S (length (feedback r)).
Proof.
  unfold evaluate_question. intros H.
  step_bindr H. step_bindr H.
  destruct (py_eq a a0); repeat step_bindr H; injection H as <-;
    cbn [total_questions correct_answers incorrect_answers feedback];
    rewrite length_app; cbn [length]; repeat split; lia.
Qed.

Lemma evaluate_loop_counts (user_responses : value) (questions : list value) :
  forall (i : nat) (r r' : results),
    evaluate_loop user_responses i questions r = Return r' ->
    total_questions r' = total_questions r
    /\ correct_answers r' + incorrect_answers r'
       = correct_answers r + incorrect_answers r + length questions
    /\ length (feedback r') = length (feedback r) + length questions.
Proof.
  induction questions as [|q qs IH]; intros i r r' H.
  - injection H as <-. cbn [length]. repeat split; lia.
  - cbn [evaluate_loop] in H.
    destruct (evaluate_question user_responses i q r) as [r1|] eqn:E;
      cbn [bindr] in H; [|discriminate].
    apply evaluate_question_counts in E. apply IH in H. cbn [length]. lia.
Qed.

Lemma py_len_iter (c : value) (n : nat) (items : list value) :
  py_len c = Return n -> py_iter c = Return items -> length items = n.
Proof.
  destruct c; cbn; try discriminate; intros H1 H2;
    injection H1 as <-; injection H2 as <-; now rewrite ?length_map.
Qed.

(** X10.  Whatever objects [evaluate_responses] is given, when it returns,
    it returns a result in which the correct and the incorrect answers add
    up to the total, and the feedback has one entry per question. *)
Theorem X10_score_counts_add_up (assessment user_responses v : value) :
  evaluate_responses assessment user_responses = Return v ->
  exists r, v = results_value r
    /\ correct_answers r + incorrect_answers r = total_questions r
    /\ length (feedback r) = total_questions r.
Proof.
  unfold evaluate_responses. intros H.
  destruct (py_getitem assessment (VStr (lit "questions"))) as [qs|] eqn:Eq;
    cbn [bindr] in H; [|discriminate].
  destruct (py_len qs) as [n|] eqn:En; cbn [bindr] in H; [|discriminate].
  destruct (py_iter qs) as [questions|] eqn:Ei; cbn [bindr] in H; [|discriminate].
  destruct (evaluate_loop user_responses 0 questions _) as [r|] eqn:El;
    cbn [bindr] in H; [|discriminate].
  injection H as <-. exists r. split; [reflexivity|].
  apply evaluate_loop_counts in El.
  cbn [total_questions correct_answers incorrect_answers feedback length] in El.
  rewrite (py_len_iter qs n questions En Ei) in El. lia.
Qed.

Lemma X10_witness :
  exists r,
    results_value
      {| total_questions := 1; correct_answers := 0; incorrect_answers := 1;
         feedback := [feedback_entry [] 0 sample_question] |} = results_value r
    /\ correct_answers r + incorrect_answers r = total_questions r
    /\ length (feedback r) = total_questions r.
Proof.
  apply (X10_score_counts_add_up (assessment_value [sample_question]) (VDict [])).
  vm_compute. reflexivity.
Defined.

(** X11.  The errors of [evaluate_responses]: an assessment without the
    key [questions] raises [KeyError]; answers that are not a dict raise
    [AttributeError] as soon as there is a question; a quiz with no
    question is scored 0 of 0 whatever the answers are. *)
Theorem X11_score_errors (entries : dict) (user_responses : value) :
  (dict_get (lit "questions") entries = None ->
     evaluate_responses (VDict entries) user_responses = Raise KeyError)
  /\ (forall q qs, dict_get (lit "questions") entries = Some (VList (q :: qs)) ->
        (forall d, user_responses <> VDict d) ->
        evaluate_responses (VDict entries) user_responses = Raise AttributeError)
  /\ (dict_get (lit "questions") entries = Some (VList []) ->
        evaluate_responses (VDict entries) user_responses
        = Return (results_value (no_results 0))).
Proof.
  unfold evaluate_responses. cbn [py_getitem]. split; [|split].
  - intros ->. reflexivity.
  - intros q qs -> Hd. cbn [bindr py_len py_iter evaluate_loop].
    unfold evaluate_question.
    destruct user_responses; try reflexivity. now elim (Hd entries0).
  - intros ->. reflexivity.
Qed.

Lemma X11_witness :
  evaluate_responses (VDict [(lit "questions", VList [question_value sample_question])])
    VNone
  = Raise AttributeError.
Proof.
  apply (proj1 (proj2 (X11_score_errors
                         [(lit "questions", VList [question_value sample_question])]
                         VNone))
           (question_value sample_question) [] eq_refl).
  intros d. discriminate.
Defined.

Lemma evaluate_loop_ext (d1 d2 : dict) (questions : list value) :
  (forall i, dict_get (question_key i) d1 = dict_get (question_key i) d2) ->
  forall (i : nat) (r : results),
    evaluate_loop (VDict d1) i questions r = evaluate_loop (VDict d2) i questions r.
Proof.
  intros H. induction questions as [|q qs IH]; intros i r; [reflexivity|].
  cbn [evaluate_loop].
  assert (E : evaluate_question (VDict d1) i q r = evaluate_question (VDict d2) i q r).
  { unfold evaluate_question. cbn [py_get].
    change (lit "question_" ++ str_of_nat i) with (question_key i). now rewrite H. }
  rewrite E. destruct (evaluate_question (VDict d2) i q r); [|reflexivity].
  cbn [bindr]. apply IH.
Qed.

(** X12.  [evaluate_responses] reads the answers only under the keys
    [question_0], [question_1], ...: two answer dicts that agree on these
    keys get the same result, whatever else they hold. *)
Theorem X12_score_reads_only_question_keys (assessment : value) (d1 d2 : dict) :
  (forall i, dict_get (question_key i) d1 = dict_get (question_key i) d2) ->
  evaluate_responses assessment (VDict d1) = evaluate_responses assessment (VDict d2).
Proof.
  intros H. unfold evaluate_responses.
  destruct (py_getitem assessment (VStr (lit "questions"))) as [qs|]; [|reflexivity].
  cbn [bindr]. destruct (py_len qs) as [n|]; [|reflexivity]. cbn [bindr].
  destruct (py_iter qs) as [questions|]; [|reflexivity]. cbn [bindr].
  now rewrite (evaluate_loop_ext d1 d2 questions H).
Qed.

Lemma X12_witness :
  evaluate_responses (assessment_value [sample_question])
    (VDict [(lit "note", VStr (lit "x"))])
  = evaluate_responses (assessment_value [sample_question]) (VDict []).
Proof.
  apply (X12_score_reads_only_question_keys (assessment_value [sample_question])
           [(lit "note", VStr (lit "x"))] []).
  intros i. cbn [dict_get].
  replace (pystr_eqb (question_key i) (lit "note")) with false; [reflexivity|].
  symmetry. apply pystr_eqb_neq. discriminate.
Defined.

(** X23.  A question whose [correct_answer] is JSON [null] is scored as
    answered correctly when no answer was submitted for it: the missing
    answer is [None], which equals the expected answer. *)
Theorem X23_unanswered_null_answer_is_correct (q answers : dict) (text : value)
    (e : pystr) :
  dict_get (lit "correct_answer") q = Some VNone ->
  dict_get (lit "explanation") q = Some (VStr e) ->
  dict_get (lit "text") q = Some text ->
  dict_get (question_key 0) answers = None ->
  evaluate_responses (VDict [(lit "questions", VList [VDict q])]) (VDict answers)
  = Return (results_value
              {| total_questions := 1; correct_answers := 1; incorrect_answers := 0;
                 feedback :=
                   [VDict [(lit "question", text); (lit "user_answer", VNone);
                           (lit "correct_answer", VNone);
                           (lit "feedback",
                            VStr (CHECK_MARK ++ lit " Correct! " ++ e))]] |}).
Proof.
  intros Hc He Ht Ha. unfold evaluate_responses.
  cbn [py_getitem dict_get]. rewrite pystr_eqb_refl.
  cbn [bindr py_len py_iter length evaluate_loop]. unfold evaluate_question.
  cbn [py_get]. change (lit "question_" ++ str_of_nat 0) with (question_key 0).
  rewrite Ha. cbn [bindr py_getitem]. rewrite Hc. cbn [bindr py_eq].
  rewrite He. cbn [bindr py_format]. rewrite Ht. cbn [bindr]. reflexivity.
Qed.

Lemma X23_witness :
  evaluate_responses
    (VDict [(lit "questions",
             VList [VDict [(lit "text", VStr (lit "Which one?"));
                           (lit "options", VList []);
                           (lit "correct_answer", VNone);
                           (lit "explanation", VStr (lit "None of them."))]])])
    (VDict [])
  = Return (results_value
              {| total_questions := 1; correct_answers := 1; incorrect_answers := 0;
                 feedback :=
                   [VDict [(lit "question", VStr (lit "Which one?"));
                           (lit "user_answer", VNone);
                           (lit "correct_answer", VNone);
                           (lit "feedback",
                            VStr (CHECK_MARK ++ lit " Correct! " ++ lit "None of them."))]] |}).
Proof.
  apply (X23_unanswered_null_answer_is_correct
           [(lit "text", VStr (lit "Which one?")); (lit "options", VList []);
            (lit "correct_answer", VNone);
            (lit "explanation", VStr (lit "None of them."))]
           [] (VStr (lit "Which one?")) (lit "None of them.")); reflexivity.
Defined.

(** ** The View Materials page under its filters *)

Lemma filter_by_patient_name (choice : pystr) (ms : list Material) :
  filter_by (lit "patient_name") choice (map material_value ms)
  = Return (map material_value
              (filter (fun m => pystr_eqb (m_patient_name m) choice) ms)).
Proof.
  induction ms as [|m ms IH]; [reflexivity|].
  cbn [map filter_by].
  change (py_getitem (material_value m) (VStr (lit "patient_name")))
    with (Return (VStr (m_patient_name m))).
  cbn [bindr]. rewrite IH. cbn [bindr py_eq filter].
  now destruct (pystr_eqb (m_patient_name m) choice).
Qed.

Lemma filter_by_condition (choice : pystr) (ms : list Material) :
  filter_by (lit "condition") choice (map material_value ms)
  = Return (map material_value
              (filter (fun m => pystr_eqb (m_condition m) choice) ms)).
Proof.
  induction ms as [|m ms IH]; [reflexivity|].
  cbn [map filter_by].
  change (py_getitem (material_value m) (VStr (lit "condition")))
    with (Return (VStr (m_condition m))).
  cbn [bindr]. rewrite IH. cbn [bindr py_eq filter].
  now destruct (pystr_eqb (m_condition m) choice).
Qed.

Lemma filter_all {A : Type} (l : list A) : filter (fun _ => true) l = l.
Proof. induction l as [|a l IH]; cbn; congruence. Qed.

Lemma apply_filter_patient_name (choice : pystr) (ms : list Material) :
  apply_filter (lit "patient_name") choice (map material_value ms)
  = Return (map material_value
              (filter (fun m => passes choice (m_patient_name m)) ms)).
Proof.
  unfold apply_filter, passes. destruct (pystr_eqb choice (lit "All")).
  - cbn [orb]. now rewrite filter_all.
  - apply filter_by_patient_name.
Qed.

Lemma apply_filter_condition (choice : pystr) (ms : list Material) :
  apply_filter (lit "condition") choice (map material_value ms)
  = Return (map material_value
              (filter (fun m => passes choice (m_condition m)) ms)).
Proof.
  unfold apply_filter, passes. destruct (pystr_eqb choice (lit "All")).
  - cbn [orb]. now rewrite filter_all.
  - apply filter_by_condition.
Qed.

Lemma material_eqb_py_eq (a b : Material) :
  py_eq (material_value a) (material_value b) = material_eqb a b.
Proof.
  rewrite py_eq_material. unfold material_eqb.
  rewrite andb_true_r, !andb_assoc. reflexivity.
Qed.

Lemma remove_first_typed (m : Material) (ms : list Material) :
  In m ms ->
  remove_first (material_value m) (map material_value ms)
  = Some (map material_value (remove_one m ms)).
Proof.
  induction ms as [|x ms IH]; intros H; [destruct H|].
  cbn [map remove_first remove_one]. rewrite material_eqb_py_eq.
  destruct (material_eqb x m) eqn:E; [reflexivity|].
  destruct H as [->|H].
  - rewrite <- material_eqb_py_eq, py_eq_material_refl in E. discriminate.
  - now rewrite IH.
Qed.

Lemma delete_loop_typed (clicked : pystr) (ds : list Material) (w : world) :
  delete_loop clicked (map material_value ds) w =
  match find (fun m => pystr_eqb (lit "delete_" ++ m_id m) clicked) ds with
  | Some m =>
      (ms <- get generated_materials ;;
       ms' <- lift (py_remove ms (material_value m)) ;;
       set_generated_materials ms' ;;
       save_data ;;
       ret (st_success (lit "Material deleted")))%py w
  | None => (Return st_nothing, w)
  end.
Proof.
  induction ds as [|m ds IH]; [reflexivity|].
  cbn [map delete_loop find]. rewrite render_material_typed, material_id.
  rewrite !bind_lift_return. cbn [py_format]. rewrite bind_lift_return.
  destruct (pystr_eqb (lit "delete_" ++ m_id m) clicked); [reflexivity | exact IH].
Qed.

Lemma displayed_In (fp fc : pystr) (ms : list Material) (m : Material) :
  In m (displayed fp fc ms) -> In m ms.
Proof.
  unfold displayed. intros H. apply filter_In in H. destruct H as [H _].
  apply filter_In in H. apply H.
Qed.

Lemma view_materials_typed (filter_patient filter_condition clicked : pystr)
    (ms : list Material) (w : world) :
  ms <> [] ->
  generated_materials (session w) = VList (map material_value ms) ->
  view_materials filter_patient filter_condition clicked w =
  match displayed filter_patient filter_condition ms with
  | [] => (Return (st_info (lit "No materials match the selected filters.")), w)
  | shown =>
      match find (fun m => pystr_eqb (lit "delete_" ++ m_id m) clicked) shown with
      | Some m =>
          (Return (st_success (lit "Material deleted")),
           flushed (with_materials (session w)
                      (VList (map material_value (remove_one m ms)))))
      | None => (Return st_nothing, w)
      end
  end.
Proof.
  intros Hne Hm. unfold view_materials. rewrite bind_get, Hm.
  destruct ms as [|m0 ms0]; [congruence|].
  cbn [py_truthy map negb]. cbn [py_iter]. rewrite bind_lift_return.
  change (material_value m0 :: map material_value ms0)
    with (map material_value (m0 :: ms0)) in *.
  set (ms := m0 :: ms0) in *.
  rewrite !filter_options_typed by tauto. rewrite !bind_lift_return.
  rewrite apply_filter_patient_name, bind_lift_return.
  rewrite apply_filter_condition, bind_lift_return.
  fold (displayed filter_patient filter_condition ms).
  pose proof (displayed_In filter_patient filter_condition ms) as Hin.
  destruct (displayed filter_patient filter_condition ms) as [|d ds]; [reflexivity|].
  cbn [map]. cbv beta iota.
  change (material_value d :: map material_value ds)
    with (map material_value (d :: ds)).
  rewrite delete_loop_typed.
  destruct (find _ (d :: ds)) as [m|] eqn:Ef; [|reflexivity].
  apply find_some in Ef. destruct Ef as [Ef _]. apply Hin in Ef.
  rewrite bind_get, Hm. cbn [py_remove].
  rewrite (remove_first_typed m ms Ef). reflexivity.
Qed.

(** X13.  The View Materials page on a store of well-formed materials
    with distinct ids (the keys of the buttons are made of the ids, and
    two widgets cannot have one key): it shows the materials that pass
    both filter boxes, and a pressed Delete key removes the shown material
    it belongs to and saves the store.  A key of a material that the
    filters hide, or of no material, changes nothing. *)
Theorem X13_view_materials_under_filters (filter_patient filter_condition clicked : pystr)
    (ms : list Material) (w : world) :
  ms <> [] ->
  NoDup (map m_id ms) ->
  generated_materials (session w) = VList (map material_value ms) ->
  view_materials filter_patient filter_condition clicked w =
  match displayed filter_patient filter_condition ms with
  | [] => (Return (st_info (lit "No materials match the selected filters.")), w)
  | shown =>
      match find (fun m => pystr_eqb (lit "delete_" ++ m_id m) clicked) shown with
      | Some m =>
          (Return (st_success (lit "Material deleted")),
           flushed (with_materials (session w)
                      (VList (map material_value (remove_one m ms)))))
      | None => (Return st_nothing, w)
      end
  end.
Proof.
  intros Hne _. exact (view_materials_typed filter_patient filter_condition clicked ms w Hne).
Qed.

Lemma X13_witness :
  view_materials (lit "Ann Lee") (lit "Asthma") (lit "delete_m2") sample_world_2
  = (Return (st_success (lit "Material deleted")),
     flushed (with_materials (session sample_world_2)
                (VList (map material_value [sample_material_1])))).
Proof.
  apply (X13_view_materials_under_filters (lit "Ann Lee") (lit "Asthma")
           (lit "delete_m2") [sample_material_1; sample_material_2] sample_world_2).
  - discriminate.
  - repeat constructor; cbn; intros H; repeat destruct H as [H|H]; discriminate H || exact H.
  - reflexivity.
Defined.

Lemma generate_patient_education_typed (p : Patient) (text : pystr) (rnd : N)
    (now : pystr) (ms : list Material) (w : world) :
  generated_materials (session w) = VList (map material_value ms) ->
  generate_patient_education (patient_value p) (Some text) rnd now w
  = (Return text,
     flushed (with_materials (session w)
                (VList (map material_value
                          (ms ++ [material_for (uuid_str (uuid4 rnd)) p text now]))))).
Proof.
  intros Hm. unfold generate_patient_education, material_for.
  generalize (uuid_str (uuid4 rnd)). intros material_id.
  unfold try_except.
  change (py_getitem (patient_value p) (VStr (lit "id"))) with (Return (VStr (p_id p))).
  rewrite bind_lift_return.
  change (py_getitem (patient_value p) (VStr (lit "name")))
    with (Return (VStr (name (p_form p)))).
  rewrite bind_lift_return.
  change (py_getitem (patient_value p) (VStr (lit "condition")))
    with (Return (VStr (p_condition p))).
  rewrite bind_lift_return, bind_get, Hm. cbn [py_append].
  rewrite bind_lift_return, map_app. reflexivity.
Qed.

Lemma find_fresh (material_id : pystr) (m : Material) (ms : list Material) :
  ~ In material_id (map m_id ms) -> m_id m = material_id ->
  find (fun x => pystr_eqb (lit "delete_" ++ m_id x) (lit "delete_" ++ material_id))
    (ms ++ [m]) = Some m.
Proof.
  intros H Hm. induction ms as [|x ms IH]; cbn [app find].
  - now rewrite Hm, pystr_eqb_refl.
  - rewrite pystr_eqb_app.
    destruct (pystr_eqb (m_id x) material_id) eqn:E.
    + apply pystr_eqb_eq in E. elim H. now left.
    + apply IH. intros Hin. apply H. now right.
Qed.

Lemma remove_one_fresh (m : Material) (ms : list Material) :
  ~ In (m_id m) (map m_id ms) -> remove_one m (ms ++ [m]) = ms.
Proof.
  intros H. induction ms as [|x ms IH]; cbn [app remove_one].
  - now rewrite <- material_eqb_py_eq, py_eq_material_refl.
  - rewrite <- material_eqb_py_eq, py_eq_material_id.
    + rewrite IH; [reflexivity|]. intros Hin. apply H. now right.
    + intros E. apply H. left. exact E.
Qed.

Lemma displayed_all (ms : list Material) : displayed (lit "All") (lit "All") ms = ms.
Proof.
  unfold displayed, passes. rewrite pystr_eqb_refl. cbn [orb].
  now rewrite !filter_all.
Qed.

(** X22.  Generating a material and then deleting it on the View
    Materials page gives back the materials as they were, saved: the
    delete removes the new material and no other, provided the stored
    materials have distinct ids and the id drawn for the new one is none
    of them. *)
Theorem X22_generate_then_delete (p : Patient) (text : pystr) (rnd : N)
    (now : pystr) (ms : list Material) (w : world) :
  generated_materials (session w) = VList (map material_value ms) ->
  NoDup (map m_id ms) ->
  ~ In (uuid_str (uuid4 rnd)) (map m_id ms) ->
  (generate_patient_education (patient_value p) (Some text) rnd now ;;
   view_materials (lit "All") (lit "All") (lit "delete_" ++ uuid_str (uuid4 rnd))) w
  = (Return (st_success (lit "Material deleted")), flushed (session w)).
Proof.
  intros Hm _ Hfresh.
  rewrite (bind_eq _ _ _ _ _ (generate_patient_education_typed p text rnd now ms w Hm)).
  set (m := material_for (uuid_str (uuid4 rnd)) p text now).
  assert (Hid : m_id m = uuid_str (uuid4 rnd)) by reflexivity.
  clearbody m. revert Hfresh Hid. generalize (uuid_str (uuid4 rnd)).
  intros material_id Hfresh Hid.
  rewrite (view_materials_typed (lit "All") (lit "All") (lit "delete_" ++ material_id)
             (ms ++ [m]));
    [|destruct ms; discriminate | reflexivity].
  rewrite displayed_all.
  pose proof (find_fresh material_id m ms Hfresh Hid) as Hf.
  assert (Hr : remove_one m (ms ++ [m]) = ms)
    by (apply remove_one_fresh; now rewrite Hid).
  destruct (ms ++ [m]) as [|x l] eqn:E; [destruct ms; discriminate|].
  rewrite Hf, Hr. unfold flushed, with_materials.
  cbn [session generated_materials patient_records chat_history patient_assessments].
  rewrite <- Hm. now rewrite session_eta.
Qed.

Lemma X22_witness :
  (generate_patient_education (patient_value sample_patient_1) (Some (lit "Rest."))
     7 (lit "2024-01-03 08:00:00") ;;
   view_materials (lit "All") (lit "All") (lit "delete_" ++ uuid_str (uuid4 7)))
    sample_world_2
  = (Return (st_success (lit "Material deleted")), flushed (session sample_world_2)).
Proof.
  apply (X22_generate_then_delete sample_patient_1 (lit "Rest.") 7
           (lit "2024-01-03 08:00:00") [sample_material_1; sample_material_2]
           sample_world_2).
  - reflexivity.
  - repeat constructor; cbn; intros H; repeat destruct H as [H|H]; discriminate H || exact H.
  - vm_compute. intros [H|[H|[]]]; discriminate H.
Defined.

(** ** Selection of a patient *)

Lemma patient_label_typed (p : Patient) :
  patient_label (patient_value p) = Return (label p).
Proof. reflexivity. Qed.

Lemma patient_names_typed (ps : list Patient) :
  patient_names (map patient_value ps) = Return (map label ps).
Proof.
  induction ps as [|p ps IH]; [reflexivity|].
  cbn [map patient_names]. rewrite patient_label_typed. cbn [bindr].
  rewrite IH. reflexivity.
Qed.

Lemma names_index_first (x : pystr) (names : list pystr) (k : nat) :
  names_index x names = Return k ->
  nth_error names k = Some x
  /\ forall j, j < k -> nth_error names j <> Some x.
Proof.
  revert k. induction names as [|n names IH]; intros k H; [discriminate|].
  cbn [names_index] in H. destruct (pystr_eqb n x) eqn:E.
  - injection H as <-. apply pystr_eqb_eq in E. subst n.
    split; [reflexivity | intros j Hj; lia].
  - destruct (names_index x names) as [i|] eqn:Ei; cbn [bindr] in H; [|discriminate].
    injection H as <-. destruct (IH i eq_refl) as [H1 H2]. split; [exact H1|].
    intros [|j] Hj; cbn [nth_error].
    + apply pystr_eqb_neq in E. congruence.
    + apply H2. lia.
Qed.

Lemma names_index_found (x : pystr) (names : list pystr) (i : nat) :
  nth_error names i = Some x ->
  exists k, names_index x names = Return k /\ k <= i.
Proof.
  revert i. induction names as [|n names IH]; intros i H.
  - destruct i; discriminate.
  - cbn [names_index]. destruct (pystr_eqb n x) eqn:E.
    + exists 0. split; [reflexivity | lia].
    + destruct i as [|i]; cbn [nth_error] in H.
      * injection H as ->. rewrite pystr_eqb_refl in E. discriminate.
      * destruct (IH i H) as (k & Hk & Hle). exists (S k). rewrite Hk.
        split; [reflexivity | lia].
Qed.

Lemma py_getitem_nth (xs : list value) (k : nat) (v : value) :
  nth_error xs k = Some v ->
  py_getitem (VList xs) (VInt (Z.of_nat k)) = Return v.
Proof.
  intros H. assert (Hk : k < length xs) by (apply nth_error_Some; congruence).
  cbn [py_getitem index_of]. unfold norm_index.
  destruct (Z.ltb_spec (Z.of_nat k) 0) as [Hlt|_]; [lia|].
  destruct (Z.leb_spec 0 (Z.of_nat k)) as [_|Hlt]; [|lia].
  destruct (Z.ltb_spec (Z.of_nat k) (Z.of_nat (length xs))) as [_|Hge]; [|lia].
  cbn [andb]. now rewrite Nat2Z.id, H.
Qed.

Lemma patient_index_typed (ps : list Patient) (choice : nat) (p : Patient) :
  nth_error ps choice = Some p ->
  exists j q,
    patient_index (VList (map patient_value ps)) choice = Return j
    /\ j <= choice /\ nth_error ps j = Some q /\ label q = label p
    /\ forall k r, k < j -> nth_error ps k = Some r -> label r <> label p.
Proof.
  intros H. unfold patient_index. cbn [py_iter bindr].
  rewrite patient_names_typed. cbn [bindr].
  rewrite nth_error_map, H. cbn [option_map].
  assert (Hl : nth_error (map label ps) choice = Some (label p))
    by now rewrite nth_error_map, H.
  destruct (names_index_found _ _ _ Hl) as (j & Hj & Hle).
  destruct (names_index_first _ _ _ Hj) as [H1 H2].
  rewrite nth_error_map in H1.
  destruct (nth_error ps j) as [q|] eqn:Eq; [|discriminate].
  injection H1 as H1. exists j, q. repeat split; try assumption.
  intros k r Hk Hr E. apply (H2 k Hk). now rewrite nth_error_map, Hr, <- E.
Qed.

(** X14.  On the pages that work on one patient, the entry picked in the
    select box is looked up by its text: the page works on the first
    patient of the list whose name and condition give this text, which is
    the picked patient when no earlier patient has the same name and
    condition. *)
Theorem X14_select_patient_takes_first_match (ps : list Patient) (choice : nat)
    (p : Patient) :
  nth_error ps choice = Some p ->
  exists j q,
    select_patient (VList (map patient_value ps)) choice
    = Return (Some (patient_value q))
    /\ j <= choice /\ nth_error ps j = Some q /\ label q = label p
    /\ forall k r, k < j -> nth_error ps k = Some r -> label r <> label p.
Proof.
  intros H. destruct (patient_index_typed ps choice p H) as (j & q & Hi & Hrest).
  exists j, q. split; [|exact Hrest].
  unfold select_patient. destruct ps as [|p0 ps0]; [destruct choice; discriminate|].
  cbn [map py_test py_truthy bindr negb].
  change (patient_value p0 :: map patient_value ps0)
    with (map patient_value (p0 :: ps0)).
  rewrite Hi. cbn [bindr].
  rewrite (py_getitem_nth _ j (patient_value q)); [reflexivity|].
  destruct Hrest as (_ & Hq & _). now rewrite nth_error_map, Hq.
Qed.

Lemma X14_witness :
  exists j q,
    select_patient (VList (map patient_value [sample_patient_1; sample_patient_2])) 1
    = Return (Some (patient_value q))
    /\ j <= 1 /\ nth_error [sample_patient_1; sample_patient_2] j = Some q
    /\ label q = label sample_patient_2
    /\ forall k r, k < j -> nth_error [sample_patient_1; sample_patient_2] k = Some r ->
                   label r <> label sample_patient_2.
Proof.
  apply (X14_select_patient_takes_first_match [sample_patient_1; sample_patient_2] 1
           sample_patient_2).
  reflexivity.
Defined.

(** X15.  A patient whose name and condition are those of an earlier
    patient cannot be selected: whatever entry of the select box is
    picked, the index the page computes is never the index of this
    patient. *)
Theorem X15_repeated_label_is_never_selected (ps : list Patient) (i j : nat)
    (p q : Patient) :
  i < j -> nth_error ps i = Some p -> nth_error ps j = Some q ->
  label p = label q ->
  forall choice, patient_index (VList (map patient_value ps)) choice <> Return j.
Proof.
  intros Hij Hp Hq Hl choice H.
  unfold patient_index in H. cbn [py_iter bindr] in H.
  rewrite patient_names_typed in H. cbn [bindr] in H.
  destruct (nth_error (map label ps) choice) as [x|]; [|discriminate].
  apply names_index_first in H. destruct H as [H1 H2].
  rewrite nth_error_map, Hq in H1. injection H1 as <-.
  apply (H2 i Hij). rewrite nth_error_map, Hp. cbn [option_map]. now rewrite Hl.
Qed.

Lemma X15_witness :
  label sample_patient_1 = label sample_patient_2
  /\ patient_index (VList (map patient_value [sample_patient_1; sample_patient_2])) 1
     <> Return 1.
Proof.
  split; [reflexivity|].
  apply (X15_repeated_label_is_never_selected [sample_patient_1; sample_patient_2] 0 1
           sample_patient_1 sample_patient_2); [lia | reflexivity ..].
Defined.

(** ** The figures of the Home and Analytics pages *)

Lemma existsb_py_eq_str (c : pystr) (seen : list pystr) :
  existsb (fun e => py_eq e (VStr c)) (map VStr seen) = true <-> In c seen.
Proof.
  induction seen as [|x seen IH]; cbn [map existsb py_eq].
  - split; [discriminate | intros []].
  - rewrite orb_true_iff, IH, pystr_eqb_eq. cbn [In]. tauto.
Qed.

Lemma conditions_typed (ps : list Patient) :
  forall seen : list pystr,
    NoDup seen ->
    exists seen',
      conditions (map patient_value ps) (map VStr seen) = Return (map VStr seen')
      /\ NoDup seen'
      /\ forall c, In c seen' <-> In c seen \/ In c (map p_condition ps).
Proof.
  induction ps as [|p ps IH]; intros seen Hnd.
  - exists seen. split; [reflexivity|]. split; [exact Hnd|]. intros c. cbn. tauto.
  - cbn [map conditions].
    change (py_getitem (patient_value p) (VStr (lit "condition")))
      with (Return (VStr (p_condition p))).
    cbn [bindr set_add].
    destruct (existsb (fun e => py_eq e (VStr (p_condition p))) (map VStr seen)) eqn:E.
    + apply existsb_py_eq_str in E.
      destruct (IH seen Hnd) as (seen' & H1 & H2 & H3).
      exists seen'. split; [exact H1|]. split; [exact H2|].
      intros c. rewrite H3. cbn [In]. intuition congruence.
    + assert (Hn : ~ In (p_condition p) seen).
      { intros Hin. apply existsb_py_eq_str in Hin. congruence. }
      change [VStr (p_condition p)] with (map VStr [p_condition p]).
      rewrite <- map_app.
      destruct (IH (seen ++ [p_condition p])) as (seen' & H1 & H2 & H3).
      { apply NoDup_app; [exact Hnd | repeat constructor; intros [] |].
        intros x Hx [<-|[]]. contradiction. }
      exists seen'. split; [exact H1|]. split; [exact H2|].
      intros c. rewrite H3, in_app_iff. cbn [In]. tauto.
Qed.

(** X16.  The System Overview of the Home page, on a store of well-formed
    patients: the first figure is the number of patients, the second the
    number of materials, and the third the number of different condition
    texts among the patients (compared as they were typed). *)
Theorem X16_overview_counts (ps : list Patient) (ms : list value) (s : session_state) :
  patient_records s = VList (map patient_value ps) ->
  generated_materials s = VList ms ->
  exists distinct,
    system_overview s
    = Return {| patient_profiles := length ps; educational_materials := length ms;
                unique_conditions := length distinct |}
    /\ NoDup distinct
    /\ forall c, In c distinct <-> In c (map p_condition ps).
Proof.
  intros Hp Hm. unfold system_overview. rewrite Hp, Hm.
  cbn [py_len bindr]. rewrite length_map.
  destruct ps as [|p ps].
  - exists []. split; [reflexivity|]. split; [constructor | intros c; cbn; tauto].
  - cbn [map py_test py_truthy bindr py_iter].
    change (patient_value p :: map patient_value ps)
      with (map patient_value (p :: ps)).
    destruct (conditions_typed (p :: ps) [] (NoDup_nil _)) as (seen' & H1 & H2 & H3).
    cbn [map] in H1 |- *. rewrite H1. cbn [bindr]. rewrite length_map.
    exists seen'. split; [reflexivity|]. split; [exact H2|].
    intros c. rewrite H3. cbn [In map]. tauto.
Qed.

Lemma X16_witness :
  exists distinct,
    system_overview (session sample_world_2)
    = Return {| patient_profiles := length [sample_patient_1];
                educational_materials :=
                  length (map material_value [sample_material_1; sample_material_2]);
                unique_conditions := length distinct |}
    /\ NoDup distinct
    /\ forall c, In c distinct <-> In c (map p_condition [sample_patient_1]).
Proof.
  apply (X16_overview_counts [sample_patient_1]
           (map material_value [sample_material_1; sample_material_2])
           (session sample_world_2)); reflexivity.
Defined.

Lemma truthy_len (messages : value) (n : nat) :
  py_test messages = Return true -> py_len messages = Return n -> 1 <= n.
Proof.
  destruct messages as [| | | |s|xs|d]; cbn; try discriminate; intros H1 H2;
    injection H1 as H1; injection H2 as <-.
  - destruct s; [discriminate | cbn; lia].
  - destruct xs; [discriminate | cbn; lia].
  - destruct d; [discriminate | cbn; lia].
Qed.

Lemma chat_figures_loop_counts (records : value) (items : list (pystr * value)) :
  forall f f' : chat_figures,
    chat_figures_loop records items f = Return f' ->
    exists k,
      k <= length items
      /\ total_chats f' = total_chats f + k
      /\ patients_with_chats f' = patients_with_chats f + k
      /\ length (chat_data f') = length (chat_data f) + k
      /\ total_messages f + k <= total_messages f'.
Proof.
  induction items as [|[patient_id messages] items IH]; intros f f' H.
  - injection H as <-. exists 0. cbn [length]. repeat split; lia.
  - cbn [chat_figures_loop] in H.
    destruct (py_test messages) as [[|]|] eqn:Et; cbn [bindr] in H; [| |discriminate].
    + destruct (py_len messages) as [n|] eqn:En; cbn [bindr] in H; [|discriminate].
      destruct (py_iter records) as [ps|]; cbn [bindr] in H; [|discriminate].
      destruct (find_patient_name ps (VStr patient_id)) as [pn|];
        cbn [bindr] in H; [|discriminate].
      destruct (py_getitem messages (VInt (-1))) as [last|];
        cbn [bindr] in H; [|discriminate].
      destruct (py_getitem last (VStr (lit "timestamp"))) as [stamp|];
        cbn [bindr] in H; [|discriminate].
      apply IH in H. destruct H as (k & Hk & H1 & H2 & H3 & H4).
      cbn [total_chats total_messages patients_with_chats chat_data] in *.
      rewrite length_app in H3. cbn [length] in *.
      pose proof (truthy_len messages n Et En) as Hn.
      exists (S k). repeat split; lia.
    + apply IH in H. destruct H as (k & Hk & H1 & H2 & H3 & H4).
      exists k. cbn [length]. repeat split; lia.
Qed.

(** X17.  The chat figures of the Analytics page, whenever they are
    computed: the chat sessions, the patients using the chat and the rows
    of the table are the same number, which is at most the number of
    histories; and there are at least as many messages as sessions, since
    only a history that is not empty counts. *)
Theorem X17_chat_figures_agree (s : session_state) (f : chat_figures) :
  chat_interactions s = Return (Some f) ->
  total_chats f = patients_with_chats f
  /\ length (chat_data f) = total_chats f
  /\ total_chats f <= total_messages f
  /\ exists items, chat_history s = VDict items /\ total_chats f <= length items.
Proof.
  unfold chat_interactions. intros H.
  destruct (py_any (chat_history s)) as [[|]|]; cbn [bindr] in H; try discriminate.
  destruct (chat_history s) as [| | | | | |items]; try discriminate.
  destruct (chat_figures_loop (patient_records s) items _) as [f0|] eqn:E;
    cbn [bindr] in H; [|discriminate].
  injection H as <-. apply chat_figures_loop_counts in E.
  destruct E as (k & Hk & H1 & H2 & H3 & H4).
  cbn [total_chats total_messages patients_with_chats chat_data length] in *.
  repeat split; try lia. exists items. split; [reflexivity | lia].
Qed.

Lemma X17_witness :
  total_chats chatty_figures = patients_with_chats chatty_figures
  /\ length (chat_data chatty_figures) = total_chats chatty_figures
  /\ total_chats chatty_figures <= total_messages chatty_figures
  /\ exists items, chat_history chatty_session = VDict items
                   /\ total_chats chatty_figures <= length items.
Proof.
  apply (X17_chat_figures_agree chatty_session chatty_figures).
  vm_compute. reflexivity.
Defined.

(** ** The Knowledge Assessment page *)

Lemma uint_chars_inj (u v : Decimal.uint) : uint_chars u = uint_chars v -> u = v.
Proof.
  intros H.
  pose proof (scan_uint_chars u [] I) as Hu.
  pose proof (scan_uint_chars v [] I) as Hv.
  rewrite H in Hu. rewrite Hu in Hv. now injection Hv.
Qed.

Lemma question_key_inj (i j : nat) : question_key i = question_key j -> i = j.
Proof.
  unfold question_key, str_of_nat, str_of_N. intros H.
  apply app_inv_head in H. apply uint_chars_inj in H.
  apply DecimalN.Unsigned.to_uint_inj in H. now apply Nat2N.inj.
Qed.

Lemma dict_set_same (k : pystr) (v : value) (d : dict) :
  dict_get k d = Some v -> dict_set k v d = d.
Proof.
  induction d as [|[k' v'] d IH]; cbn [dict_get dict_set]; [discriminate|].
  destruct (pystr_eqb k k'); [now intros [= ->] | intros H; now rewrite IH].
Qed.

Lemma record_answers_other (selected : nat -> value) (k : pystr) (n : nat) :
  forall (i : nat) (answers : dict),
    (forall j, i <= j < i + n -> question_key j <> k) ->
    dict_get k (record_answers selected i n answers) = dict_get k answers.
Proof.
  induction n as [|n IH]; intros i answers H; [reflexivity|].
  cbn [record_answers]. rewrite IH by (intros j Hj; apply H; lia).
  apply dict_get_set_other. intros E. apply (H i); [lia | now symmetry].
Qed.

Lemma record_answers_get (selected : nat -> value) (n : nat) :
  forall (i : nat) (answers : dict) (j : nat),
    i <= j < i + n ->
    dict_get (question_key j) (record_answers selected i n answers)
    = Some (selected j).
Proof.
  induction n as [|n IH]; intros i answers j H; [lia|].
  cbn [record_answers]. destruct (Nat.eq_dec j i) as [->|Hne].
  - rewrite record_answers_other.
    + apply dict_get_set_same.
    + intros j Hj E. apply question_key_inj in E. lia.
  - apply IH. lia.
Qed.

Section KnowledgePage.

Variable patient_id : pystr.
Variable selected : nat -> value.
Variables a entry : dict.

Lemma set_user_response_stored (key : pystr) (answer : value) (answers : dict)
    (w : world) :
  patient_assessments (session w) = VDict (stored a patient_id entry answers) ->
  set_user_response (VStr patient_id) key answer w
  = (Return tt,
     {| session := with_assessments (session w)
                     (VDict (stored a patient_id entry (dict_set key answer answers)));
        disk := disk w |}).
Proof.
  intros H. unfold set_user_response. rewrite bind_get, H.
  unfold stored at 1. cbn [py_getitem]. rewrite dict_get_set_same.
  rewrite bind_lift_return. cbn [py_getitem]. rewrite dict_get_set_same.
  rewrite bind_lift_return. cbn [py_setitem]. rewrite !bind_lift_return.
  unfold stored. rewrite !dict_set_set. reflexivity.
Qed.

Lemma render_questions_typed (qs : list Question) :
  forall (i : nat) (answers : dict) (w : world),
    patient_assessments (session w) = VDict (stored a patient_id entry answers) ->
    render_questions (VStr patient_id) selected i (map question_value qs) w
    = (Return tt,
       {| session := with_assessments (session w)
                       (VDict (stored a patient_id entry
                                 (record_answers selected i (length qs) answers)));
          disk := disk w |}).
Proof.
  induction qs as [|q qs IH]; intros i answers w H.
  - cbn [map render_questions length record_answers]. unfold ret.
    rewrite <- H. destruct w as [[p g c pa] d]. reflexivity.
  - cbn [map render_questions length record_answers].
    rewrite question_text, bind_lift_return. cbn [py_format].
    rewrite bind_lift_return.
    change (py_getitem (question_value q) (VStr (lit "options")))
      with (Return (VList (map VStr (q_options q)))).
    rewrite bind_lift_return.
    rewrite (bind_eq _ _ _ _ _
               (set_user_response_stored (lit "question_" ++ str_of_nat i)
                  (selected i) answers w H)).
    match goal with
    | |- render_questions _ _ _ _ ?w1 = _ =>
        rewrite (IH (S i) (dict_set (question_key i) (selected i) answers) w1 eq_refl)
    end.
    reflexivity.
Qed.

Lemma evaluate_responses_typed (qs : list Question) (answers : dict) :
  evaluate_responses (assessment_value qs) (VDict answers)
  = Return (results_value (score answers qs)).
Proof.
  unfold evaluate_responses, assessment_value. cbn [py_getitem dict_get].
  rewrite pystr_eqb_refl. cbn [bindr py_len py_iter].
  rewrite evaluate_loop_typed. cbn [bindr]. unfold score.
  cbn [total_questions correct_answers incorrect_answers feedback].
  now rewrite length_map.
Qed.

Lemma show_feedback_entry (answers : dict) (i : nat) (q : Question)
    (rest : list value) :
  show_feedback (feedback_entry answers i q :: rest)
  = (_ <~ py_format (or_default (submitted answers i) VNone) ;; show_feedback rest).
Proof. reflexivity. Qed.

Lemma show_feedback_typed (answers : dict) (qs : list Question) :
  forall i : nat,
    (forall j, i <= j < i + length qs ->
       exists t, py_format (or_default (submitted answers j) VNone) = Return t) ->
    show_feedback (feedback_from answers i qs) = Return tt.
Proof.
  induction qs as [|q qs IH]; intros i H; [reflexivity|].
  cbn [feedback_from]. rewrite show_feedback_entry.
  destruct (H i) as (t & Ht); [cbn [length]; lia|].
  rewrite Ht. cbn [bindr].
  apply IH. intros j Hj. apply H. cbn [length]. lia.
Qed.

End KnowledgePage.

(** X18.  When no assessment comes out of the generation, the page shows
    the error and nothing is stored or written.  That is the case when
    the call of the service raises, when the cleaned reply is not JSON,
    and also when the reply is a JSON object that has a key [error]. *)
Theorem X18_assessment_generate_failure (patient_id : value) (reply : option pystr)
    (w : world) :
  (reply = None
   \/ exists text, reply = Some text
        /\ (json_loads (clean_response text) = None
            \/ exists d v, json_loads (clean_response text) = Some (VDict d)
                           /\ dict_get (lit "error") d = Some v)) ->
  assessment_generate patient_id reply w = (Return ASSESSMENT_FAILED, w).
Proof.
  intros [-> | (text & -> & [H | (d & v & H & Hv)])]; unfold assessment_generate;
    cbn [generate_knowledge_assessment]; rewrite ?H; [reflexivity | reflexivity |].
  cbn [py_contains]. now rewrite Hv.
Qed.

Lemma X18_witness :
  assessment_generate (VStr (lit "p1")) (Some prose_reply) quiz_world
  = (Return ASSESSMENT_FAILED, quiz_world).
Proof.
  apply (X18_assessment_generate_failure (VStr (lit "p1")) (Some prose_reply) quiz_world).
  right. exists prose_reply. split; [reflexivity|]. left. vm_compute. reflexivity.
Defined.

(** X19.  A generated assessment takes the place of the one the patient
    had: the stored entry holds the new quiz, no answers and no result,
    the entries of the other patients stay, and the file that is written
    holds the three persisted collections only. *)
Theorem X19_assessment_generate_replaces (patient_id text : pystr) (d a : dict)
    (w : world) :
  json_loads (clean_response text) = Some (VDict d) ->
  dict_get (lit "error") d = None ->
  patient_assessments (session w) = VDict a ->
  exists a',
    assessment_generate (VStr patient_id) (Some text) w
    = (Return (st_success (lit "Assessment generated successfully!")),
       {| session := with_assessments (session w) (VDict a');
          disk := Some (json_dumps (document (session w))) |})
    /\ dict_get patient_id a' = Some (assessment_entry (VDict d))
    /\ forall other, other <> patient_id -> dict_get other a' = dict_get other a.
Proof.
  intros Hj He Ha. exists (dict_set patient_id (assessment_entry (VDict d)) a).
  split; [|split].
  - unfold assessment_generate. cbn [generate_knowledge_assessment]. rewrite Hj.
    cbn [py_contains]. rewrite He, bind_lift_return, bind_get, Ha.
    cbn [py_setitem]. rewrite bind_lift_return. reflexivity.
  - apply dict_get_set_same.
  - intros other Ho. now apply dict_get_set_other.
Qed.

Lemma X19_witness :
  exists a',
    assessment_generate (VStr (lit "p1")) (Some quiz_json) quiz_world
    = (Return (st_success (lit "Assessment generated successfully!")),
       {| session := with_assessments (session quiz_world) (VDict a');
          disk := Some (json_dumps (document (session quiz_world))) |})
    /\ dict_get (lit "p1") a'
       = Some (assessment_entry (VDict [(lit "questions", VList [])]))
    /\ forall other, other <> lit "p1" ->
         dict_get other a'
         = dict_get other
             [(lit "p1", assessment_entry (assessment_value [sample_question]))].
Proof.
  apply (X19_assessment_generate_replaces (lit "p1") quiz_json
           [(lit "questions", VList [])]
           [(lit "p1", assessment_entry (assessment_value [sample_question]))]
           quiz_world).
  - vm_compute. reflexivity.
  - reflexivity.
  - reflexivity.
Defined.

(** X20.  Submitting an assessment of well-formed questions: the page
    reads the selection of every radio group into the stored answers,
    question [i] under the key [question_i], scores the quiz against
    these answers, stores the answers and the result in the patient's
    entry, writes the file (which holds no assessment) and shows the
    result. *)
Theorem X20_assessment_submit_scores_the_selection (patient_id : pystr)
    (qs : list Question) (selected : nat -> value) (a entry answers0 : dict)
    (results0 : value) (w : world) :
  patient_assessments (session w) = VDict a ->
  dict_get patient_id a = Some (VDict entry) ->
  dict_get (lit "assessment") entry = Some (assessment_value qs) ->
  dict_get (lit "user_responses") entry = Some (VDict answers0) ->
  dict_get (lit "results") entry = Some results0 ->
  (forall i, i < length qs -> exists t, py_format (selected i) = Return t) ->
  let answers := record_answers selected 0 (length qs) answers0 in
  let results := results_value (score answers qs) in
  knowledge_assessment (VStr patient_id) None selected true w
  = (Return results,
     {| session :=
          with_assessments (session w)
            (VDict (dict_set patient_id
                      (VDict (dict_set (lit "results") results
                                (dict_set (lit "user_responses") (VDict answers) entry)))
                      a));
        disk := Some (json_dumps (document (session w))) |})
  /\ forall i, i < length qs -> submitted answers i = Some (selected i).
Proof.
  intros Ha Hp Hq Hu Hr Hsel answers results.
  assert (Hget : forall i, i < length qs -> submitted answers i = Some (selected i)).
  { intros i Hi. unfold submitted, answers. apply record_answers_get. lia. }
  split; [|exact Hget].
  assert (Hs : a = stored a patient_id entry answers0).
  { unfold stored. rewrite (dict_set_same _ _ entry Hu).
    now rewrite (dict_set_same _ _ a Hp). }
  unfold knowledge_assessment. rewrite bind_ret, bind_get, Ha.
  cbn [py_contains]. rewrite Hp, bind_lift_return.
  cbn [py_getitem]. rewrite Hp, bind_lift_return.
  cbn [py_getitem]. rewrite Hq, bind_lift_return.
  rewrite Hu, bind_lift_return. rewrite Hr, bind_lift_return.
  change (py_getitem (assessment_value qs) (VStr (lit "questions")))
    with (Return (VList (map question_value qs))).
  rewrite bind_lift_return. cbn [py_iter]. rewrite bind_lift_return.
  rewrite Hs in Ha.
  rewrite (bind_eq _ _ _ _ _
             (render_questions_typed patient_id selected a entry qs 0 answers0 w Ha)).
  fold answers.
  unfold assessment_submit. rewrite bind_assoc, bind_get.
  cbn [session patient_assessments with_assessments].
  unfold stored at 1. cbn [py_getitem]. rewrite dict_get_set_same.
  rewrite bind_assoc, bind_lift_return.
  cbn [py_getitem]. rewrite dict_get_set_same.
  rewrite bind_assoc, bind_lift_return.
  rewrite evaluate_responses_typed. fold results.
  rewrite bind_assoc, bind_lift_return.
  cbn [py_setitem]. rewrite bind_assoc, bind_lift_return.
  rewrite bind_assoc, bind_lift_return.
  unfold stored. rewrite dict_set_set.
  rewrite bind_assoc. unfold bind at 1. unfold set_patient_assessments at 1.
  rewrite bind_assoc. unfold bind at 1. rewrite save_data_eq.
  rewrite bind_ret.
  assert (Hshow : show_results results = Return tt).
  { unfold results, show_results. cbn [results_value py_test py_truthy bindr].
    unfold score.
    cbn [py_getitem dict_get].
    change (pystr_eqb (lit "total_questions") (lit "total_questions")) with true.
    change (pystr_eqb (lit "correct_answers") (lit "total_questions")) with false.
    change (pystr_eqb (lit "correct_answers") (lit "correct_answers")) with true.
    change (pystr_eqb (lit "incorrect_answers") (lit "total_questions")) with false.
    change (pystr_eqb (lit "incorrect_answers") (lit "correct_answers")) with false.
    change (pystr_eqb (lit "incorrect_answers") (lit "incorrect_answers")) with true.
    change (pystr_eqb (lit "feedback") (lit "total_questions")) with false.
    change (pystr_eqb (lit "feedback") (lit "correct_answers")) with false.
    change (pystr_eqb (lit "feedback") (lit "incorrect_answers")) with false.
    change (pystr_eqb (lit "feedback") (lit "feedback")) with true.
    cbv beta iota. cbn [bindr py_format py_iter].
    cbn [total_questions correct_answers incorrect_answers feedback].
    apply show_feedback_typed. intros j Hj.
    rewrite Hget by lia. cbn [or_default]. apply Hsel. lia. }
  rewrite Hshow, bind_lift_return. reflexivity.
Qed.

Lemma X20_witness :
  let answers := record_answers (fun _ => VStr (lit "B")) 0 (length [sample_question]) [] in
  let results := results_value (score answers [sample_question]) in
  knowledge_assessment (VStr (lit "p1")) None (fun _ => VStr (lit "B")) true quiz_world
  = (Return results,
     {| session :=
          with_assessments (session quiz_world)
            (VDict (dict_set (lit "p1")
                      (VDict (dict_set (lit "results") results
                                (dict_set (lit "user_responses") (VDict answers)
                                   [(lit "assessment", assessment_value [sample_question]);
                                    (lit "user_responses", VDict []);
                                    (lit "results", VNone)])))
                      [(lit "p1", assessment_entry (assessment_value [sample_question]))]));
        disk := Some (json_dumps (document (session quiz_world))) |})
  /\ forall i, i < length [sample_question] ->
       submitted answers i = Some (VStr (lit "B")).
Proof.
  apply (X20_assessment_submit_scores_the_selection (lit "p1") [sample_question]
           (fun _ => VStr (lit "B"))
           [(lit "p1", assessment_entry (assessment_value [sample_question]))]
           [(lit "assessment", assessment_value [sample_question]);
            (lit "user_responses", VDict []); (lit "results", VNone)]
           [] VNone quiz_world); try reflexivity.
  intros i _. exists (lit "B"). reflexivity.
Defined.

Lemma knowledge_assessment_broken (patient_id : pystr) (v : value) (a : dict)
    (e : exn) (selected : nat -> value) (submit : bool) (w : world) :
  patient_assessments (session w) = VDict a ->
  dict_get patient_id a = Some (assessment_entry v) ->
  py_getitem v (VStr (lit "questions")) = Raise e ->
  knowledge_assessment (VStr patient_id) None selected submit w = (Raise e, w).
Proof.
  intros Ha Hp Hq. unfold knowledge_assessment. rewrite bind_ret, bind_get, Ha.
  cbn [py_contains]. rewrite Hp, bind_lift_return.
  cbn [py_getitem]. rewrite Hp, bind_lift_return.
  unfold assessment_entry at 1.
  change (py_getitem (VDict [(lit "assessment", v); (lit "user_responses", VDict []);
                             (lit "results", VNone)]) (VStr (lit "assessment")))
    with (Return v).
  rewrite bind_lift_return.
  unfold assessment_entry at 1.
  change (py_getitem (VDict [(lit "assessment", v); (lit "user_responses", VDict []);
                             (lit "results", VNone)]) (VStr (lit "user_responses")))
    with (Return (VDict [])).
  rewrite bind_lift_return.
  unfold assessment_entry at 1.
  change (py_getitem (VDict [(lit "assessment", v); (lit "user_responses", VDict []);
                             (lit "results", VNone)]) (VStr (lit "results")))
    with (Return VNone).
  rewrite bind_lift_return, bind_lift, Hq. reflexivity.
Qed.

(** X21.  A reply that is JSON but no quiz is stored all the same: when
    the cleaned reply is an array that does not hold the string [error],
    or an object with neither the key [error] nor the key [questions],
    the page stores it as the patient's assessment, writes the file, and
    then raises while it shows the questions; every later visit of this
    patient's page raises again, until an assessment is generated anew. *)
Theorem X21_reply_without_questions_breaks_the_page (patient_id text : pystr)
    (v : value) (a : dict) (selected : nat -> value) (submit : bool) (w : world) :
  json_loads (clean_response text) = Some v ->
  ((exists items, v = VList items
      /\ existsb (fun x => py_eq x (VStr (lit "error"))) items = false)
   \/ (exists d, v = VDict d /\ dict_get (lit "error") d = None
         /\ dict_get (lit "questions") d = None)) ->
  patient_assessments (session w) = VDict a ->
  let w' := {| session := with_assessments (session w)
                            (VDict (dict_set patient_id (assessment_entry v) a));
               disk := Some (json_dumps (document (session w))) |} in
  exists e,
    (e = TypeError \/ e = KeyError)
    /\ knowledge_assessment (VStr patient_id) (Some (Some text)) selected submit w
       = (Raise e, w')
    /\ knowledge_assessment (VStr patient_id) None selected submit w' = (Raise e, w').
Proof.
  intros Hj Hv Ha w'.
  assert (Hc : py_contains v (VStr (lit "error")) = Return false).
  { destruct Hv as [(items & -> & Hi) | (d & -> & He & _)]; cbn [py_contains].
    - now rewrite Hi.
    - now rewrite He. }
  assert (Hq : exists e, (e = TypeError \/ e = KeyError)
                         /\ py_getitem v (VStr (lit "questions")) = Raise e).
  { destruct Hv as [(items & -> & _) | (d & -> & _ & Hq)].
    - exists TypeError. split; [now left | reflexivity].
    - exists KeyError. split; [now right|]. cbn [py_getitem]. now rewrite Hq. }
  destruct Hq as (e & He & Hq). exists e. split; [exact He|].
  assert (Hview : knowledge_assessment (VStr patient_id) None selected submit w'
                  = (Raise e, w')).
  { apply (knowledge_assessment_broken patient_id v
             (dict_set patient_id (assessment_entry v) a)); [reflexivity | | exact Hq].
    apply dict_get_set_same. }
  split; [|exact Hview].
  assert (Hg : assessment_generate (VStr patient_id) (Some text) w
               = (Return (st_success (lit "Assessment generated successfully!")), w')).
  { unfold assessment_generate. cbn [generate_knowledge_assessment]. rewrite Hj, Hc.
    rewrite bind_lift_return, bind_get, Ha. cbn [py_setitem].
    rewrite bind_lift_return. reflexivity. }
  rewrite <- Hview. unfold knowledge_assessment.
  rewrite bind_assoc. rewrite (bind_eq _ _ _ _ _ Hg). reflexivity.
Qed.

Lemma X21_witness :
  let w' := {| session := with_assessments (session quiz_world)
                 (VDict (dict_set (lit "p1") (assessment_entry (VList []))
                           [(lit "p1",
                             assessment_entry (assessment_value [sample_question]))]));
               disk := Some (json_dumps (document (session quiz_world))) |} in
  exists e,
    (e = TypeError \/ e = KeyError)
    /\ knowledge_assessment (VStr (lit "p1")) (Some (Some array_document))
         (fun _ => VNone) false quiz_world
       = (Raise e, w')
    /\ knowledge_assessment (VStr (lit "p1")) None (fun _ => VNone) false w'
       = (Raise e, w').
Proof.
  apply (X21_reply_without_questions_breaks_the_page (lit "p1") array_document
           (VList []) [(lit "p1", assessment_entry (assessment_value [sample_question]))]
           (fun _ => VNone) false quiz_world).
  - vm_compute. reflexivity.
  - left. exists []. split; reflexivity.
  - reflexivity.
Defined.
